(** * Dynamisapi: pagination, identifier resolution, dispatch and HTTP client

    A shallow embedding of the helper pattern shared by the action modules
    of the backend:

    - the "path or opaque ID" resolvers of [onedrive_actions.py] and
      [sharepoint_actions.py];
    - the bounded [@odata.nextLink] pagination loops of
      [sharepoint_actions.py], [onedrive_actions.py] and [correo_actions.py],
      together with their error handlers;
    - the status normalisation of the [/dynamics] route;
    - [AuthenticatedHttpClient.request].

    Python values coming back from [response.json()] are modelled by the
    type [json]; dictionaries are association lists (insertion ordered, the
    first binding of a key is the one [get] sees).  A string is a sequence
    of characters, one [ascii] each, and [len] counts them.  Exceptions are
    explicit: a computation returns [Ok v] or [Raise e]. *)

From Stdlib Require Import ZArith List String Ascii Bool Lia.
Import ListNotations.
Open Scope string_scope.
Open Scope Z_scope.

(* ================================================================== *)
(** ** Python values *)

Module Py.

(** The values [json.loads] can build.  Numbers are the integers the code
    compares (status codes, counts). *)
#[local] Unset Elimination Schemes.
Inductive json : Type :=
| JNull
| JBool (b : bool)
| JNum (n : Z)
| JStr (s : string)
| JList (l : list json)
| JDict (d : list (string * json)).
#[local] Set Elimination Schemes.

Definition dict := list (string * json).

(** [d.get(k)] on a dictionary: [None] when the key is absent. *)
Fixpoint dict_get (k : string) (d : dict) : option json :=
  match d with
  | [] => None
  | (k', v) :: rest => if String.eqb k' k then Some v else dict_get k rest
  end.

(** [d.get(k, default)]. *)
Definition dict_get_default (k : string) (default : json) (d : dict) : json :=
  match dict_get k d with
  | Some v => v
  | None => default
  end.

(** Python truthiness ([if v:], [not v], [while v]). *)
Definition truthy (v : json) : bool :=
  match v with
  | JNull => false
  | JBool b => b
  | JNum n => negb (n =? 0)
  | JStr s => negb (String.eqb s "")
  | JList l => match l with [] => false | _ => true end
  | JDict d => match d with [] => false | _ => true end
  end.

(** [isinstance(v, list)]. *)
Definition is_list (v : json) : bool :=
  match v with JList _ => true | _ => false end.

(** [v == s] for a Python [str] [s]: only an equal string is equal. *)
Definition eq_str (v : json) (s : string) : bool :=
  match v with JStr s' => String.eqb s' s | _ => false end.

(** [c in s] for a one-character string [c]. *)
Fixpoint contains_char (c : ascii) (s : string) : bool :=
  match s with
  | EmptyString => false
  | String a rest => if Ascii.eqb a c then true else contains_char c rest
  end.

(** [s.startswith(p)]. *)
Definition startswith (p s : string) : bool := String.prefix p s.

(** [type(v).__name__]. *)
Definition py_type_name (v : json) : string :=
  match v with
  | JNull => "NoneType"
  | JBool _ => "bool"
  | JNum _ => "int"
  | JStr _ => "str"
  | JList _ => "list"
  | JDict _ => "dict"
  end.

(** One hexadecimal digit, in lower case. *)
Definition hex_digit (n : nat) : ascii :=
  nth n ["0"; "1"; "2"; "3"; "4"; "5"; "6"; "7"; "8"; "9";
         "a"; "b"; "c"; "d"; "e"; "f"]%char "0"%char.

(** How [repr] writes one character of a string delimited by [quote], for
    a character below 256: the delimiter and the backslash are escaped,
    tab, line feed and carriage return have their letters, and what is not
    printable (the controls, 127 to 160 and the soft hyphen) is written
    [\xNN]. *)
Definition repr_char (quote c : ascii) : string :=
  let n := nat_of_ascii c in
  if Ascii.eqb c quote || Ascii.eqb c "\"%char then String "\" (String c "")
  else if (n =? 9)%nat then "\t"
  else if (n =? 10)%nat then "\n"
  else if (n =? 13)%nat then "\r"
  else if ((n <? 32) || (127 <=? n) && (n <=? 160) || (n =? 173))%nat
  then String "\" (String "x" (String (hex_digit (n / 16))
                                      (String (hex_digit (n mod 16)) "")))
  else String c "".

Fixpoint repr_chars (quote : ascii) (s : string) : string :=
  match s with
  | EmptyString => EmptyString
  | String c rest => repr_char quote c ++ repr_chars quote rest
  end.

(** [repr(s)] of a string: in single quotes, unless the string has a
    single quote and no double quote. *)
Definition repr_str (s : string) : string :=
  let quote :=
    if contains_char "'"%char s && negb (contains_char "034"%char s)
    then "034"%char else "'"%char in
  String quote (repr_chars quote s) ++ String quote "".

(** [repr(l)] of a list of strings, which is what an f-string writes for
    it. *)
Definition repr_str_list (l : list string) : string :=
  "[" ++ String.concat ", " (map repr_str l) ++ "]".

(** [len(s)] as a Python integer. *)
Definition len_str (s : string) : Z := Z.of_nat (String.length s).

(** [len(l)] as a Python integer. *)
Definition len {A} (l : list A) : Z := Z.of_nat (List.length l).

End Py.
Import Py.

(* ================================================================== *)
(** ** Exceptions and responses *)

(** A [requests.Response]: its status code, its raw text and what
    [response.json()] gives ([None]: the body is not JSON and [json()]
    raises a [JSONDecodeError]). *)
Record response : Type := mkResponse {
  status_code : Z;
  text : string;
  json_body : option json
}.

(** The exceptions the helpers see.  [HTTPError msg r] is
    [requests.exceptions.HTTPError] with [str(e) = msg] and
    [e.response = r]; every other exception is kept by its type name and
    its message. *)
Inductive exn : Type :=
| HTTPError (msg : string) (resp : option response)
| OtherError (type_name : string) (msg : string).

(** [type(e).__name__]. *)
Definition exn_type_name (e : exn) : string :=
  match e with
  | HTTPError _ _ => "HTTPError"
  | OtherError n _ => n
  end.

(** [str(e)]. *)
Definition exn_str (e : exn) : string :=
  match e with
  | HTTPError m _ => m
  | OtherError _ m => m
  end.

(** Result of a Python call: a value or a raised exception. *)
Inductive pyres (A : Type) : Type :=
| Ok (a : A)
| Raise (e : exn).
Arguments Ok {A} a.
Arguments Raise {A} e.

Definition bind {A B} (m : pyres A) (k : A -> pyres B) : pyres B :=
  match m with
  | Ok a => k a
  | Raise e => Raise e
  end.

Notation "x <- m ;; k" := (bind m (fun x => k))
  (at level 61, m at next level, right associativity).

(** The [AttributeError] of [v.name] on a value that has no such
    attribute: ['<type>' object has no attribute '<name>']. *)
Definition no_attribute (v : json) (name : string) : exn :=
  OtherError "AttributeError"
    ("'" ++ py_type_name v ++ "' object has no attribute '" ++ name ++ "'").

(** [v.get(k, default)] on an arbitrary Python value: only dictionaries
    have [get]; on anything else the attribute lookup raises. *)
Definition py_get (v : json) (k : string) (default : json) : pyres json :=
  match v with
  | JDict d => Ok (dict_get_default k default d)
  | _ => Raise (no_attribute v "get")
  end.

(** [s.split('?')] inside a log message: needs a string. *)
Definition py_split_for_log (v : json) : pyres unit :=
  match v with
  | JStr _ => Ok tt
  | _ => Raise (no_attribute v "split")
  end.

(* ================================================================== *)
(** ** Identifier-or-path resolution *)

Module Resolver.

(** The heuristic shared by [_get_item_id_from_path_if_needed]
    (onedrive_actions.py) and [_get_item_id_from_path_if_needed_sp]
    (sharepoint_actions.py):
    ['!' in s or (len(s) > 40 and '/' not in s and '.' not in s)
      or s.startswith("driveItem_")]. *)
Definition is_likely_id (item_path_or_id : string) : bool :=
  contains_char "!"%char item_path_or_id
  || ((40 <? len_str item_path_or_id)
      && negb (contains_char "/"%char item_path_or_id)
      && negb (contains_char "."%char item_path_or_id))
  || startswith "driveItem_" item_path_or_id.

(** The heuristic by which the OneDrive lookup,
    [_internal_onedrive_get_item_metadata], picks the by-path endpoint. *)
Definition is_path_like (item_path_or_id : string) : bool :=
  contains_char "/"%char item_path_or_id
  || (contains_char "."%char item_path_or_id
      && negb (startswith "driveItem_" item_path_or_id)
      && (len_str item_path_or_id <? 70))
  || (negb (startswith "driveItem_" item_path_or_id)
      && (len_str item_path_or_id <? 70)
      && negb (contains_char "."%char item_path_or_id)
      && negb (contains_char "!"%char item_path_or_id)).

(** The heuristic by which the SharePoint lookup, [get_file_metadata],
    picks the by-ID endpoint:
    [not ('/' in s) and (len(s) > 40 or '!' in s)]. *)
Definition is_item_id (item_id_or_path : string) : bool :=
  negb (contains_char "/"%char item_id_or_path)
  && ((40 <? len_str item_id_or_path) || contains_char "!"%char item_id_or_path).

Section WithLookup.

(** [str(response)] of a dictionary, used only to fill a message. *)
Variable py_repr : dict -> string.

(** The metadata lookup the resolver falls back on:
    [_internal_onedrive_get_item_metadata(client, {"item_id_o_nombre_con_ruta": p, "select": "id,name"})]
    for OneDrive, [get_file_metadata(client, {"site_id", "drive_id_or_name", "item_id_or_path": p, "select": "id,name"})]
    for SharePoint.  Both return a dictionary or let an exception out. *)
Variable metadata : string -> pyres dict.

(** What a resolver did: its Python result and the paths it looked up. *)
Record resolution : Type := mkResolution {
  res_value : pyres json;
  res_lookups : list string
}.

(** onedrive_actions.py, [_get_item_id_from_path_if_needed]. *)
Definition _get_item_id_from_path_if_needed (item_path_or_id : string)
  : resolution :=
  if is_likely_id item_path_or_id then
    mkResolution (Ok (JStr item_path_or_id)) []
  else
    mkResolution
      (resp <- metadata item_path_or_id ;;
       if eq_str (dict_get_default "status" JNull resp) "success" then
         item_id <- py_get (dict_get_default "data" (JDict []) resp) "id" JNull ;;
         if truthy item_id then Ok item_id
         else
           Ok (JDict [("status", JStr "error");
                      ("message", JStr ("No se pudo obtener el ID para el path/item OneDrive '"
                                        ++ item_path_or_id ++ "'."));
                      ("details", JStr (py_repr resp))])
       else if eq_str (dict_get_default "status" JNull resp) "error" then
         Ok (JDict resp)
       else
         Ok (JDict [("status", JStr "error");
                    ("message", JStr ("No se pudo obtener el ID para el path/item OneDrive '"
                                      ++ item_path_or_id ++ "'."));
                    ("details", JStr (py_repr resp))]))
      [item_path_or_id].

(** sharepoint_actions.py, [_get_item_id_from_path_if_needed_sp]: the
    lookup runs inside [try ... except Exception]. *)
Definition _get_item_id_from_path_if_needed_sp (item_path_or_id : string)
  : resolution :=
  if is_likely_id item_path_or_id then
    mkResolution (Ok (JStr item_path_or_id)) []
  else
    let body : pyres json :=
      resp <- metadata item_path_or_id ;;
      if eq_str (dict_get_default "status" JNull resp) "success" then
        let item_data := dict_get_default "data" (JDict []) resp in
        item_id <- py_get item_data "id" JNull ;;
        if truthy item_id then Ok item_id
        else
          Ok (JDict [("status", JStr "error");
                     ("message", JStr ("ID no encontrado para SP path '"
                                       ++ item_path_or_id ++ "'."));
                     ("details", item_data);
                     ("http_status", JNum 404)])
      else
        Ok (JDict [("status", JStr "error");
                   ("message", JStr ("Fallo al obtener metadata para SP path '"
                                     ++ item_path_or_id ++ "'."));
                   ("details", JDict resp);
                   ("http_status", dict_get_default "http_status" (JNum 500) resp)])
    in
    mkResolution
      (match body with
       | Ok v => Ok v
       | Raise e_meta =>
           Ok (JDict [("status", JStr "error");
                      ("message", JStr ("Excepción obteniendo ID para SP path '"
                                        ++ item_path_or_id ++ "': " ++ exn_str e_meta));
                      ("details", JStr (exn_str e_meta));
                      ("http_status", JNum 500)])
       end)
      [item_path_or_id].

(** A resolver call classified its input as an opaque ID when it answered
    with the input itself without any lookup. *)
Definition classified_as_id (s : string) (r : resolution) : Prop :=
  res_value r = Ok (JStr s) /\ res_lookups r = [].

(** It classified the input as a path when it issued the lookup for it. *)
Definition classified_as_path (s : string) (r : resolution) : Prop :=
  res_lookups r = [s].

End WithLookup.

End Resolver.

(* ================================================================== *)
(** ** The authenticated HTTP client (shared/helpers/http_client.py) *)

Module HttpClient.

(** Python [dict] with string keys and values of type [V]:
    [d[k] = v] replaces the binding of [k] or adds one at the end. *)
Fixpoint set_key {V : Type} (k : string) (v : V) (d : list (string * V))
  : list (string * V) :=
  match d with
  | [] => [(k, v)]
  | (k', v') :: rest =>
      if String.eqb k' k then (k', v) :: rest else (k', v') :: set_key k v rest
  end.

(** [d.get(k)] / [k in d] for such a dictionary. *)
Fixpoint get_key {V : Type} (k : string) (d : list (string * V)) : option V :=
  match d with
  | [] => None
  | (k', v) :: rest => if String.eqb k' k then Some v else get_key k rest
  end.

Definition headers := list (string * string).

(** The keyword arguments [request] looks at; an absent key is [None],
    and a key passed as [None] holds [JNull]. *)
Record kwargs : Type := mkKwargs {
  kw_headers : option headers;
  kw_params : option (option dict);
  kw_json : option json;
  kw_data : option json;
  kw_timeout : option Z
}.

(** What reaches [self.session.request]. *)
Record http_request : Type := mkHttpRequest {
  hr_method : string;
  hr_url : json;
  hr_headers : headers;
  hr_timeout : Z;
  hr_params : option (option dict);
  hr_json : option json;
  hr_data : option json
}.

Section Client.

(** [self.credential.get_token( *scope)]: the token string or an exception. *)
Variable get_token : list string -> pyres string.

(** [self.session.request(...)]: a response or a transport exception. *)
Variable session_request : http_request -> pyres response.

(** [self.default_timeout]. *)
Variable default_timeout : Z.

(** [_get_access_token]: [None] for an empty scope and for every failure
    of the credential. *)
Definition _get_access_token (scope : list string) : option string :=
  match scope with
  | [] => None
  | _ =>
      match get_token scope with
      | Ok token => Some token
      | Raise _ => None
      end
  end.

(** [response.raise_for_status()] of the requests library: an
    [HTTPError] carrying the response for the 4xx and 5xx codes. *)
Definition raise_for_status (r : response) : pyres response :=
  if (400 <=? status_code r) && (status_code r <? 600)
  then Raise (HTTPError "HTTP error" (Some r))
  else Ok r.

(** The [except requests.exceptions.HTTPError as http_err] branch: it
    builds a log message from the error body and then re-raises.  Only
    [json.JSONDecodeError] is caught around the message building, so an
    [AttributeError] raised there replaces the HTTP error. *)
Definition log_http_error_then_reraise (http_err : exn) (resp : option response)
  : pyres response :=
  match resp with
  | None => Raise (OtherError "AttributeError" "'NoneType' object has no attribute 'status_code'")
  | Some r =>
      match json_body r with
      | None => Raise http_err
      | Some error_details_json =>
          error_info <- py_get error_details_json "error" (JDict []) ;;
          _ <- py_get error_info "message" JNull ;;
          Raise http_err
      end
  end.

(** [raise ValueError(f"No se pudo obtener el token de acceso para el scope {scope}.")]. *)
Definition no_token (scope : list string) : pyres response :=
  Raise (OtherError "ValueError"
           ("No se pudo obtener el token de acceso para el scope "
            ++ repr_str_list scope ++ ".")).

(** [AuthenticatedHttpClient.request]: its outcome and the requests it
    handed to the session. *)
Definition request (method : string) (url : json) (scope : list string)
    (kw : kwargs) : pyres response * list http_request :=
  match _get_access_token scope with
  | None => (no_token scope, [])
  | Some access_token =>
      if String.eqb access_token "" then (no_token scope, [])
      else
        let request_headers :=
          set_key "Authorization" ("Bearer " ++ access_token)
                  (match kw_headers kw with Some h => h | None => [] end) in
        let request_headers :=
          match kw_json kw, kw_data kw with
          | None, None => request_headers
          | _, _ =>
              match get_key "Content-Type" request_headers with
              | Some _ => request_headers
              | None => set_key "Content-Type" "application/json" request_headers
              end
          end in
        let timeout :=
          match kw_timeout kw with Some t => t | None => default_timeout end in
        let sent :=
          mkHttpRequest method url request_headers timeout
                        (kw_params kw) (kw_json kw) (kw_data kw) in
        let attempt := r <- session_request sent ;; raise_for_status r in
        (match attempt with
         | Ok r => Ok r
         | Raise (HTTPError m resp) => log_http_error_then_reraise (HTTPError m resp) resp
         | Raise e => Raise e
         end,
         [sent])
  end.

(** [AuthenticatedHttpClient.get(url, scope, params=p)]. *)
Definition get (url : json) (scope : list string) (params : option dict)
  : pyres response * list http_request :=
  request "GET" url scope (mkKwargs None (Some params) None None None).

End Client.

End HttpClient.

(* ================================================================== *)
(** ** Bounded cursor pagination *)

Module Paging.

(** One call [client.get(url=..., scope=scope, params=...)]. *)
Record request : Type := mkRequest {
  req_url : json;
  req_params : option dict
}.

(** The client as the helpers use it: the outcome of a [get] given the
    requests issued before it (latest first) and the request itself. *)
Definition client := list request -> request -> pyres response.

(** The variables of the loop, and the calls made so far (latest first). *)
Record loop_state : Type := mkState {
  all_items : list json;
  current_url : json;
  page_count : Z;
  trace : list request
}.

(** One pass through the loop body. *)
Inductive step_result : Type :=
| Continue (st : loop_state)
| Break (st : loop_state)
| Throw (e : exn) (st : loop_state).

(** How the [while] statement ended. *)
Inductive loop_outcome : Type :=
| Finished (st : loop_state)
| Failed (e : exn) (st : loop_state)
| OutOfFuel.

(** [max_items_total is None or n < max_items_total]. *)
Definition cap_open (max_items_total : option Z) (n : Z) : bool :=
  match max_items_total with
  | None => true
  | Some m => n <? m
  end.

(** [max_items_total is not None and n >= max_items_total]. *)
Definition cap_reached (max_items_total : option Z) (n : Z) : bool :=
  match max_items_total with
  | None => false
  | Some m => m <=? n
  end.

(** [for item in page_items: if <cap open>: all_items.append(item) else: break]. *)
Fixpoint append_items (max_items_total : option Z) (all_items page_items : list json)
  : list json :=
  match page_items with
  | [] => all_items
  | item :: rest =>
      if cap_open max_items_total (len all_items)
      then append_items max_items_total (all_items ++ [item]) rest
      else all_items
  end.

Section Loop.

Variable client_get : client.
Variable url_base : string.
Variable query_api_params_initial : dict.
Variable max_items_total : option Z.
Variable max_pages : Z.

(** The OneDrive and mail helpers format [current_url.split('?')[0]] into
    a debug message before each call; the SharePoint helper does not. *)
Variable logs_url : bool.

(** [current_url and (<cap open>) and page_count < max_pages]. *)
Definition loop_cond (st : loop_state) : bool :=
  truthy (current_url st)
  && cap_open max_items_total (len (all_items st))
  && (page_count st <? max_pages).

(** The request the body issues from a state. *)
Definition next_request (st : loop_state) : request :=
  let page_count := page_count st + 1 in
  let is_first_call := eq_str (current_url st) url_base && (page_count =? 1) in
  mkRequest (current_url st)
            (if is_first_call then Some query_api_params_initial else None).

(** The loop body. *)
Definition iterate (st : loop_state) : step_result :=
  let page_count := page_count st + 1 in
  match (if logs_url then py_split_for_log (current_url st) else Ok tt) with
  | Raise e => Throw e (mkState (all_items st) (current_url st) page_count (trace st))
  | Ok _ =>
      let req := next_request st in
      let trace' := req :: trace st in
      match client_get (trace st) req with
      | Raise e => Throw e (mkState (all_items st) (current_url st) page_count trace')
      | Ok resp =>
          match json_body resp with
          | None =>
              Throw (OtherError "JSONDecodeError" "Expecting value")
                    (mkState (all_items st) (current_url st) page_count trace')
          | Some response_data =>
              match py_get response_data "value" (JList []) with
              | Raise e =>
                  Throw e (mkState (all_items st) (current_url st) page_count trace')
              | Ok (JList page_items) =>
                  let all_items' := append_items max_items_total (all_items st) page_items in
                  match py_get response_data "@odata.nextLink" JNull with
                  | Raise e =>
                      Throw e (mkState all_items' (current_url st) page_count trace')
                  | Ok next =>
                      if negb (truthy next) || cap_reached max_items_total (len all_items')
                      then Break (mkState all_items' next page_count trace')
                      else Continue (mkState all_items' next page_count trace')
                  end
              | Ok _ =>
                  Break (mkState (all_items st) (current_url st) page_count trace')
              end
          end
      end
  end.

(** The [while] loop; [fuel] bounds the number of passes. *)
Fixpoint paged_loop (fuel : nat) (st : loop_state) : loop_outcome :=
  if loop_cond st then
    match fuel with
    | O => OutOfFuel
    | S fuel' =>
        match iterate st with
        | Continue st' => paged_loop fuel' st'
        | Break st' => Finished st'
        | Throw e st' => Failed e st'
        end
    end
  else Finished st.

(** The state before the loop: [all_items = []], [current_url = url_base],
    [page_count = 0]. *)
Definition initial_state : loop_state :=
  mkState [] (JStr url_base) 0 [].

(** The states the helper passes through at the head of the loop. *)
Inductive reachable : loop_state -> Prop :=
| reach_init : reachable initial_state
| reach_step st st' :
    reachable st -> loop_cond st = true -> iterate st = Continue st' ->
    reachable st'.

(** Passes that suffice from a state: one per page still allowed. *)
Definition fuel_for (st : loop_state) : nat :=
  Z.to_nat (max_pages - page_count st).

End Loop.

(** *** Error handlers *)

(** The dictionary all three handlers return. *)
Definition error_dict (action_name message : string) (status_code : Z)
    (details graph_error_code : json) : dict :=
  [("status", JStr "error"); ("action", JStr action_name);
   ("message", JStr message); ("http_status", JNum status_code);
   ("details", details); ("graph_error_code", graph_error_code)].

(** The part the handlers share: status 500 and [str(e)] unless [e] is an
    [HTTPError] with a response, whose status and JSON error body are then
    used; [on_bad_json] is the [except json.JSONDecodeError] fallback. *)
Definition handle_api_error (message_prefix : string)
    (on_bad_json : response -> json) (e : exn) (action_name : string)
  : pyres dict :=
  let message := message_prefix ++ action_name ++ ": " ++ exn_type_name e in
  match e with
  | HTTPError _ (Some r) =>
      match json_body r with
      | None =>
          Ok (error_dict action_name message (status_code r) (on_bad_json r) JNull)
      | Some error_data =>
          error_info <- py_get error_data "error" (JDict []) ;;
          details <- py_get error_info "message" (JStr (text r)) ;;
          graph_error_code <- py_get error_info "code" JNull ;;
          Ok (error_dict action_name message (status_code r) details graph_error_code)
      end
  | _ => Ok (error_dict action_name message 500 (JStr (exn_str e)) JNull)
  end.

(** sharepoint_actions.py, [_handle_graph_api_error]. *)
Definition _handle_graph_api_error (e : exn) (action_name : string) : pyres dict :=
  handle_api_error "Error ejecutando " (fun r => JStr (text r)) e action_name.

(** onedrive_actions.py, [_handle_onedrive_api_error]. *)
Definition _handle_onedrive_api_error (e : exn) (action_name : string) : pyres dict :=
  handle_api_error "Error en " (fun r => JStr (text r)) e action_name.

(** [s[:n]]. *)
Fixpoint str_take (n : nat) (s : string) : string :=
  match n, s with
  | S n', String a rest => String a (str_take n' rest)
  | _, _ => EmptyString
  end.

(** correo_actions.py, [_handle_email_api_error]. *)
Definition _handle_email_api_error (e : exn) (action_name : string) : pyres dict :=
  handle_api_error "Error en "
    (fun r => if String.eqb (text r) "" then JStr "No response body"
              else JStr (str_take 500 (text r)))
    e action_name.

(** *** The three helpers

    Of the source's arguments, [scope] is carried by the client
    ([authenticated_client] below fixes it) and [params] / [params_input]
    only feed the handler's log line; neither is an argument here. *)

(** [settings]: only [MAX_PAGING_PAGES] matters here; config.py does not
    declare it, so [getattr(settings, 'MAX_PAGING_PAGES', d)] gives [d]
    unless the attribute is set. *)
Record settings_t : Type := mkSettings {
  MAX_PAGING_PAGES : option Z
}.

Definition getattr_max_pages (settings : settings_t) (default : Z) : Z :=
  match MAX_PAGING_PAGES settings with
  | Some p => p
  | None => default
  end.

(** What a helper call amounts to: what it returned or raised, and the
    calls it made (latest first). *)
Definition run : Type := pyres dict * list request.

(** The envelope of the SharePoint and mail helpers. *)
Definition success_value_count (all_items : list json) (page_count : Z) : dict :=
  [("status", JStr "success");
   ("data", JDict [("value", JList all_items); ("@odata.count", JNum (len all_items))]);
   ("total_retrieved", JNum (len all_items));
   ("pages_processed", JNum page_count)].

(** The envelope of the OneDrive helper. *)
Definition success_plain (all_items : list json) (page_count : Z) : dict :=
  [("status", JStr "success");
   ("data", JList all_items);
   ("total_retrieved", JNum (len all_items));
   ("pages_processed", JNum page_count)].

(** [try: <loop>; return <envelope> except Exception as e: return <handler>]. *)
Definition finish (success : list json -> Z -> dict)
    (handler : exn -> string -> pyres dict) (action_name_for_log : string)
    (o : loop_outcome) : option run :=
  match o with
  | Finished st => Some (Ok (success (all_items st) (page_count st)), trace st)
  | Failed e st => Some (handler e action_name_for_log, trace st)
  | OutOfFuel => None
  end.

(** The helper resumed at the head of the loop in state [st]. *)
Definition paged_from (client_get : client) (url_base : string)
    (query_api_params_initial : dict) (max_items_total : option Z)
    (max_pages : Z) (logs_url : bool)
    (success : list json -> Z -> dict) (handler : exn -> string -> pyres dict)
    (action_name_for_log : string) (st : loop_state) : option run :=
  finish success handler action_name_for_log
    (paged_loop client_get url_base query_api_params_initial max_items_total
                max_pages logs_url
                (fuel_for max_pages st) st).

(** sharepoint_actions.py, [_sp_paged_request]. *)
Definition _sp_paged_request (settings : settings_t) (client_get : client)
    (url_base : string) (query_api_params_initial : dict)
    (max_items_total : option Z) (action_name_for_log : string) : option run :=
  paged_from client_get url_base query_api_params_initial max_items_total
    (getattr_max_pages settings 20) false
    success_value_count _handle_graph_api_error action_name_for_log
    (initial_state url_base).

(** onedrive_actions.py, [_onedrive_paged_request]: [max_items_total] is
    an [int] here. *)
Definition _onedrive_paged_request (settings : settings_t) (client_get : client)
    (url_base : string) (query_api_params_initial : dict)
    (max_items_total : Z) (action_name_for_log : string) : option run :=
  paged_from client_get url_base query_api_params_initial (Some max_items_total)
    (getattr_max_pages settings 30) true
    success_plain _handle_onedrive_api_error action_name_for_log
    (initial_state url_base).

(** correo_actions.py, [_email_paged_request]. *)
Definition _email_paged_request (settings : settings_t) (client_get : client)
    (url_base : string) (query_api_params_initial : dict)
    (max_items_total : option Z) (action_name_for_log : string) : option run :=
  paged_from client_get url_base query_api_params_initial max_items_total
    (getattr_max_pages settings 20) true
    success_value_count _handle_email_api_error action_name_for_log
    (initial_state url_base).

(** The helpers' client when it is an [AuthenticatedHttpClient]:
    [session] is the transport, which may answer according to the calls
    made before. *)
Definition authenticated_client (get_token : list string -> pyres string)
    (session : list request -> HttpClient.http_request -> pyres response)
    (default_timeout : Z) (scope : list string) : client :=
  fun earlier req =>
    fst (HttpClient.get get_token (session earlier) default_timeout
                        (req_url req) scope (req_params req)).

(** *** Vocabulary of the properties *)

(** The state a loop ended in, if it ended. *)
Definition final_state (o : loop_outcome) : option loop_state :=
  match o with
  | Finished st => Some st
  | Failed _ st => Some st
  | OutOfFuel => None
  end.

(** The state a pass of the loop body leaves. *)
Definition after (r : step_result) : loop_state :=
  match r with
  | Continue st | Break st | Throw _ st => st
  end.

(** Whether a pass from [st] gets as far as [client.get]: the helpers that
    log the URL first need it to be a string. *)
Definition called (logs_url : bool) (st : loop_state) : bool :=
  if logs_url
  then match current_url st with JStr _ => true | _ => false end
  else true.

(** What holds between a state [st] at the head of the loop and the state
    [st'] the loop ends in: pages are only counted up and never past the
    page cap, no pass makes more than one call, and a bounded accumulator
    stays within its cap. *)
Definition within (max_items_total : option Z) (max_pages : Z)
    (st st' : loop_state) : Prop :=
  page_count st <= page_count st'
  /\ page_count st' <= Z.max (page_count st) max_pages
  /\ len (trace st') - len (trace st) <= page_count st' - page_count st
  /\ (forall n, max_items_total = Some n ->
        len (all_items st) <= n -> len (all_items st') <= n).

(** The cursor held by a state is a string whenever it is truthy. *)
Definition url_ok (st : loop_state) : Prop :=
  truthy (current_url st) = true -> exists s, current_url st = JStr s.

(** The SharePoint helper, called with these arguments, stands at the head
    of a pass in state [st]. *)
Definition sp_at (settings : settings_t) (client_get : client)
    (url_base : string) (query_api_params_initial : dict)
    (max_items_total : option Z) (st : loop_state) : Prop :=
  reachable client_get url_base query_api_params_initial max_items_total
            (getattr_max_pages settings 20) false st
  /\ loop_cond max_items_total (getattr_max_pages settings 20) st = true.

(** The OneDrive helper stands at the head of a pass in state [st] with a
    string for a cursor, so that the pass gets to its call. *)
Definition onedrive_at (settings : settings_t) (client_get : client)
    (url_base : string) (query_api_params_initial : dict)
    (max_items_total : Z) (st : loop_state) : Prop :=
  reachable client_get url_base query_api_params_initial (Some max_items_total)
            (getattr_max_pages settings 30) true st
  /\ loop_cond (Some max_items_total) (getattr_max_pages settings 30) st = true
  /\ called true st = true.

(** The first [n] items when the cap is [n]; all of them without a cap. *)
Definition take_cap (max_items_total : option Z) (items : list json) : list json :=
  match max_items_total with
  | None => items
  | Some n => firstn (Z.to_nat n) items
  end.

(** The batch a page body contributes: its ['value'] list, nothing when the
    key is absent or holds something else. *)
Definition page_items_of (d : dict) : list json :=
  match dict_get_default "value" (JList []) d with
  | JList l => l
  | _ => []
  end.

(** A well-formed page: an answer whose body is a JSON object and whose
    cursor, when there is one, is a string or null. *)
Definition page_like (r : response) : Prop :=
  exists d, json_body r = Some (JDict d)
    /\ (dict_get "@odata.nextLink" d = None
        \/ dict_get "@odata.nextLink" d = Some JNull
        \/ exists s, dict_get "@odata.nextLink" d = Some (JStr s)).

(** An upstream that answers every call with a well-formed page. *)
Definition serves_pages (client_get : client) : Prop :=
  forall earlier req, exists r, client_get earlier req = Ok r /\ page_like r.

(** The calls of a fetch, latest first, follow the cursors: the oldest call
    is the start URL with the initial query parameters, and every later
    call has no parameters and goes to the ['@odata.nextLink'] value of the
    answer to the call before it. *)
Fixpoint follows_cursors (client_get : client) (url_base : string)
    (query_api_params_initial : dict) (calls : list request) : Prop :=
  match calls with
  | [] => True
  | later :: earlier =>
      match earlier with
      | [] => later = mkRequest (JStr url_base) (Some query_api_params_initial)
      | before :: older =>
          req_params later = None
          /\ exists r d, client_get older before = Ok r
               /\ json_body r = Some (JDict d)
               /\ dict_get "@odata.nextLink" d = Some (req_url later)
      end
      /\ follows_cursors client_get url_base query_api_params_initial earlier
  end.

(** The message an upstream error response carries: the [message] member
    of the [error] object of its JSON body, and its raw text when the body
    is not JSON or has no such member. *)
Definition upstream_message (r : response) : json :=
  match json_body r with
  | Some (JDict d) =>
      match dict_get_default "error" (JDict []) d with
      | JDict error_info => dict_get_default "message" (JStr (text r)) error_info
      | _ => JStr (text r)
      end
  | _ => JStr (text r)
  end.

(** What links a state to the calls made so far: before any call the
    cursor is the start URL and no page is counted; afterwards at least one
    page is counted and the cursor is the ['@odata.nextLink'] value of the
    answer to the latest call. *)
Definition cursor_inv (client_get : client) (url_base : string)
    (query_api_params_initial : dict) (st : loop_state) : Prop :=
  follows_cursors client_get url_base query_api_params_initial (trace st)
  /\ match trace st with
     | [] => current_url st = JStr url_base /\ page_count st = 0
     | latest :: earlier =>
         1 <= page_count st
         /\ exists r d, client_get earlier latest = Ok r
              /\ json_body r = Some (JDict d)
              /\ dict_get "@odata.nextLink" d = Some (current_url st)
     end.

End Paging.

(* ================================================================== *)
(** ** The dispatch route (api/routes/dynamics_actions.py) *)

Module Dispatch.

(** The response the route serves for a dictionary result: its HTTP status
    and whether it is the standard error payload or the result itself. *)
Inductive served : Type :=
| ErrorResponse (status : Z)
| JSONResponse (status : Z) (content : dict).

Definition served_status (s : served) : Z :=
  match s with
  | ErrorResponse c => c
  | JSONResponse c _ => c
  end.

(** [200 <= c < 300]. *)
Definition is_2xx (c : Z) : bool := (200 <=? c) && (c <? 300).

(** The integer an [http_status] value is compared as; anything that is
    not a number makes the comparison raise a [TypeError]. *)
Definition py_int (v : json) : pyres Z :=
  match v with
  | JNum n => Ok n
  | JBool b => Ok (Z.b2z b)
  | _ => Raise (OtherError "TypeError" "'<=' not supported between instances")
  end.

Section Route.

(** [create_error_response] builds a pydantic [ErrorResponse] from the
    result's [message], [details] and [graph_error_code]; whether that
    model accepts them is left open. *)
Variable error_payload_validates : dict -> bool.

(** [create_error_response(status_code=c, ...)] for a handler result. *)
Definition create_error_response (c : Z) (result : dict) : pyres served :=
  if error_payload_validates result then Ok (ErrorResponse c)
  else Raise (OtherError "ValidationError" "validation error for ErrorResponse").

(** The [elif isinstance(result, dict)] branch of [process_dynamic_action]
    inside its [try]; the final [except Exception] serves a 500. *)
Definition process_dynamic_action_dict (result : dict) : served :=
  let attempt : pyres served :=
    if eq_str (dict_get_default "status" JNull result) "error" then
      error_status_code <- py_int (dict_get_default "http_status" (JNum 500) result) ;;
      let error_status_code :=
        if is_2xx error_status_code then 500 else error_status_code in
      create_error_response error_status_code result
    else
      success_status_code <- py_int (dict_get_default "http_status" (JNum 200) result) ;;
      let success_status_code :=
        if negb (is_2xx success_status_code) then 200 else success_status_code in
      Ok (JSONResponse success_status_code result)
  in
  match attempt with
  | Ok s => s
  | Raise _ => ErrorResponse 500
  end.

End Route.

End Dispatch.

(* ================================================================== *)
(** ** Sample upstreams and inputs *)

Module Samples.
Import Paging.

Definition start_url : string := "https://graph.microsoft.com/v1.0/me/drive/root/children".
Definition next_url : string := "https://graph.microsoft.com/v1.0/me/drive/root/children?$skiptoken=X".
Definition top_params : dict := [("$top", JNum 50)].

(** A page of three items that always points to a further page. *)
Definition crowded_page : response :=
  mkResponse 200 ""
    (Some (JDict [("value", JList [JStr "a"; JStr "b"; JStr "c"]);
                  ("@odata.nextLink", JStr next_url)])).

(** An upstream that never runs out of crowded pages. *)
Definition endless_upstream : client := fun _ _ => Ok crowded_page.

(** A page of two items without a cursor. *)
Definition last_page : response :=
  mkResponse 200 "" (Some (JDict [("value", JList [JStr "a"; JStr "b"])])).

(** An upstream with a single page. *)
Definition single_page_upstream : client := fun _ _ => Ok last_page.

(** A body without ['value'] that still carries a cursor. *)
Definition valueless_page : response :=
  mkResponse 200 "" (Some (JDict [("@odata.nextLink", JStr next_url)])).

(** An upstream whose first answer is [valueless_page] and whose later
    answers are [last_page]. *)
Definition valueless_then_last : client :=
  fun earlier _ =>
    match earlier with
    | [] => Ok valueless_page
    | _ => Ok last_page
    end.

(** A second page whose ['value'] is an object instead of a list. *)
Definition odd_page : response :=
  mkResponse 200 ""
    (Some (JDict [("value", JDict [("id", JStr "x")]);
                  ("@odata.nextLink", JStr next_url)])).

(** An upstream that serves one crowded page and then [odd_page]. *)
Definition crowded_then_odd : client :=
  fun earlier _ =>
    match earlier with
    | [] => Ok crowded_page
    | _ => Ok odd_page
    end.

(** A Graph error answer: 404 with the usual error object. *)
Definition not_found : response :=
  mkResponse 404 "{...}"
    (Some (JDict [("error", JDict [("code", JStr "itemNotFound");
                                   ("message", JStr "The resource could not be found.")])])).

(** A credential that always gives the same token. *)
Definition fixed_token : list string -> pyres string := fun _ => Ok "eyJ0".

(** A transport whose every answer is [not_found]. *)
Definition failing_session : list request -> HttpClient.http_request -> pyres response :=
  fun _ _ => Ok not_found.

Definition graph_scope : list string := ["https://graph.microsoft.com/.default"].

(** A 404 whose JSON body has a string where Graph puts the error object. *)
Definition terse_not_found : response :=
  mkResponse 404 "{...}" (Some (JDict [("error", JStr "not_found")])).

Definition terse_session : list request -> HttpClient.http_request -> pyres response :=
  fun _ _ => Ok terse_not_found.

End Samples.

(* ================================================================== *)
(** ** What a fetch gathered *)

Module Gathering.
Import Paging.

(** The batch an answer contributes to the accumulator: the ['value'] list
    of a JSON object, nothing for anything else and for a failed call. *)
Definition answer_items (o : pyres response) : list json :=
  match o with
  | Ok r =>
      match json_body r with
      | Some (JDict d) => page_items_of d
      | _ => []
      end
  | Raise _ => []
  end.

(** The batches of all the calls of a fetch (latest call first), joined in
    the order the calls were made. *)
Fixpoint gathered (client_get : client) (calls : list request) : list json :=
  match calls with
  | [] => []
  | later :: earlier =>
      (gathered client_get earlier ++ answer_items (client_get earlier later))%list
  end.

(** The accumulator of a state is what its calls gathered, cut at the cap. *)
Definition holds_gathered (client_get : client) (max_items_total : option Z)
    (st : loop_state) : Prop :=
  all_items st = take_cap max_items_total (gathered client_get (trace st)).

(** [isinstance(v, dict)]. *)
Definition is_dict (v : json) : bool :=
  match v with JDict _ => true | _ => false end.

(** An error response whose body the handlers cannot read: it parses as
    JSON but is not an object, or its [error] member is not an object. *)
Definition unreadable_error_body (r : response) : bool :=
  match json_body r with
  | None => false
  | Some (JDict d) => negb (is_dict (dict_get_default "error" (JDict []) d))
  | Some _ => true
  end.

End Gathering.

(* ================================================================== *)
(** ** More of Python's [str] *)

Module PyStr.

(** [c.isspace()] for a character below 256: tab to carriage return, the
    four separators 28-31, the space, NEL and the no-break space. *)
Definition is_space (c : ascii) : bool :=
  let n := nat_of_ascii c in
  ((9 <=? n) && (n <=? 13) || (28 <=? n) && (n <=? 32)
   || (n =? 133) || (n =? 160))%nat.

(** [s.lstrip()]. *)
Fixpoint lstrip (s : string) : string :=
  match s with
  | EmptyString => EmptyString
  | String c rest => if is_space c then lstrip rest else s
  end.

(** [s.rstrip()]. *)
Fixpoint rstrip (s : string) : string :=
  match s with
  | EmptyString => EmptyString
  | String c rest =>
      match rstrip rest with
      | EmptyString => if is_space c then EmptyString else String c EmptyString
      | kept => String c kept
      end
  end.

(** [s.strip()]. *)
Definition strip (s : string) : string := rstrip (lstrip s).

(** [c.lower()] for a character below 256: the letters A-Z and the
    accented capitals 192-222 (but the multiplication sign 215) move up by
    32. *)
Definition lower_char (c : ascii) : ascii :=
  let n := nat_of_ascii c in
  if ((65 <=? n) && (n <=? 90)
      || (192 <=? n) && (n <=? 222) && negb (n =? 215))%nat
  then ascii_of_nat (n + 32)
  else c.

(** [s.lower()]. *)
Fixpoint lower (s : string) : string :=
  match s with
  | EmptyString => EmptyString
  | String c rest => String (lower_char c) (lower rest)
  end.

(** [p in s] for strings. *)
Fixpoint contains_sub (p s : string) : bool :=
  if String.prefix p s then true
  else match s with
       | EmptyString => false
       | String _ rest => contains_sub p rest
       end.

(** [s.count(c)] for a one-character string [c]. *)
Fixpoint count_char (c : ascii) (s : string) : Z :=
  match s with
  | EmptyString => 0
  | String a rest => (if Ascii.eqb a c then 1 else 0) + count_char c rest
  end.

(** [s.replace(a, b)] for one-character strings [a] and [b]. *)
Fixpoint replace_char (a b : ascii) (s : string) : string :=
  match s with
  | EmptyString => EmptyString
  | String c rest => String (if Ascii.eqb c a then b else c) (replace_char a b rest)
  end.

(** [s.split(sep)] for a one-character separator: always at least one
    piece. *)
Fixpoint split_char (sep : ascii) (s : string) : list string :=
  match s with
  | EmptyString => [EmptyString]
  | String c rest =>
      if Ascii.eqb c sep then EmptyString :: split_char sep rest
      else match split_char sep rest with
           | piece :: pieces => String c piece :: pieces
           | [] => [String c EmptyString]
           end
  end.

(** [s.endswith(suffix)]. *)
Fixpoint endswith (suffix s : string) : bool :=
  if String.eqb s suffix then true
  else match s with
       | EmptyString => false
       | String _ rest => endswith suffix rest
       end.

(** [s[1:]]. *)
Definition drop_first (s : string) : string :=
  match s with
  | EmptyString => EmptyString
  | String _ rest => rest
  end.

(** A string that does not start with white space. *)
Definition no_leading_space (s : string) : Prop :=
  match s with
  | EmptyString => True
  | String c _ => is_space c = false
  end.

End PyStr.

(* ================================================================== *)
(** ** Endpoints, sites, drives and item lookups *)

Module Graph.
Import Paging PyStr Resolver.

(** The settings these helpers read.  [config.py] declares the base URL as
    a pydantic [HttpUrl]; [GRAPH_API_BASE_URL] holds its [str()], which is
    what the f-strings that build the endpoints format.  The two SharePoint
    defaults are read with [getattr] and are [None] here when the
    attribute is missing. *)
Record graph_settings : Type := mkGraphSettings {
  GRAPH_API_BASE_URL : string;
  SHAREPOINT_DEFAULT_SITE_ID : option string;
  SHAREPOINT_DEFAULT_DRIVE_ID_OR_NAME : option string
}.

(** [client.get(url, scope=...)] after the calls [earlier]: the outcome and
    the calls made so far. *)
Definition call (client_get : client) (earlier : list request) (url : string)
    (params : option dict) : pyres response * list request :=
  let req := mkRequest (JStr url) params in
  (client_get earlier req, req :: earlier).

(** [response.json()]. *)
Definition json_of (r : response) : pyres json :=
  match json_body r with
  | Some v => Ok v
  | None => Raise (OtherError "JSONDecodeError" "Expecting value")
  end.

(** [bool(s)] for an [Optional[str]]. *)
Definition given (s : option string) : bool :=
  match s with
  | Some v => negb (String.eqb v "")
  | None => false
  end.

(** The item a path endpoint addresses under a drive: [None] for the root
    of the drive, the path after [root:/] otherwise. *)
Definition addressed (path : string) : option string :=
  let safe_path := strip path in
  if String.eqb safe_path "" || String.eqb safe_path "/" then None
  else Some (if startswith "/" safe_path then drop_first safe_path else safe_path).

(** A result of a resolution: a truthy value, or the given exception
    type, after at most [n] more calls. *)
Definition resolved_within (n : nat) (type_name : string)
    (earlier : list request) (out : pyres json * list request) : Prop :=
  (exists made, snd out = (made ++ earlier)%list /\ (List.length made <= n)%nat)
  /\ match fst out with
     | Ok v => truthy v = true
     | Raise e => exists m, e = OtherError type_name m
     end.

Section WithSettings.

Variable settings : graph_settings.

(** [str(v)] of a value that is not a string, as an f-string formats it. *)
Variable py_str : json -> string.

(** [type(settings.GRAPH_API_BASE_URL).__name__]: the class pydantic gives
    the value of an [HttpUrl] field ([Url] or [HttpUrl], by its version).
    It is not [str] nor a subclass of it. *)
Variable base_url_type : string.

(** [f"{v}"]. *)
Definition format (v : json) : string :=
  match v with
  | JStr s => s
  | _ => py_str v
  end.

(** *** onedrive_actions.py: endpoints of [/me/drive] *)

Definition _get_od_me_drive_base_endpoint : string :=
  GRAPH_API_BASE_URL settings ++ "/me/drive".

Definition _get_od_me_item_by_path_endpoint (relative_path : string) : string :=
  let drive_endpoint := _get_od_me_drive_base_endpoint in
  let safe_path := strip relative_path in
  if String.eqb safe_path "" || String.eqb safe_path "/" then
    drive_endpoint ++ "/root"
  else
    let safe_path :=
      if startswith "/" safe_path then drop_first safe_path else safe_path in
    drive_endpoint ++ "/root:/" ++ safe_path.

Definition _get_od_me_item_by_id_endpoint (item_id : string) : string :=
  _get_od_me_drive_base_endpoint ++ "/items/" ++ item_id.

(** *** sharepoint_actions.py: endpoints of a drive of a site *)

Definition _get_sp_item_endpoint_by_path (site_id drive_id item_path : string)
  : string :=
  let safe_path := strip item_path in
  if String.eqb safe_path "" || String.eqb safe_path "/" then
    GRAPH_API_BASE_URL settings ++ "/sites/" ++ site_id ++ "/drives/" ++ drive_id ++ "/root"
  else
    let safe_path :=
      if startswith "/" safe_path then drop_first safe_path else safe_path in
    GRAPH_API_BASE_URL settings ++ "/sites/" ++ site_id ++ "/drives/" ++ drive_id
      ++ "/root:/" ++ safe_path.

Definition _get_sp_item_endpoint_by_id (site_id drive_id item_id : string) : string :=
  GRAPH_API_BASE_URL settings ++ "/sites/" ++ site_id ++ "/drives/" ++ drive_id
    ++ "/items/" ++ item_id.

(** *** onedrive_actions.py: the metadata lookup *)

(** [item_endpoint.replace(settings.GRAPH_API_BASE_URL, '')], evaluated for
    the log line of the lookup: [str.replace] takes a [str] for its first
    argument and the setting is none, so the call raises. *)
Definition endpoint_for_log (item_endpoint : string) : pyres string :=
  Raise (OtherError "TypeError"
           ("replace() argument 1 must be str, not " ++ base_url_type)).

(** [_internal_onedrive_get_item_metadata(client, params)], with the three
    parameters it reads: the item, [select] and [expand].  The log line
    stands inside the [try], before [client.get]. *)
Definition _internal_onedrive_get_item_metadata (client_get : client)
    (earlier : list request)
    (item_path_or_id select expand : option string)
  : pyres dict * list request :=
  match item_path_or_id with
  | Some item =>
      if String.eqb item "" then
        (_handle_onedrive_api_error
           (OtherError "ValueError" "'item_id_o_nombre_con_ruta' es requerido.")
           "_internal_onedrive_get_item_metadata", earlier)
      else
        let item_endpoint :=
          if is_path_like item then _get_od_me_item_by_path_endpoint item
          else _get_od_me_item_by_id_endpoint item in
        let query_api_params : dict :=
          ((if given select
            then [("$select", JStr (match select with Some v => v | None => "" end))]
            else [])
           ++ (if given expand
               then [("$expand", JStr (match expand with Some v => v | None => "" end))]
               else []))%list in
        match endpoint_for_log item_endpoint with
        | Raise e =>
            (_handle_onedrive_api_error e "_internal_onedrive_get_item_metadata",
             earlier)
        | Ok _ =>
            let '(answer, calls) :=
              call client_get earlier item_endpoint
                   (match query_api_params with
                    | [] => None
                    | _ => Some query_api_params
                    end) in
            (match (r <- answer ;; data <- json_of r ;;
                    Ok [("status", JStr "success"); ("data", data)]) with
             | Ok d => Ok d
             | Raise e =>
                 _handle_onedrive_api_error e "_internal_onedrive_get_item_metadata"
             end, calls)
        end
  | None =>
      (_handle_onedrive_api_error
         (OtherError "ValueError" "'item_id_o_nombre_con_ruta' es requerido.")
         "_internal_onedrive_get_item_metadata", earlier)
  end.

(** [_get_item_id_from_path_if_needed(client, item_path_or_id)] with the
    lookup it really makes, and the calls made. *)
Definition resolve_onedrive_item (py_repr : dict -> string) (client_get : client)
    (earlier : list request) (item_path_or_id : string)
  : pyres json * list request :=
  let lookup p :=
    _internal_onedrive_get_item_metadata client_get earlier (Some p)
                                         (Some "id,name") None in
  let r := _get_item_id_from_path_if_needed py_repr (fun p => fst (lookup p))
                                            item_path_or_id in
  (res_value r,
   match res_lookups r with
   | [] => earlier
   | p :: _ => snd (lookup p)
   end).

(** *** sharepoint_actions.py: the site *)

Definition _is_valid_graph_site_id_format (site_id_string : string) : bool :=
  if String.eqb site_id_string "" then false
  else
    let is_composite_id :=
      contains_char ","%char site_id_string
      && (1 <=? count_char ","%char site_id_string) in
    let is_server_relative_path_format :=
      contains_char ":"%char site_id_string
      && (contains_sub "/sites/" site_id_string
          || contains_sub "/teams/" site_id_string) in
    let is_graph_path_segment_format :=
      startswith "sites/" site_id_string
      && contains_char "{"%char site_id_string
      && contains_char "}"%char site_id_string in
    let is_root_keyword := String.eqb (lower site_id_string) "root" in
    let is_guid_like :=
      (len_str site_id_string =? 36)
      && (count_char "-"%char site_id_string =? 4) in
    is_composite_id || is_server_relative_path_format
    || is_graph_path_segment_format || is_root_keyword || is_guid_like.

(** The last resort of [_obtener_site_id_sp]: the root site.  An exception
    of the lookup becomes a [ValueError], and so does an answer without an
    [id]. *)
Definition root_site_fallback (client_get : client) (calls : list request)
  : pyres json * list request :=
  let '(answer, calls') :=
    call client_get calls
         (GRAPH_API_BASE_URL settings ++ "/sites/root?$select=id,displayName") None in
  (match (r <- answer ;; root_site_data <- json_of r ;;
          py_get root_site_data "id" JNull) with
   | Ok root_site_id =>
       if truthy root_site_id then Ok root_site_id
       else Raise (OtherError "ValueError" "No se pudo determinar SP Site ID.")
   | Raise e_root =>
       Raise (OtherError "ValueError"
                ("Fallo CRÍTICO al obtener SP Site ID: " ++ exn_str e_root))
   end, calls').

(** What [_obtener_site_id_sp] does once the input gave nothing: the
    default site of the settings when it has a recognised format, the root
    site otherwise. *)
Definition default_or_root_site (client_get : client) (calls : list request)
  : pyres json * list request :=
  match SHAREPOINT_DEFAULT_SITE_ID settings with
  | Some default_id =>
      if negb (String.eqb default_id "") && _is_valid_graph_site_id_format default_id
      then (Ok (JStr default_id), calls)
      else root_site_fallback client_get calls
  | None => root_site_fallback client_get calls
  end.

(** [_obtener_site_id_sp(client, params)], with the two parameters it
    reads, [site_id] and [site_identifier], both [Optional[str]]. *)
Definition _obtener_site_id_sp (client_get : client) (earlier : list request)
    (site_id site_identifier : option string) : pyres json * list request :=
  let site_input := if given site_id then site_id else site_identifier in
  match site_input with
  | Some s =>
      if String.eqb s "" then default_or_root_site client_get earlier
      else if _is_valid_graph_site_id_format s then (Ok (JStr s), earlier)
      else
        let '(lookup_path, calls1) :=
          if negb (contains_char ":"%char s)
             && (startswith "/sites/" s || startswith "/teams/" s)
          then
            let '(answer, calls) :=
              call client_get earlier
                   (GRAPH_API_BASE_URL settings ++ "/sites/root?$select=siteCollection")
                   None in
            match (r <- answer ;; body <- json_of r ;;
                   site_collection <- py_get body "siteCollection" (JDict []) ;;
                   py_get site_collection "hostname" JNull) with
            | Ok root_site_hostname =>
                if truthy root_site_hostname
                then (format root_site_hostname ++ ":" ++ s, calls)
                else (s, calls)
            | Raise _ => (s, calls)
            end
          else (s, earlier) in
        let '(answer, calls2) :=
          call client_get calls1
               (GRAPH_API_BASE_URL settings ++ "/sites/" ++ lookup_path
                ++ "?$select=id,displayName,webUrl,siteCollection") None in
        match (r <- answer ;; site_data <- json_of r ;; py_get site_data "id" JNull) with
        | Ok resolved_site_id =>
            if truthy resolved_site_id then (Ok resolved_site_id, calls2)
            else default_or_root_site client_get calls2
        | Raise _ => default_or_root_site client_get calls2
        end
  | None => default_or_root_site client_get earlier
  end.

(** *** sharepoint_actions.py: the drive *)

(** [x.lower()] on a value: only strings have it. *)
Definition py_lower (v : json) : pyres string :=
  match v with
  | JStr s => Ok (lower s)
  | _ => Raise (no_attribute v "lower")
  end.

(** The test of one entry of the drive listing:
    [name.lower() == target.lower() or displayName.lower() == target.lower()],
    then [drive_obj.get("id")] when it holds. *)
Definition drive_matches (drive_obj : json) (target : string) : pyres (option json) :=
  name <- py_get drive_obj "name" (JStr "") ;;
  name_l <- py_lower name ;;
  if String.eqb name_l (lower target) then
    drive_id <- py_get drive_obj "id" JNull ;; Ok (Some drive_id)
  else
    display_name <- py_get drive_obj "displayName" (JStr "") ;;
    display_l <- py_lower display_name ;;
    if String.eqb display_l (lower target) then
      drive_id <- py_get drive_obj "id" JNull ;; Ok (Some drive_id)
    else Ok None.

(** [for drive_obj in drives_list: if <matches>: if drive_id: return drive_id],
    over a list; [None] when the loop runs out. *)
Fixpoint find_drive (drives_list : list json) (target : string)
  : pyres (option json) :=
  match drives_list with
  | [] => Ok None
  | drive_obj :: rest =>
      m <- drive_matches drive_obj target ;;
      match m with
      | Some drive_id => if truthy drive_id then Ok (Some drive_id)
                         else find_drive rest target
      | None => find_drive rest target
      end
  end.

(** The same loop over whatever ['value'] holds: a string or an object
    iterates over characters or keys, which have no [get]; a number, a
    boolean or [None] does not iterate. *)
Definition find_drive_in (drives_list : json) (target : string)
  : pyres (option json) :=
  match drives_list with
  | JList l => find_drive l target
  | JStr s =>
      if String.eqb s "" then Ok None
      else Raise (no_attribute (JStr "") "get")
  | JDict d =>
      match d with
      | [] => Ok None
      | _ => Raise (no_attribute (JStr "") "get")
      end
  | _ =>
      Raise (OtherError "TypeError"
               ("'" ++ py_type_name drives_list ++ "' object is not iterable"))
  end.

(** ['!' in t or (len(t) > 30 and not any(c in t for c in [' ', '/']))]. *)
Definition drive_is_likely_id (target : string) : bool :=
  contains_char "!"%char target
  || ((30 <? len_str target)
      && negb (contains_char " "%char target || contains_char "/"%char target)).

(** The listing of the site's drives and the search by name; every
    exception, the "not found" one included, leaves as a
    [ConnectionError]. *)
Definition drive_by_name (client_get : client) (calls : list request)
    (site_id target : string) : pyres json * list request :=
  let '(answer, calls') :=
    call client_get calls
         (GRAPH_API_BASE_URL settings ++ "/sites/" ++ site_id
          ++ "/drives?$select=id,name,displayName,webUrl") None in
  (match (r <- answer ;; body <- json_of r ;;
          drives_list <- py_get body "value" (JList []) ;;
          found <- find_drive_in drives_list target ;;
          match found with
          | Some drive_id => Ok drive_id
          | None =>
              Raise (OtherError "ValueError"
                       ("SP Drive '" ++ target ++ "' no encontrado en sitio '"
                        ++ site_id ++ "'."))
          end) with
   | Ok drive_id => Ok drive_id
   | Raise e =>
       Raise (OtherError "ConnectionError"
                ("Error obteniendo SP Drive ID para '" ++ target ++ "': " ++ exn_str e))
   end, calls').

(** [_get_drive_id(client, site_id, drive_id_or_name_input)]. *)
Definition _get_drive_id (client_get : client) (earlier : list request)
    (site_id : string) (drive_id_or_name_input : option string)
  : pyres json * list request :=
  let sharepoint_default_drive_name :=
    match SHAREPOINT_DEFAULT_DRIVE_ID_OR_NAME settings with
    | Some d => d
    | None => "Documents"
    end in
  let target_drive_identifier :=
    if given drive_id_or_name_input
    then match drive_id_or_name_input with Some v => v | None => "" end
    else sharepoint_default_drive_name in
  if String.eqb target_drive_identifier "" then
    (Raise (OtherError "ValueError" "Se requiere nombre o ID de Drive."), earlier)
  else if drive_is_likely_id target_drive_identifier then
    let '(answer, calls) :=
      call client_get earlier
           (GRAPH_API_BASE_URL settings ++ "/sites/" ++ site_id ++ "/drives/"
            ++ target_drive_identifier ++ "?$select=id,name") None in
    match (r <- answer ;; drive_data <- json_of r ;; py_get drive_data "id" JNull) with
    | Ok drive_id =>
        if truthy drive_id then (Ok drive_id, calls)
        else drive_by_name client_get calls site_id target_drive_identifier
    | Raise _ => drive_by_name client_get calls site_id target_drive_identifier
    end
  else drive_by_name client_get earlier site_id target_drive_identifier.

(** *** sharepoint_actions.py: the metadata lookup *)

(** [get_file_metadata(client, params)], with the parameters it and the
    two resolutions read. *)
Definition get_file_metadata (client_get : client) (earlier : list request)
    (site_id site_identifier drive_id_or_name item_id_or_path select expand
       : option string)
  : pyres dict * list request :=
  if negb (given item_id_or_path) then
    (_handle_graph_api_error
       (OtherError "ValueError" "'item_id_or_path' requerido.") "get_file_metadata",
     earlier)
  else
    let item := match item_id_or_path with Some v => v | None => "" end in
    let '(site, calls1) := _obtener_site_id_sp client_get earlier site_id site_identifier in
    match site with
    | Raise e => (_handle_graph_api_error e "get_file_metadata", calls1)
    | Ok target_site_id =>
        let '(drive, calls2) :=
          _get_drive_id client_get calls1 (format target_site_id) drive_id_or_name in
        match drive with
        | Raise e => (_handle_graph_api_error e "get_file_metadata", calls2)
        | Ok target_drive_id =>
            let base_url_item :=
              if is_item_id item
              then _get_sp_item_endpoint_by_id (format target_site_id)
                                               (format target_drive_id) item
              else _get_sp_item_endpoint_by_path (format target_site_id)
                                                 (format target_drive_id) item in
            let query_api_params : dict :=
              (("$select",
                JStr (if given select
                      then match select with Some v => v | None => "" end
                      else "id,name,webUrl,size,createdDateTime,lastModifiedDateTime,file,folder,package,parentReference,listItem"))
               :: (if given expand
                   then [("$expand", JStr (match expand with Some v => v | None => "" end))]
                   else [])) in
            let '(answer, calls3) :=
              call client_get calls2 base_url_item (Some query_api_params) in
            (match (r <- answer ;; data <- json_of r ;;
                    Ok [("status", JStr "success"); ("data", data)]) with
             | Ok d => Ok d
             | Raise e => _handle_graph_api_error e "get_file_metadata"
             end, calls3)
        end
    end.

(** [_get_item_id_from_path_if_needed_sp(client, item_path_or_id, site_id, drive_id)]
    with the lookup it really makes, and the calls made. *)
Definition resolve_sp_item (client_get : client) (earlier : list request)
    (item_path_or_id site_id drive_id : string) : pyres json * list request :=
  let lookup p :=
    get_file_metadata client_get earlier (Some site_id) None (Some drive_id)
                      (Some p) (Some "id,name") None in
  let r := _get_item_id_from_path_if_needed_sp (fun p => fst (lookup p))
                                               item_path_or_id in
  (res_value r,
   match res_lookups r with
   | [] => earlier
   | p :: _ => snd (lookup p)
   end).

(** A well-formed entry of a drive listing: an object whose [name] and
    [displayName], when present, are strings. *)
Definition plain_drive (drive_obj : json) : Prop :=
  exists d,
    drive_obj = JDict d
    /\ (dict_get "name" d = None \/ exists s, dict_get "name" d = Some (JStr s))
    /\ (dict_get "displayName" d = None
        \/ exists s, dict_get "displayName" d = Some (JStr s)).

(** The string under a key of an entry, [""] when the key is absent. *)
Definition text_of (key : string) (drive_obj : json) : string :=
  match drive_obj with
  | JDict d => match dict_get key d with Some (JStr s) => s | _ => "" end
  | _ => ""
  end.

(** What [drive_obj.get("id")] gives for an entry. *)
Definition id_of (drive_obj : json) : json :=
  match drive_obj with
  | JDict d => dict_get_default "id" JNull d
  | _ => JNull
  end.

(** An entry is the drive asked for: its [name] or its [displayName] is
    the target up to case, and it has an [id]. *)
Definition is_wanted_drive (target : string) (drive_obj : json) : bool :=
  (String.eqb (lower (text_of "name" drive_obj)) (lower target)
   || String.eqb (lower (text_of "displayName" drive_obj)) (lower target))
  && truthy (id_of drive_obj).

(** The drive identifier [_get_drive_id] works with:
    [drive_id_or_name_input or sharepoint_default_drive_name]. *)
Definition target_drive (drive_id_or_name_input : option string) : string :=
  if given drive_id_or_name_input
  then match drive_id_or_name_input with Some v => v | None => "" end
  else match SHAREPOINT_DEFAULT_DRIVE_ID_OR_NAME settings with
       | Some d => d
       | None => "Documents"
       end.

(** The root site answers every lookup with an object that has an [id]. *)
Definition root_site_answers (client_get : client) : Prop :=
  forall calls, exists r d v,
    client_get calls
      (mkRequest (JStr (GRAPH_API_BASE_URL settings ++ "/sites/root?$select=id,displayName"))
                 None) = Ok r
    /\ json_body r = Some (JDict d)
    /\ dict_get "id" d = Some v /\ truthy v = true.

End WithSettings.

End Graph.

(* ================================================================== *)
(** ** Mail recipients (correo_actions.py) *)

Module Mail.
Import PyStr.

(** The Graph recipient built for an address. *)
Definition recipient_of (address : string) : json :=
  JDict [("emailAddress", JDict [("address", JStr address)])].

(** The test a string passes: [item.strip() and "@" in item]. *)
Definition is_address (item : string) : bool :=
  negb (String.eqb (strip item) "") && contains_char "@"%char item.

(** The test a list item of Graph format passes: a dictionary whose
    [emailAddress] is a dictionary whose [address] is a string that passes
    [is_address]. *)
Definition is_graph_recipient (item : json) : bool :=
  match item with
  | JDict d =>
      match dict_get "emailAddress" d with
      | Some (JDict email_address) =>
          match dict_get "address" email_address with
          | Some (JStr address) => is_address address
          | _ => false
          end
      | _ => false
      end
  | _ => false
  end.

(** The [for item in input_list_to_process] loop. *)
Fixpoint collect_recipients (items : list json) : list json :=
  match items with
  | [] => []
  | item :: rest =>
      match item with
      | JStr s =>
          if is_address s then recipient_of (strip s) :: collect_recipients rest
          else collect_recipients rest
      | _ =>
          if is_graph_recipient item then item :: collect_recipients rest
          else collect_recipients rest
      end
  end.

(** [[email.strip() for email in s.replace(';', ',').split(',')
      if email.strip() and "@" in email]]. *)
Definition emails_from_string (rec_input : string) : list string :=
  map strip
      (filter is_address (split_char ","%char (replace_char ";"%char ","%char rec_input))).

(** [_normalize_recipients(rec_input, type_name)]. *)
Definition _normalize_recipients (rec_input : json) : list json :=
  match rec_input with
  | JNull => []
  | JStr s => collect_recipients (map JStr (emails_from_string s))
  | JList l => collect_recipients l
  | _ => []
  end.

(** The address a recipient of Graph format carries. *)
Definition address_of (recipient : json) : option string :=
  match recipient with
  | JDict d =>
      match dict_get "emailAddress" d with
      | Some (JDict email_address) =>
          match dict_get "address" email_address with
          | Some (JStr address) => Some address
          | _ => None
          end
      | _ => None
      end
  | _ => None
  end.

End Mail.

(* ================================================================== *)
(** ** Upload sessions: the chunk loops *)

Module Upload.

(** [b[i:j]] for [0 <= i]. *)
Definition slice (content : list Byte.byte) (i j : Z) : list Byte.byte :=
  firstn (Z.to_nat (j - i)) (skipn (Z.to_nat i) content).

(** One [requests.put(upload_url, headers=..., data=..., timeout=...)] of a
    session: [Content-Length] is [str(put_length)] and [Content-Range] is
    [bytes {range_start}-{range_end}/{range_total}]. *)
Record chunk_put : Type := mkChunkPut {
  put_url : json;
  put_length : Z;
  range_start : Z;
  range_end : Z;
  range_total : Z;
  put_data : list Byte.byte;
  put_timeout : Z
}.

(** The upload URL as the loops use it: the outcome of a PUT given the
    PUTs made before it (latest first). *)
Definition put_server := list chunk_put -> chunk_put -> pyres response.

(** The variables of a loop, and the PUTs made so far (latest first). *)
Record upload_state : Type := mkUploadState {
  start_byte : Z;
  final_metadata : option json;
  puts : list chunk_put
}.

Inductive upload_step : Type :=
| UpContinue (st : upload_state)
| UpBreak (st : upload_state)
| UpThrow (e : exn) (st : upload_state).

Inductive upload_outcome : Type :=
| UpFinished (st : upload_state)
| UpFailed (e : exn) (st : upload_state)
| UpOutOfFuel.

Section Loops.

Variable put : put_server.
Variable upload_url : json.
Variable content : list Byte.byte.

(** [chunk_size]: [5 * 1024 * 1024] in both actions. *)
Variable chunk_size : Z.

(** [settings.DEFAULT_API_TIMEOUT]. *)
Variable DEFAULT_API_TIMEOUT : Z.

Definition file_size_bytes : Z := Py.len content.

(** [end_byte = min(start_byte + chunk_size - 1, file_size_bytes - 1)]. *)
Definition end_byte_of (start : Z) : Z :=
  Z.min (start + chunk_size - 1) (file_size_bytes - 1).

(** The PUT of the OneDrive loop at [start]; its timeout is
    [max(DEFAULT, int(len(chunk) / (50 * 1024)) + 30)]. *)
Definition od_chunk (start : Z) : chunk_put :=
  let end_byte := end_byte_of start in
  let current_chunk_data := slice content start (end_byte + 1) in
  mkChunkPut upload_url (Py.len current_chunk_data) start end_byte file_size_bytes
             current_chunk_data
             (Z.max DEFAULT_API_TIMEOUT (Py.len current_chunk_data / (50 * 1024) + 30)).

(** The PUT of the SharePoint loop at [start]; its timeout is
    [settings.DEFAULT_API_TIMEOUT * 2]. *)
Definition sp_chunk (start : Z) : chunk_put :=
  let end_byte := end_byte_of start in
  let current_chunk := slice content start (end_byte + 1) in
  mkChunkPut upload_url (Py.len current_chunk) start end_byte file_size_bytes
             current_chunk (DEFAULT_API_TIMEOUT * 2).

(** [status in [200, 201]]. *)
Definition created (status : Z) : bool := (status =? 200) || (status =? 201).

(** The body of the OneDrive loop ([upload_file]). *)
Definition od_iterate (st : upload_state) : upload_step :=
  let chunk := od_chunk (start_byte st) in
  let puts' := chunk :: puts st in
  match (r <- put (puts st) chunk ;; HttpClient.raise_for_status r) with
  | Raise e => UpThrow e (mkUploadState (start_byte st) (final_metadata st) puts')
  | Ok r =>
      let start' := range_end chunk + 1 in
      if negb (String.eqb (text r) "") then
        match json_body r with
        | None => UpContinue (mkUploadState start' (final_metadata st) puts')
        | Some response_json =>
            if created (status_code r) then
              match py_get response_json "id" JNull with
              | Raise e => UpThrow e (mkUploadState start' (final_metadata st) puts')
              | Ok item_id =>
                  if truthy item_id
                  then UpBreak (mkUploadState start' (Some response_json) puts')
                  else UpContinue (mkUploadState start' (final_metadata st) puts')
              end
            else if status_code r =? 202 then
              match py_get response_json "nextExpectedRanges" JNull with
              | Raise e => UpThrow e (mkUploadState start' (final_metadata st) puts')
              | Ok _ => UpContinue (mkUploadState start' (final_metadata st) puts')
              end
            else UpContinue (mkUploadState start' (final_metadata st) puts')
        end
      else if file_size_bytes <=? start' then
        UpBreak (mkUploadState start' (final_metadata st) puts')
      else UpContinue (mkUploadState start' (final_metadata st) puts')
  end.

(** The body of the SharePoint loop ([upload_document]). *)
Definition sp_iterate (st : upload_state) : upload_step :=
  let chunk := sp_chunk (start_byte st) in
  let puts' := chunk :: puts st in
  match (r <- put (puts st) chunk ;; HttpClient.raise_for_status r) with
  | Raise e => UpThrow e (mkUploadState (start_byte st) (final_metadata st) puts')
  | Ok r =>
      if created (status_code r) then
        match json_body r with
        | None =>
            UpThrow (OtherError "JSONDecodeError" "Expecting value")
                    (mkUploadState (start_byte st) (final_metadata st) puts')
        | Some final_response_json =>
            UpBreak (mkUploadState (start_byte st) (Some final_response_json) puts')
        end
      else UpContinue (mkUploadState (range_end chunk + 1) (final_metadata st) puts')
  end.

(** [while start_byte < file_size_bytes: <body>]. *)
Fixpoint upload_loop (iterate : upload_state -> upload_step) (fuel : nat)
    (st : upload_state) : upload_outcome :=
  if start_byte st <? file_size_bytes then
    match fuel with
    | O => UpOutOfFuel
    | S fuel' =>
        match iterate st with
        | UpContinue st' => upload_loop iterate fuel' st'
        | UpBreak st' => UpFinished st'
        | UpThrow e st' => UpFailed e st'
        end
    end
  else UpFinished st.

(** [start_byte = 0; final = None]. *)
Definition upload_start : upload_state := mkUploadState 0 None [].

(** The loops as the actions run them; one pass per byte is fuel enough. *)
Definition od_upload_loop : upload_outcome :=
  upload_loop od_iterate (Z.to_nat file_size_bytes) upload_start.

Definition sp_upload_loop : upload_outcome :=
  upload_loop sp_iterate (Z.to_nat file_size_bytes) upload_start.

(** The range the [k]-th PUT of a session must carry, counting from 0. *)
Definition planned_start (k : nat) : Z := chunk_size * Z.of_nat k.

End Loops.

(** [chunk_size = 5 * 1024 * 1024]. *)
Definition CHUNK_SIZE : Z := 5 * 1024 * 1024.

(** The state an upload loop ended in, if it ended. *)
Definition upload_final (o : upload_outcome) : option upload_state :=
  match o with
  | UpFinished st => Some st
  | UpFailed _ st => Some st
  | UpOutOfFuel => None
  end.

(** The data of the PUTs of a session (latest first), joined in the order
    they were sent. *)
Fixpoint sent_bytes (ps : list chunk_put) : list Byte.byte :=
  match ps with
  | [] => []
  | later :: earlier => (sent_bytes earlier ++ put_data later)%list
  end.

(** The PUTs of a session that has sent its first [n] chunks, latest
    first: the chunks at [0], [chunk_size], [2 * chunk_size], ... *)
Definition planned_puts (chunk_size : Z) (chunk : Z -> chunk_put) (n : nat)
  : list chunk_put :=
  map (fun k => chunk (planned_start chunk_size k)) (rev (seq 0 n)).

(** A PUT whose headers agree with its data: the range lies inside the
    file, [Content-Length] is the span of [Content-Range] and the length
    of the data, no more than [chunk_size], and the data are those bytes
    of the file. *)
Definition well_formed_put (chunk_size : Z) (content : list Byte.byte)
    (p : chunk_put) : Prop :=
  0 <= range_start p
  /\ range_start p <= range_end p
  /\ range_end p < file_size_bytes content
  /\ range_total p = file_size_bytes content
  /\ put_length p = range_end p - range_start p + 1
  /\ put_length p <= chunk_size
  /\ Py.len (put_data p) = put_length p
  /\ put_data p = slice content (range_start p) (range_end p + 1).

(** A loop state after [k] chunks went through: the next byte to send,
    no final metadata yet, and the PUTs made. *)
Definition on_plan (chunk_size : Z) (content : list Byte.byte)
    (chunk : Z -> chunk_put) (k : nat) (st : upload_state) : Prop :=
  start_byte st = Z.min (chunk_size * Z.of_nat k) (file_size_bytes content)
  /\ final_metadata st = None
  /\ puts st = planned_puts chunk_size chunk k.

(** A loop body that sends the next planned chunk and nothing else. *)
Definition follows_plan (chunk_size : Z) (content : list Byte.byte)
    (chunk : Z -> chunk_put) (iterate : upload_state -> upload_step) : Prop :=
  forall k st,
    on_plan chunk_size content chunk k st ->
    start_byte st < file_size_bytes content ->
    match iterate st with
    | UpContinue st' => on_plan chunk_size content chunk (S k) st'
    | UpBreak st' =>
        puts st' = planned_puts chunk_size chunk (S k)
        /\ (final_metadata st' = None
            -> file_size_bytes content <= chunk_size * Z.of_nat (S k))
    | UpThrow _ st' => puts st' = planned_puts chunk_size chunk (S k)
    end.

(** How a session ended: after [n] PUTs, in state [st]. *)
Definition ended_after (chunk_size : Z) (content : list Byte.byte)
    (chunk : Z -> chunk_put) (o : upload_outcome) (n : nat) : Prop :=
  match o with
  | UpFinished st =>
      puts st = planned_puts chunk_size chunk n
      /\ (final_metadata st = None
          -> file_size_bytes content <= chunk_size * Z.of_nat n)
  | UpFailed _ st => puts st = planned_puts chunk_size chunk n
  | UpOutOfFuel => False
  end.

End Upload.

(* ================================================================== *)
(** ** The whole route (api/routes/dynamics_actions.py, core/action_mapper.py) *)

Module Route.
Import PyStr Dispatch.

(** The keys of [ACTION_MAP], in the order of action_mapper.py. *)
Definition ACTION_MAP_keys : list string :=
  ["azure_list_resource_groups"; "azure_list_resources_in_rg"; "azure_get_resource";
   "azure_create_deployment"; "azure_list_functions"; "azure_get_function_status";
   "azure_restart_function_app"; "azure_list_logic_apps"; "azure_trigger_logic_app";
   "azure_get_logic_app_run_history"; "bookings_list_businesses";
   "bookings_get_business"; "bookings_list_services"; "bookings_list_staff";
   "bookings_create_appointment"; "bookings_get_appointment";
   "bookings_cancel_appointment"; "bookings_list_appointments"; "calendar_list_events";
   "calendar_create_event"; "calendar_get_event"; "calendar_update_event";
   "calendar_delete_event"; "calendar_find_meeting_times"; "calendar_get_schedule";
   "email_list_messages"; "email_get_message"; "email_send_message";
   "email_reply_message"; "email_forward_message"; "email_delete_message";
   "email_move_message"; "email_list_folders"; "email_create_folder";
   "email_search_messages"; "forms_list_forms"; "forms_get_form";
   "forms_get_form_responses"; "github_list_repos"; "github_create_issue";
   "github_list_issues"; "graph_generic_get"; "graph_generic_post";
   "office_crear_documento_word"; "office_reemplazar_contenido_word";
   "office_obtener_documento_word_binario"; "office_crear_libro_excel";
   "office_leer_celda_excel"; "office_escribir_celda_excel";
   "office_crear_tabla_excel"; "office_agregar_filas_tabla_excel";
   "onedrive_list_items"; "onedrive_get_item"; "onedrive_upload_file";
   "onedrive_download_file"; "onedrive_delete_item"; "onedrive_create_folder";
   "onedrive_move_item"; "onedrive_copy_item"; "onedrive_search_items";
   "onedrive_get_sharing_link"; "onedrive_update_item_metadata";
   "openai_chat_completion"; "openai_completion"; "openai_get_embedding";
   "openai_list_models"; "planner_list_plans"; "planner_get_plan";
   "planner_list_tasks"; "planner_create_task"; "planner_get_task";
   "planner_update_task"; "planner_delete_task"; "planner_list_buckets";
   "planner_create_bucket"; "pa_listar_flows"; "pa_obtener_flow"; "pa_ejecutar_flow";
   "pa_obtener_estado_ejecucion_flow"; "powerbi_list_reports"; "powerbi_export_report";
   "powerbi_list_dashboards"; "powerbi_list_datasets"; "powerbi_refresh_dataset";
   "powerbi_listar_workspaces"; "powerbi_obtener_estado_refresco_dataset";
   "sp_list_lists"; "sp_get_list"; "sp_create_list"; "sp_update_list";
   "sp_delete_list"; "sp_list_list_items"; "sp_get_list_item"; "sp_add_list_item";
   "sp_update_list_item"; "sp_delete_list_item"; "sp_search_list_items";
   "sp_list_document_libraries"; "sp_list_folder_contents"; "sp_get_file_metadata";
   "sp_upload_document"; "sp_download_document"; "sp_delete_document";
   "sp_create_folder"; "sp_move_item"; "sp_copy_item"; "sp_update_file_metadata";
   "sp_get_site_info"; "sp_search_sites"; "sp_memory_ensure_list"; "sp_memory_save";
   "sp_memory_get"; "sp_memory_delete"; "sp_memory_list_keys";
   "sp_memory_export_session"; "sp_get_sharing_link"; "sp_add_item_permissions";
   "sp_remove_item_permissions"; "sp_list_item_permissions";
   "stream_get_video_playback_url"; "stream_listar_videos";
   "stream_obtener_metadatos_video"; "stream_obtener_transcripcion_video";
   "teams_list_joined_teams"; "teams_get_team"; "teams_list_channels";
   "teams_get_channel"; "teams_send_channel_message"; "teams_list_channel_messages";
   "teams_reply_to_message"; "teams_send_chat_message"; "teams_list_chats";
   "teams_get_chat"; "teams_create_chat"; "teams_list_chat_messages";
   "teams_schedule_meeting"; "teams_get_meeting_details"; "teams_list_members";
   "todo_list_task_lists"; "todo_create_task_list"; "todo_list_tasks";
   "todo_create_task"; "todo_get_task"; "todo_update_task"; "todo_delete_task";
   "profile_get_my_profile"; "profile_get_my_manager"; "profile_get_my_direct_reports";
   "profile_get_my_photo"; "profile_update_my_profile"; "user_list_users";
   "user_get_user"; "user_create_user"; "user_update_user"; "user_delete_user";
   "user_list_groups"; "user_get_group"; "user_list_group_members";
   "user_add_group_member"; "user_remove_group_member"; "user_check_group_membership";
   "viva_get_my_analytics"; "viva_get_focus_plan"; "googleads_search_stream";
   "googleads_mutate_campaigns"; "googleads_mutate_adgroups"; "googleads_mutate_ads";
   "googleads_mutate_keywords"; "metaads_list_campaigns"; "metaads_create_campaign";
   "metaads_update_campaign"; "metaads_delete_campaign"; "metaads_get_insights"].

(** What an action function can return. *)
Inductive action_result : Type :=
| RBytes (content : list Byte.byte)
| RStr (s : string)
| RDict (d : dict)
| ROther.

(** An action function applied to the client: from the parameters to a
    result or an exception. *)
Definition action_function := dict -> pyres action_result.

(** [ACTION_MAP.get(action_name)], the functions themselves being given by
    [implementation]. *)
Definition ACTION_MAP_get (implementation : string -> action_function)
    (action_name : string) : option action_function :=
  if existsb (String.eqb action_name) ACTION_MAP_keys
  then Some (implementation action_name)
  else None.

(** What the route answers. *)
Inductive route_response : Type :=
| RouteError (status : Z) (message : string)
| RouteServed (s : served)
| RouteBinary (content : list Byte.byte) (media_type : string)
| RouteCsv (content : string).

(** The HTTP status of an answer; [Response(content=...)] is a 200. *)
Definition route_status (r : route_response) : Z :=
  match r with
  | RouteError c _ => c
  | RouteServed s => served_status s
  | RouteBinary _ _ => 200
  | RouteCsv _ => 200
  end.

(** The media type of a binary result. *)
Definition media_type_of (action_name : string) (params_req : dict) : string :=
  if contains_sub "photo" (lower action_name) || endswith "_get_my_photo" action_name
  then "image/jpeg"
  else if endswith "_download_document" action_name
          || endswith "_export_report" action_name
  then
    let filename_for_download :=
      dict_get_default "filename"
        (dict_get_default "item_id_or_path" (JStr "downloaded_file") params_req)
        params_req in
    match filename_for_download with
    | JStr filename =>
        if contains_char "."%char filename then
          let ext := lower (last (split_char "."%char filename) "") in
          if String.eqb ext "pdf" then "application/pdf"
          else if String.eqb ext "xlsx" || String.eqb ext "xls"
          then "application/vnd.openxmlformats-officedocument.spreadsheetml.sheet"
          else if String.eqb ext "docx" || String.eqb ext "doc"
          then "application/vnd.openxmlformats-officedocument.wordprocessingml.document"
          else if String.eqb ext "csv" then "text/csv"
          else if String.eqb ext "png" then "image/png"
          else "application/octet-stream"
        else "application/octet-stream"
    | _ => "application/octet-stream"
    end
  else "application/octet-stream".

(** A result the route can serve as a success: bytes, or a dictionary
    whose [status] is not ["error"]. *)
Definition succeeded (result : action_result) : Prop :=
  match result with
  | RBytes _ => True
  | RDict d => eq_str (dict_get_default "status" JNull d) "error" = false
  | RStr _ => False
  | ROther => False
  end.

Section WithEnvironment.

(** [DefaultAzureCredential()]: the [get_token] of the credential, or the
    exception of its construction. *)
Variable new_credential : pyres (list string -> pyres unit).

(** [settings.GRAPH_API_DEFAULT_SCOPE]. *)
Variable GRAPH_API_DEFAULT_SCOPE : list string.

(** The action functions behind the keys. *)
Variable implementation : string -> action_function.

(** Whether the error payload built from an error dictionary validates. *)
Variable error_payload_validates : dict -> bool.

(** The first [try] of the route: the credential and the token probe.
    [None] when it passes, the 500 it answers otherwise. *)
Definition authenticate : option route_response :=
  match new_credential with
  | Raise _ =>
      Some (RouteError 500 "Error interno de configuración de autenticación.")
  | Ok get_token =>
      match get_token GRAPH_API_DEFAULT_SCOPE with
      | Raise (OtherError "CredentialUnavailableError" _) =>
          Some (RouteError 500 "Error de autenticación: Credencial de Azure no disponible.")
      | Raise (OtherError "ClientAuthenticationError" _) =>
          Some (RouteError 500 "Error de autenticación: Fallo al autenticar el cliente de Azure.")
      | Raise _ =>
          Some (RouteError 500 "Error de autenticación: Fallo inesperado al obtener token.")
      | Ok _ =>
          match GRAPH_API_DEFAULT_SCOPE with
          | [] =>
              Some (RouteError 500 "Error de autenticación: Fallo inesperado al obtener token.")
          | _ => None
          end
      end
  end.

(** [process_dynamic_action] for the action [action_name] and the
    parameters [params_req]. *)
Definition process_dynamic_action (action_name : string) (params_req : dict)
  : route_response :=
  match authenticate with
  | Some refused => refused
  | None =>
      match ACTION_MAP_get implementation action_name with
      | None =>
          RouteError 400 ("La acción '" ++ action_name
                          ++ "' no es válida o no está implementada.")
      | Some action_function =>
          match action_function params_req with
          | Raise _ =>
              RouteError 500 "Error interno del servidor al ejecutar la acción."
          | Ok (RBytes content) =>
              RouteBinary content (media_type_of action_name params_req)
          | Ok (RStr text) =>
              if String.eqb action_name "memory_export_session"
                 && eq_str (dict_get_default "format" JNull params_req) "csv"
              then RouteCsv text
              else RouteError 500 "La acción devolvió un tipo de resultado inesperado."
          | Ok (RDict result) =>
              RouteServed (process_dynamic_action_dict error_payload_validates result)
          | Ok ROther =>
              RouteError 500 "La acción devolvió un tipo de resultado inesperado."
          end
      end
  end.

End WithEnvironment.

End Route.

(* ================================================================== *)
(** ** A sample tenant *)

Module Tenant.
Import Paging Graph.

Definition graph : graph_settings :=
  mkGraphSettings "https://graph.microsoft.com/v1.0" None None.

Definition answer (body : dict) : pyres response :=
  Ok (mkResponse 200 "{...}" (Some (JDict body))).

Definition not_found : pyres response :=
  Raise (HTTPError "404 Client Error"
           (Some (mkResponse 404 "{...}"
                    (Some (JDict [("error", JDict [("code", JStr "itemNotFound");
                                                   ("message", JStr "Not found.")])]))))).

(** One site, [/sites/hr], with two drives and one file. *)
Definition tenant_upstream : client :=
  fun _ req =>
    match req_url req with
    | JStr url =>
        if String.eqb url "https://graph.microsoft.com/v1.0/sites/root?$select=siteCollection"
        then answer [("siteCollection", JDict [("hostname", JStr "contoso.sharepoint.com")])]
        else if String.eqb url "https://graph.microsoft.com/v1.0/sites/contoso.sharepoint.com:/sites/hr?$select=id,displayName,webUrl,siteCollection"
        then answer [("id", JStr "contoso.sharepoint.com,1,2"); ("displayName", JStr "HR")]
        else if String.eqb url "https://graph.microsoft.com/v1.0/sites/root?$select=id,displayName"
        then answer [("id", JStr "contoso.sharepoint.com,0,0"); ("displayName", JStr "Root")]
        else if String.eqb url "https://graph.microsoft.com/v1.0/sites/contoso.sharepoint.com,1,2/drives?$select=id,name,displayName,webUrl"
        then answer [("value",
                      JList [JDict [("id", JStr "b!old"); ("name", JStr "Archive")];
                             JDict [("name", JStr "documents")];
                             JDict [("id", JStr "b!docs"); ("name", JStr "Shared Documents");
                                    ("displayName", JStr "Documents")]])]
        else if String.eqb url "https://graph.microsoft.com/v1.0/sites/contoso.sharepoint.com,1,2/drives/b!docs?$select=id,name"
        then answer [("id", JStr "b!docs"); ("name", JStr "Shared Documents")]
        else if String.eqb url "https://graph.microsoft.com/v1.0/sites/contoso.sharepoint.com,1,2/drives/b!docs/root:/Reports/q1.xlsx"
        then answer [("id", JStr "01ABCDEF"); ("name", JStr "q1.xlsx")]
        else not_found
    | _ => not_found
    end.

End Tenant.

(* ================================================================== *)
(** * Properties *)

(** ** Identifier-or-path resolution *)

Module ResolverFacts.
Import Resolver.

(** With a ['/'] in the input only the two ID markers decide. *)
Lemma is_likely_id_with_slash (s : string) :
  contains_char "/"%char s = true ->
  is_likely_id s = contains_char "!"%char s || startswith "driveItem_" s.
Proof.
  intros Hslash. unfold is_likely_id. rewrite Hslash.
  cbn [negb]. rewrite andb_false_r. cbn [andb]. now rewrite orb_false_r.
Qed.

Lemma is_likely_id_bang (s : string) :
  contains_char "!"%char s = true -> is_likely_id s = true.
Proof. intros H. unfold is_likely_id. now rewrite H. Qed.

(** The lookups themselves address every input with a ['/'] by path. *)
Lemma lookups_take_slash_as_path (s : string) :
  contains_char "/"%char s = true ->
  is_path_like s = true /\ is_item_id s = false.
Proof.
  intros H. unfold is_path_like, is_item_id. rewrite H. split; reflexivity.
Qed.

(** C1 as stated fails: a path with a ['!'] in it, or one that starts
    with [driveItem_], comes back unchanged as an assumed ID from both
    resolvers although it contains ['/']. *)
Lemma c1_slash_input_taken_as_id :
  contains_char "/"%char "docs/plan!v2" = true
  /\ classified_as_id "docs/plan!v2"
       (_get_item_id_from_path_if_needed (fun _ => "") (fun _ => Ok []) "docs/plan!v2")
  /\ classified_as_id "docs/plan!v2"
       (_get_item_id_from_path_if_needed_sp (fun _ => Ok []) "docs/plan!v2")
  /\ contains_char "/"%char "driveItem_x/y" = true
  /\ classified_as_id "driveItem_x/y"
       (_get_item_id_from_path_if_needed_sp (fun _ => Ok []) "driveItem_x/y").
Proof. repeat split; reflexivity. Qed.

(** C1, amended: an input that contains ['/'], contains no ['!'] and does
    not start with [driveItem_] is classified as a path by both resolvers:
    each issues the metadata lookup for it and does not hand it back as an
    assumed ID. *)
Theorem c1_slash_without_id_marker_is_path
    (py_repr : dict -> string) (metadata : string -> pyres dict) (s : string) :
  contains_char "/"%char s = true ->
  contains_char "!"%char s = false ->
  startswith "driveItem_" s = false ->
  let od := _get_item_id_from_path_if_needed py_repr metadata s in
  let sp := _get_item_id_from_path_if_needed_sp metadata s in
  is_likely_id s = false
  /\ classified_as_path s od /\ ~ classified_as_id s od
  /\ classified_as_path s sp /\ ~ classified_as_id s sp.
Proof.
  intros Hslash Hbang Hpre od sp.
  assert (Hid : is_likely_id s = false).
  { rewrite is_likely_id_with_slash by assumption. now rewrite Hbang, Hpre. }
  subst od sp.
  unfold _get_item_id_from_path_if_needed, _get_item_id_from_path_if_needed_sp.
  rewrite Hid. unfold classified_as_path, classified_as_id. cbn [res_lookups res_value].
  repeat split; try reflexivity; intros [_ H]; discriminate H.
Qed.

Lemma c1_slash_without_id_marker_is_path_witness :
  let s := "docs/plan.txt" in
  classified_as_path s (_get_item_id_from_path_if_needed (fun _ => "") (fun _ => Ok []) s)
  /\ classified_as_path s (_get_item_id_from_path_if_needed_sp (fun _ => Ok []) s).
Proof.
  intros s.
  pose proof (@c1_slash_without_id_marker_is_path
                (fun _ => "") (fun _ => Ok []) s eq_refl eq_refl eq_refl) as H.
  cbv zeta in H. destruct H as (_ & Hod & _ & Hsp & _). split; assumption.
Defined.

End ResolverFacts.

(** ** The dispatch route *)

Module DispatchFacts.
Import Dispatch.

Lemma is_2xx_spec (c : Z) : is_2xx c = true <-> 200 <= c < 300.
Proof. unfold is_2xx. rewrite andb_true_iff, Z.leb_le, Z.ltb_lt. tauto. Qed.

(** An error result is never served with a 2xx status, whatever its
    [http_status] holds and whether or not the error payload validates. *)
Lemma error_result_not_2xx (validates : dict -> bool) (result : dict) :
  eq_str (dict_get_default "status" JNull result) "error" = true ->
  is_2xx (served_status (process_dynamic_action_dict validates result)) = false.
Proof.
  intros Herr. unfold process_dynamic_action_dict. rewrite Herr.
  destruct (py_int (dict_get_default "http_status" (JNum 500) result)) as [c|e];
    cbn [bind]; [|reflexivity].
  unfold create_error_response.
  destruct (validates result).
  - destruct (is_2xx c) eqn:Hc; cbn [served_status]; [reflexivity | exact Hc].
  - reflexivity.
Qed.

(** C9: the route normalises the status it serves for a dictionary result.
    A result whose [status] is ["error"] is never served with a 2xx status:
    its [http_status] (500 when absent) is served as it is unless it lies in
    200-299, which becomes 500.  Any other result whose [http_status] is
    absent or a number is served with a 2xx status: that number when it
    lies in 200-299, and 200 otherwise. *)
Theorem c9_dispatch_normalises_status (validates : dict -> bool) (result : dict) :
  (eq_str (dict_get_default "status" JNull result) "error" = true ->
     is_2xx (served_status (process_dynamic_action_dict validates result)) = false
     /\ forall c,
          py_int (dict_get_default "http_status" (JNum 500) result) = Ok c ->
          validates result = true ->
          process_dynamic_action_dict validates result
          = ErrorResponse (if is_2xx c then 500 else c))
  /\ (eq_str (dict_get_default "status" JNull result) "error" = false ->
      forall c,
        py_int (dict_get_default "http_status" (JNum 200) result) = Ok c ->
        process_dynamic_action_dict validates result
        = JSONResponse (if is_2xx c then c else 200) result
        /\ is_2xx (served_status (process_dynamic_action_dict validates result)) = true).
Proof.
  split.
  - intros Herr. split; [now apply error_result_not_2xx|].
    intros c Hc Hv. unfold process_dynamic_action_dict, create_error_response.
    rewrite Herr, Hc. cbn [bind]. now rewrite Hv.
  - intros Hok c Hc. unfold process_dynamic_action_dict.
    rewrite Hok, Hc. cbn [bind].
    destruct (is_2xx c) eqn:H2; cbn [negb served_status]; split;
      solve [reflexivity | assumption].
Qed.

Lemma c9_dispatch_normalises_status_witness :
  process_dynamic_action_dict (fun _ => true)
    [("status", JStr "error"); ("http_status", JNum 204)] = ErrorResponse 500
  /\ process_dynamic_action_dict (fun _ => true)
       [("status", JStr "success"); ("data", JNull); ("http_status", JNum 404)]
     = JSONResponse 200
         [("status", JStr "success"); ("data", JNull); ("http_status", JNum 404)].
Proof.
  split.
  - exact (proj2 (proj1 (c9_dispatch_normalises_status (fun _ => true)
                    [("status", JStr "error"); ("http_status", JNum 204)]) eq_refl)
                 204 eq_refl eq_refl).
  - exact (proj1 (proj2 (c9_dispatch_normalises_status (fun _ => true)
                    [("status", JStr "success"); ("data", JNull);
                     ("http_status", JNum 404)]) eq_refl 404 eq_refl)).
Defined.

End DispatchFacts.

(** ** The authenticated HTTP client *)

Module HttpClientFacts.
Import HttpClient.

Lemma get_set_same {V : Type} (k : string) (v : V) (d : list (string * V)) :
  get_key k (set_key k v d) = Some v.
Proof.
  induction d as [|[k' v'] rest IH]; cbn [set_key get_key].
  - now rewrite String.eqb_refl.
  - destruct (String.eqb k' k) eqn:E; cbn [get_key]; rewrite E; [reflexivity | exact IH].
Qed.

Lemma get_set_other {V : Type} (k k0 : string) (v : V) (d : list (string * V)) :
  String.eqb k0 k = false ->
  get_key k (set_key k0 v d) = get_key k d.
Proof.
  intros Hne. induction d as [|[k' v'] rest IH]; cbn [set_key get_key].
  - now rewrite Hne.
  - destruct (String.eqb k' k0) eqn:E; cbn [get_key].
    + apply String.eqb_eq in E. subst k'. now rewrite Hne.
    + now rewrite IH.
Qed.

(** C10: [request] never sends an unauthenticated request.  When no
    access token is obtained for the scope (the scope list is empty, the
    credential fails, or the token is empty) it raises the [ValueError]
    and nothing reaches the session; and every request that does reach
    the session carries [Authorization: Bearer <token>] for the non-empty
    token the credential gave for that scope. *)
Theorem c10_request_always_authenticated
    (get_token : list string -> pyres string)
    (session_request : http_request -> pyres response) (default_timeout : Z)
    (method : string) (url : json) (scope : list string) (kw : kwargs) :
  let r := request get_token session_request default_timeout method url scope kw in
  (scope = [] -> r = (no_token scope, []))
  /\ ((forall token, _get_access_token get_token scope = Some token -> token = "") ->
      r = (no_token scope, []))
  /\ (forall sent, In sent (snd r) ->
      exists token,
        get_token scope = Ok token /\ token <> ""
        /\ get_key "Authorization" (hr_headers sent) = Some ("Bearer " ++ token)).
Proof.
  cbv zeta. unfold request, no_token.
  repeat split.
  - intros ->. reflexivity.
  - intros Hnone.
    destruct (_get_access_token get_token scope) as [token|] eqn:Htok; [|reflexivity].
    rewrite (Hnone token eq_refl). reflexivity.
  - intros sent Hin.
    destruct (_get_access_token get_token scope) as [token|] eqn:Htok;
      [|contradiction Hin].
    destruct (String.eqb token "") eqn:Hempty; [contradiction Hin|].
    cbn [snd] in Hin. destruct Hin as [<-|[]].
    exists token. repeat split.
    + unfold _get_access_token in Htok. destruct scope; [discriminate|].
      destruct (get_token (s :: scope)); congruence.
    + intros ->. discriminate Hempty.
    + cbn [hr_headers].
      destruct (kw_json kw), (kw_data kw);
        try (destruct (get_key "Content-Type" _) eqn:Hct;
             [|rewrite get_set_other by reflexivity]);
        apply get_set_same.
Qed.

Lemma c10_request_always_authenticated_witness :
  request (fun _ => Raise (OtherError "CredentialUnavailableError" "no credential"))
          (fun _ => Ok (mkResponse 200 "{}" (Some (JDict [])))) 90
          "GET" (JStr "https://graph.microsoft.com/v1.0/me") []
          (mkKwargs None None None None None)
  = (no_token [], [])
  /\ exists token,
      get_key "Authorization"
        [("Accept", "text/plain"); ("Authorization", "Bearer eyJ0");
         ("Content-Type", "application/json")]
      = Some ("Bearer " ++ token).
Proof.
  split.
  - exact (proj1 (c10_request_always_authenticated
                    (fun _ => Raise (OtherError "CredentialUnavailableError" "no credential"))
                    (fun _ => Ok (mkResponse 200 "{}" (Some (JDict [])))) 90
                    "GET" (JStr "https://graph.microsoft.com/v1.0/me") []
                    (mkKwargs None None None None None)) eq_refl).
  - destruct (proj2 (proj2 (c10_request_always_authenticated
                    (fun _ => Ok "eyJ0")
                    (fun _ => Ok (mkResponse 200 "{}" (Some (JDict [])))) 90
                    "POST" (JStr "https://graph.microsoft.com/v1.0/me/sendMail")
                    ["https://graph.microsoft.com/.default"]
                    (mkKwargs (Some [("Accept", "text/plain"); ("Authorization", "Basic abc")])
                              None (Some (JDict [])) None None)))
                _ (or_introl eq_refl))
      as (token & _ & _ & Hh).
    exists token. exact Hh.
Defined.

(** One call of [request] hands at most one request to the session: there
    is no retry inside the client. *)
Lemma request_sends_at_most_once
    (get_token : list string -> pyres string)
    (session_request : http_request -> pyres response) (default_timeout : Z)
    (method : string) (url : json) (scope : list string) (kw : kwargs) :
  (List.length
     (snd (request get_token session_request default_timeout method url scope kw))
   <= 1)%nat.
Proof.
  unfold request.
  destruct (_get_access_token get_token scope) as [token|]; [|cbn; lia].
  destruct (String.eqb token ""); cbn; lia.
Qed.

(** An [HTTPError] that [request] lets out carries a response whose body
    the error logging could read: it is not JSON, or it is an object whose
    [error] member, if any, is an object. *)
Lemma request_http_error_readable
    (get_token : list string -> pyres string)
    (session_request : http_request -> pyres response) (default_timeout : Z)
    (method : string) (url : json) (scope : list string) (kw : kwargs)
    (m : string) (resp : option response) :
  fst (request get_token session_request default_timeout method url scope kw)
  = Raise (HTTPError m resp) ->
  exists r, resp = Some r
    /\ (json_body r = None
        \/ exists d info, json_body r = Some (JDict d)
             /\ dict_get_default "error" (JDict []) d = JDict info).
Proof.
  unfold request, no_token.
  destruct (_get_access_token get_token scope) as [token|]; [|discriminate].
  destruct (String.eqb token ""); [discriminate|]. cbn [fst].
  match goal with |- context [session_request ?q] => destruct (session_request q) as [r0|e0] end;
    cbn [bind].
  - unfold raise_for_status.
    destruct ((400 <=? status_code r0) && (status_code r0 <? 600)); [|discriminate].
    unfold log_http_error_then_reraise.
    destruct (json_body r0) as [body|] eqn:Hb.
    + destruct body as [| | | | |d]; try discriminate. cbn [py_get bind].
      destruct (dict_get_default "error" (JDict []) d) as [| | | | |info] eqn:Hi;
        try discriminate.
      cbn [py_get bind]. intros H. injection H as <- <-.
      exists r0. split; [reflexivity|]. right. exists d, info. auto.
    + intros H. injection H as <- <-. exists r0. auto.
  - destruct e0 as [m0 [r0|]|n0 m0]; try discriminate.
    unfold log_http_error_then_reraise.
    destruct (json_body r0) as [body|] eqn:Hb.
    + destruct body as [| | | | |d]; try discriminate. cbn [py_get bind].
      destruct (dict_get_default "error" (JDict []) d) as [| | | | |info] eqn:Hi;
        try discriminate.
      cbn [py_get bind]. intros H. injection H as <- <-.
      exists r0. split; [reflexivity|]. right. exists d, info. auto.
    + intros H. injection H as <- <-. exists r0. auto.
Qed.

End HttpClientFacts.

(** ** Bounded cursor pagination *)

Module PagingFacts.
Import Paging.

Lemma len_app {A} (l : list A) (x : A) : len (l ++ [x])%list = len l + 1.
Proof. unfold len. rewrite length_app. cbn [List.length]. lia. Qed.

Lemma len_cons {A} (x : A) (l : list A) : len (x :: l) = len l + 1.
Proof. unfold len. cbn [List.length]. lia. Qed.

(** *** The inner [for] loop *)

Lemma append_items_capped (n : Z) (items acc : list json) :
  len acc <= n -> len (append_items (Some n) acc items) <= n.
Proof.
  revert acc. induction items as [|x rest IH]; intros acc Hacc; cbn [append_items].
  - exact Hacc.
  - cbn [cap_open]. destruct (len acc <? n) eqn:Hlt; [|exact Hacc].
    apply IH. rewrite len_app. apply Z.ltb_lt in Hlt. lia.
Qed.

Lemma append_items_uncapped (items acc : list json) :
  append_items None acc items = (acc ++ items)%list.
Proof.
  revert acc. induction items as [|x rest IH]; intros acc; cbn [append_items cap_open].
  - now rewrite app_nil_r.
  - rewrite IH, <- app_assoc. reflexivity.
Qed.

Lemma append_items_firstn (n : Z) (items acc : list json) :
  append_items (Some n) acc items
  = (acc ++ firstn (Z.to_nat (n - len acc)) items)%list.
Proof.
  revert acc. induction items as [|x rest IH]; intros acc; cbn [append_items cap_open].
  - now rewrite firstn_nil, app_nil_r.
  - destruct (len acc <? n) eqn:Hlt.
    + apply Z.ltb_lt in Hlt. rewrite IH, len_app, <- app_assoc.
      replace (Z.to_nat (n - len acc)) with (S (Z.to_nat (n - (len acc + 1)))) by lia.
      reflexivity.
    + apply Z.ltb_ge in Hlt.
      replace (Z.to_nat (n - len acc)) with O by lia.
      now rewrite app_nil_r.
Qed.

(** From an empty accumulator the loop keeps the page up to the cap. *)
Lemma append_items_from_empty (cap : option Z) (items : list json) :
  append_items cap [] items = take_cap cap items.
Proof.
  destruct cap as [n|]; cbn [take_cap].
  - rewrite append_items_firstn. cbn [app]. unfold len. cbn [List.length].
    now rewrite Z.sub_0_r.
  - now rewrite append_items_uncapped.
Qed.

(** *** One pass *)

(** Closes a goal saying that a pass which visibly did not raise is not a
    [Throw]. *)
Ltac no_throw := let H := fresh in intros ? ? H; discriminate H.

Section LoopFacts.

Variable client_get : client.
Variable url_base : string.
Variable init : dict.
Variable cap : option Z.
Variable max_pages : Z.
Variable logs_url : bool.

#[local] Abbreviation iterate := (iterate client_get url_base init cap logs_url).
#[local] Abbreviation loop_cond := (loop_cond cap max_pages).
#[local] Abbreviation paged_loop :=
  (paged_loop client_get url_base init cap max_pages logs_url).
#[local] Abbreviation next_request := (next_request url_base init).
#[local] Abbreviation called := (called logs_url).

Lemma iterate_page_count (st : loop_state) :
  page_count (after (iterate st)) = page_count st + 1.
Proof.
  unfold Paging.iterate.
  destruct (if logs_url then py_split_for_log (current_url st) else Ok tt);
    [|reflexivity].
  destruct (client_get _ _) as [resp|e]; [|reflexivity].
  destruct (json_body resp) as [body|]; [|reflexivity].
  destruct (py_get body "value" (JList [])) as [[| | | |items|]|e]; try reflexivity.
  destruct (py_get body "@odata.nextLink" JNull) as [next|e]; [|reflexivity].
  destruct (negb (truthy next) || _); reflexivity.
Qed.

Lemma iterate_trace (st : loop_state) :
  trace (after (iterate st))
  = if called st then next_request st :: trace st else trace st.
Proof.
  unfold Paging.iterate, Paging.called.
  destruct logs_url.
  - destruct (current_url st) eqn:Hurl; cbn [py_split_for_log after trace];
      try reflexivity.
    destruct (client_get _ _) as [resp|e]; [|reflexivity].
    destruct (json_body resp) as [body|]; [|reflexivity].
    destruct (py_get body "value" (JList [])) as [[| | | |items|]|e]; try reflexivity.
    destruct (py_get body "@odata.nextLink" JNull) as [next|e]; [|reflexivity].
    destruct (negb (truthy next) || _); reflexivity.
  - destruct (client_get _ _) as [resp|e]; [|reflexivity].
    destruct (json_body resp) as [body|]; [|reflexivity].
    destruct (py_get body "value" (JList [])) as [[| | | |items|]|e]; try reflexivity.
    destruct (py_get body "@odata.nextLink" JNull) as [next|e]; [|reflexivity].
    destruct (negb (truthy next) || _); reflexivity.
Qed.

(** A pass that does not raise has made its call. *)
Lemma iterate_no_throw_called (st : loop_state) :
  (forall e st', iterate st <> Throw e st') -> called st = true.
Proof.
  unfold Paging.iterate, Paging.called. intros Hno.
  destruct logs_url; [|reflexivity].
  destruct (current_url st); cbn [py_split_for_log] in *;
    solve [reflexivity | exfalso; eapply Hno; reflexivity].
Qed.

Lemma iterate_items_capped (n : Z) (st : loop_state) :
  cap = Some n -> len (all_items st) <= n ->
  len (all_items (after (iterate st))) <= n.
Proof.
  intros Hcap Hacc. unfold Paging.iterate. rewrite Hcap.
  destruct (if logs_url then py_split_for_log (current_url st) else Ok tt);
    [|exact Hacc].
  destruct (client_get _ _) as [resp|e]; [|exact Hacc].
  destruct (json_body resp) as [body|]; [|exact Hacc].
  destruct (py_get body "value" (JList [])) as [[| | | |items|]|e]; try exact Hacc.
  pose proof (append_items_capped n items (all_items st) Hacc) as Happ.
  destruct (py_get body "@odata.nextLink" JNull) as [next|e]; [|exact Happ].
  destruct (negb (truthy next) || _); exact Happ.
Qed.

Lemma iterate_continue_called (st st' : loop_state) :
  iterate st = Continue st' -> called st = true.
Proof.
  intros H. apply iterate_no_throw_called. intros e st'' H'. congruence.
Qed.

Lemma iterate_break_called (st st' : loop_state) :
  iterate st = Break st' -> called st = true.
Proof.
  intros H. apply iterate_no_throw_called. intros e st'' H'. congruence.
Qed.

Lemma loop_cond_pages (st : loop_state) :
  loop_cond st = true -> page_count st < max_pages.
Proof.
  unfold Paging.loop_cond. rewrite !andb_true_iff, Z.ltb_lt. tauto.
Qed.

Lemma fuel_for_step (st : loop_state) :
  loop_cond st = true ->
  fuel_for max_pages st
  = S (fuel_for max_pages (after (iterate st))).
Proof.
  intros Hc%loop_cond_pages. unfold fuel_for.
  rewrite iterate_page_count. lia.
Qed.

(** A single pass keeps the bounds. *)
Lemma iterate_within (st : loop_state) :
  loop_cond st = true ->
  within cap max_pages st (after (iterate st))
  /\ (called st = true ->
      len (trace (after (iterate st))) - len (trace st) = 1).
Proof.
  intros Hc%loop_cond_pages.
  pose proof (iterate_page_count st) as Hp.
  pose proof (iterate_trace st) as Ht.
  unfold within. rewrite Hp, Ht.
  split; [split; [lia|]; split; [lia|]; split|].
  - destruct (called st); [rewrite len_cons|]; lia.
  - intros n Hcap Hacc. now apply iterate_items_capped.
  - intros ->. rewrite len_cons. lia.
Qed.

Lemma within_trans (a b c : loop_state) :
  within cap max_pages a b -> within cap max_pages b c ->
  within cap max_pages a c.
Proof.
  unfold within. intros (H1 & H2 & H3 & H4) (K1 & K2 & K3 & K4).
  split; [lia|]. split; [lia|]. split; [lia|].
  intros n Hn Ha. eauto.
Qed.

Lemma within_refl (a : loop_state) : within cap max_pages a a.
Proof.
  unfold within. split; [lia|]. split; [lia|]. split; [lia|]. auto.
Qed.

(** The loop ends, given one unit of fuel per page still allowed; it ends
    within the bounds, and when it ends without an exception every pass
    has made exactly one call. *)
Lemma paged_loop_ends (fuel : nat) (st : loop_state) :
  (fuel_for max_pages st <= fuel)%nat ->
  match paged_loop fuel st with
  | Finished st' =>
      within cap max_pages st st'
      /\ len (trace st') - len (trace st) = page_count st' - page_count st
  | Failed _ st' => within cap max_pages st st'
  | OutOfFuel => False
  end.
Proof.
  revert st. induction fuel as [|fuel IH]; intros st Hfuel.
  - cbn [Paging.paged_loop]. destruct (loop_cond st) eqn:Hc.
    + rewrite (fuel_for_step st Hc) in Hfuel. lia.
    + split; [apply within_refl | lia].
  - cbn [Paging.paged_loop]. destruct (loop_cond st) eqn:Hc.
    + pose proof (iterate_within st Hc) as [Hw Hcall].
      pose proof (fuel_for_step st Hc) as Hf.
      pose proof (iterate_page_count st) as Hp.
      destruct (iterate st) as [st1|st1|e st1] eqn:Hit; cbn [after] in *.
      * specialize (IH st1 ltac:(lia)).
        specialize (Hcall (iterate_continue_called st st1 Hit)).
        destruct (paged_loop fuel st1) as [st'|e st'|]; [| |exact IH].
        -- destruct IH as [IHw IHeq]. split; [eapply within_trans; eassumption|lia].
        -- eapply within_trans; eassumption.
      * specialize (Hcall (iterate_break_called st st1 Hit)).
        split; [exact Hw | lia].
      * exact Hw.
    + split; [apply within_refl | lia].
Qed.

(** *** An upstream that serves pages never makes the loop fail *)

Lemma loop_cond_url (st : loop_state) :
  loop_cond st = true -> truthy (current_url st) = true.
Proof.
  unfold Paging.loop_cond. rewrite !andb_true_iff. tauto.
Qed.

Lemma iterate_serves (st : loop_state) :
  serves_pages client_get -> loop_cond st = true -> url_ok st ->
  (forall e st', iterate st <> Throw e st') /\ url_ok (after (iterate st)).
Proof.
  intros Hserve Hc Hurl.
  destruct (Hurl (loop_cond_url st Hc)) as [s Hs].
  destruct (Hserve (trace st) (next_request st)) as (r & Hr & d & Hd & Hnext).
  unfold Paging.iterate. rewrite Hr, Hd, Hs.
  replace (if logs_url then py_split_for_log (JStr s) else Ok tt)
    with (Ok tt : pyres unit) by (destruct logs_url; reflexivity).
  cbn [py_get].
  destruct (dict_get_default "value" (JList []) d) as [| | | |items|];
    try (split; [no_throw | unfold url_ok; cbn [after current_url]; intros _; now exists s]).
  unfold dict_get_default.
  destruct Hnext as [Hn|[Hn|[s' Hn]]]; rewrite Hn.
  - cbn [truthy negb orb]. split; [no_throw|].
    unfold url_ok; cbn [after current_url truthy]. discriminate.
  - cbn [truthy negb orb]. split; [no_throw|].
    unfold url_ok; cbn [after current_url truthy]. discriminate.
  - destruct (negb (truthy (JStr s')) || _); (split; [no_throw|]);
      unfold url_ok; cbn [after current_url]; intros _; now exists s'.
Qed.

Lemma paged_loop_serves (fuel : nat) (st : loop_state) :
  serves_pages client_get -> url_ok st ->
  forall e st', paged_loop fuel st <> Failed e st'.
Proof.
  intros Hserve. revert st. induction fuel as [|fuel IH]; intros st Hurl e st';
    cbn [Paging.paged_loop]; destruct (loop_cond st) eqn:Hc; try discriminate.
  destruct (iterate_serves st Hserve Hc Hurl) as [Hno Hurl'].
  destruct (iterate st) as [st1|st1|e1 st1] eqn:Hit; cbn [after] in Hurl'.
  - now apply IH.
  - discriminate.
  - exfalso. now apply (Hno e1 st1).
Qed.

Lemma url_ok_initial : url_ok (initial_state url_base).
Proof. intros _. now exists url_base. Qed.

(** *** A helper call as a whole *)

Variable success : list json -> Z -> dict.
Variable handler : exn -> string -> pyres dict.
Variable action : string.

#[local] Abbreviation paged_from :=
  (paged_from client_get url_base init cap max_pages logs_url success handler action).

(** Every call of a helper returns: with the success envelope of the
    state the loop finished in, or with what its handler makes of the
    exception; either way within the bounds. *)
Lemma paged_from_initial :
  exists out calls,
    paged_from (initial_state url_base) = Some (out, calls)
    /\ len calls <= Z.max 0 max_pages
    /\ ((exists items pages,
           out = Ok (success items pages)
           /\ pages = len calls
           /\ (forall n, cap = Some n -> 0 <= n -> len items <= n))
        \/ (exists e, out = handler e action))
    /\ (serves_pages client_get ->
        exists items pages, out = Ok (success items pages)).
Proof.
  unfold Paging.paged_from.
  pose proof (paged_loop_ends (fuel_for max_pages (initial_state url_base))
                (initial_state url_base) (le_n _)) as Hends.
  pose proof (paged_loop_serves (fuel_for max_pages (initial_state url_base))
                (initial_state url_base)) as Hserves.
  destruct (paged_loop _ (initial_state url_base)) as [st'|e st'|];
    [| |contradiction]; cbn [finish].
  - destruct Hends as [(H1 & H2 & H3 & H4) Heq].
    cbn [initial_state page_count trace all_items] in *.
    change (len (@nil request)) with 0 in *.
    change (len (@nil json)) with 0 in *.
    eexists _, _. split; [reflexivity|]. split; [lia|]. split.
    + left. eexists _, _. split; [reflexivity|]. split; [lia|].
      intros n Hn Hpos. now apply H4.
    + intros _. eexists _, _. reflexivity.
  - destruct Hends as (H1 & H2 & H3 & H4).
    cbn [initial_state page_count trace all_items] in *.
    change (len (@nil request)) with 0 in *.
    eexists _, _. split; [reflexivity|]. split; [lia|]. split.
    + right. now exists e.
    + intros Hs. exfalso. exact (Hserves Hs url_ok_initial e st' eq_refl).
Qed.

End LoopFacts.

(** *** The handlers *)

(** Whatever a handler returns is an error dictionary for the action. *)
Lemma handle_api_error_shape (prefix : string) (on_bad_json : response -> json)
    (e : exn) (action : string) (d : dict) :
  handle_api_error prefix on_bad_json e action = Ok d ->
  exists message status details code,
    d = error_dict action message status details code.
Proof.
  unfold handle_api_error. intros H.
  destruct e as [m [r|]|n m];
    try (injection H as <-; eexists _, _, _, _; reflexivity).
  destruct (json_body r) as [body|];
    [|injection H as <-; eexists _, _, _, _; reflexivity].
  destruct (py_get body "error" (JDict [])) as [info|]; [|discriminate H].
  cbn [bind] in H.
  destruct (py_get info "message" (JStr (text r))); [|discriminate H].
  cbn [bind] in H.
  destruct (py_get info "code" JNull); [|discriminate H].
  cbn [bind] in H. injection H as <-. eexists _, _, _, _; reflexivity.
Qed.

Lemma endless_upstream_serves : serves_pages Samples.endless_upstream.
Proof.
  intros earlier req. exists Samples.crowded_page. split; [reflexivity|].
  eexists. split; [reflexivity|]. right. right. eexists. reflexivity.
Qed.

(** C2: with an item cap [N] the SharePoint and OneDrive helpers never
    return more than [N] items, whatever the upstream sends: every call
    returns, a success envelope it returns holds at most [N] items, and
    against an upstream that serves well-formed pages the call does return
    a success envelope. *)
Theorem c2_item_cap_bounds_items (N : Z) (settings : settings_t)
    (client_get : client) (url_base : string) (init : dict) (action : string) :
  0 <= N ->
  (exists out calls,
      _sp_paged_request settings client_get url_base init (Some N) action
      = Some (out, calls)
      /\ (forall items pages,
            out = Ok (success_value_count items pages) -> len items <= N)
      /\ (serves_pages client_get ->
          exists items pages,
            out = Ok (success_value_count items pages) /\ len items <= N))
  /\ (exists out calls,
      _onedrive_paged_request settings client_get url_base init N action
      = Some (out, calls)
      /\ (forall items pages,
            out = Ok (success_plain items pages) -> len items <= N)
      /\ (serves_pages client_get ->
          exists items pages,
            out = Ok (success_plain items pages) /\ len items <= N)).
Proof.
  intros HN. split.
  - unfold _sp_paged_request.
    destruct (paged_from_initial client_get url_base init (Some N)
                (getattr_max_pages settings 20) false
                success_value_count _handle_graph_api_error action)
      as (out & calls & Hrun & _ & Hout & Hserve).
    exists out, calls. split; [exact Hrun|].
    assert (Hall : forall items pages,
               out = Ok (success_value_count items pages) -> len items <= N).
    { intros items pages ->.
      destruct Hout as [(items' & pages' & Heq & _ & Hcap)|[e He]].
      - injection Heq as Hitems. subst items'. now apply (Hcap N).
      - symmetry in He. apply handle_api_error_shape in He.
        destruct He as (m & c & dt & gc & He). discriminate He. }
    split; [exact Hall|].
    intros Hs. destruct (Hserve Hs) as (items & pages & Heq).
    exists items, pages. split; [exact Heq | now apply (Hall items pages)].
  - unfold _onedrive_paged_request.
    destruct (paged_from_initial client_get url_base init (Some N)
                (getattr_max_pages settings 30) true
                success_plain _handle_onedrive_api_error action)
      as (out & calls & Hrun & _ & Hout & Hserve).
    exists out, calls. split; [exact Hrun|].
    assert (Hall : forall items pages,
               out = Ok (success_plain items pages) -> len items <= N).
    { intros items pages ->.
      destruct Hout as [(items' & pages' & Heq & _ & Hcap)|[e He]].
      - injection Heq as Hitems. subst items'. now apply (Hcap N).
      - symmetry in He. apply handle_api_error_shape in He.
        destruct He as (m & c & dt & gc & He). discriminate He. }
    split; [exact Hall|].
    intros Hs. destruct (Hserve Hs) as (items & pages & Heq).
    exists items, pages. split; [exact Heq | now apply (Hall items pages)].
Qed.

Lemma c2_item_cap_bounds_items_witness :
  exists out calls items pages,
    _sp_paged_request (mkSettings None) Samples.endless_upstream
      Samples.start_url Samples.top_params (Some 2) "list_lists"
    = Some (out, calls)
    /\ out = Ok (success_value_count items pages) /\ len items <= 2.
Proof.
  destruct (c2_item_cap_bounds_items 2 (mkSettings None) Samples.endless_upstream
              Samples.start_url Samples.top_params "list_lists" ltac:(lia))
    as [(out & calls & Hrun & _ & Hserve) _].
  destruct (Hserve endless_upstream_serves) as (items & pages & Hout & Hlen).
  exists out, calls, items, pages. auto.
Defined.

(** C3: with a page cap [P] (the [MAX_PAGING_PAGES] setting) the SharePoint
    and mail helpers always return, after at most [P] calls of
    [client.get]; a pass of the loop never makes more than one call, and a
    success envelope reports as [pages_processed] the number of calls
    made, which is at most [P]. *)
Theorem c3_page_cap_bounds_calls (P : Z) (client_get : client)
    (url_base : string) (init : dict) (max_items_total : option Z)
    (action : string) :
  0 <= P ->
  (exists out calls,
      _sp_paged_request (mkSettings (Some P)) client_get url_base init
        max_items_total action = Some (out, calls)
      /\ len calls <= P
      /\ forall items pages,
           out = Ok (success_value_count items pages) ->
           pages = len calls /\ pages <= P)
  /\ (exists out calls,
      _email_paged_request (mkSettings (Some P)) client_get url_base init
        max_items_total action = Some (out, calls)
      /\ len calls <= P
      /\ forall items pages,
           out = Ok (success_value_count items pages) ->
           pages = len calls /\ pages <= P).
Proof.
  intros HP. split.
  - unfold _sp_paged_request. cbn [getattr_max_pages MAX_PAGING_PAGES].
    destruct (paged_from_initial client_get url_base init max_items_total P false
                success_value_count _handle_graph_api_error action)
      as (out & calls & Hrun & Hcalls & Hout & _).
    exists out, calls. split; [exact Hrun|]. split; [lia|].
    intros items pages ->.
    destruct Hout as [(items' & pages' & Heq & Hpages & _)|[e He]].
    + injection Heq as _ _ Hp. lia.
    + symmetry in He. apply handle_api_error_shape in He.
      destruct He as (m & c & dt & gc & He). discriminate He.
  - unfold _email_paged_request. cbn [getattr_max_pages MAX_PAGING_PAGES].
    destruct (paged_from_initial client_get url_base init max_items_total P true
                success_value_count _handle_email_api_error action)
      as (out & calls & Hrun & Hcalls & Hout & _).
    exists out, calls. split; [exact Hrun|]. split; [lia|].
    intros items pages ->.
    destruct Hout as [(items' & pages' & Heq & Hpages & _)|[e He]].
    + injection Heq as _ _ Hp. lia.
    + symmetry in He. apply handle_api_error_shape in He.
      destruct He as (m & c & dt & gc & He). discriminate He.
Qed.

Lemma c3_page_cap_bounds_calls_witness :
  exists out calls,
    _sp_paged_request (mkSettings (Some 3)) Samples.endless_upstream
      Samples.start_url Samples.top_params None "list_lists" = Some (out, calls)
    /\ len calls <= 3.
Proof.
  destruct (c3_page_cap_bounds_calls 3 Samples.endless_upstream
              Samples.start_url Samples.top_params None "list_lists" ltac:(lia))
    as [(out & calls & Hrun & Hcalls & _) _].
  exists out, calls. auto.
Defined.

(** *** Resuming a fetch at a reachable state *)

Section Resume.

Variable client_get : client.
Variable url_base : string.
Variable init : dict.
Variable cap : option Z.
Variable max_pages : Z.
Variable logs_url : bool.
Variable success : list json -> Z -> dict.
Variable handler : exn -> string -> pyres dict.
Variable action : string.

#[local] Abbreviation iterate := (iterate client_get url_base init cap logs_url).
#[local] Abbreviation loop_cond := (loop_cond cap max_pages).
#[local] Abbreviation paged_loop :=
  (paged_loop client_get url_base init cap max_pages logs_url).
#[local] Abbreviation next_request := (next_request url_base init).
#[local] Abbreviation reachable :=
  (reachable client_get url_base init cap max_pages logs_url).
#[local] Abbreviation paged_from :=
  (paged_from client_get url_base init cap max_pages logs_url success handler action).

Lemma paged_loop_unfold (st : loop_state) :
  loop_cond st = true ->
  paged_loop (fuel_for max_pages st) st
  = match iterate st with
    | Continue st' => paged_loop (fuel_for max_pages st') st'
    | Break st' => Finished st'
    | Throw e st' => Failed e st'
    end.
Proof.
  intros Hc.
  rewrite (fuel_for_step client_get url_base init cap max_pages logs_url st Hc).
  cbn [Paging.paged_loop]. rewrite Hc.
  destruct (iterate st); reflexivity.
Qed.

(** The fetch started afresh is, at every state it passes through, the
    fetch resumed there. *)
Lemma reachable_resume (st : loop_state) :
  reachable st ->
  paged_from (initial_state url_base) = paged_from st.
Proof.
  unfold Paging.paged_from. induction 1 as [|st st' Hr IH Hc Hit].
  - reflexivity.
  - rewrite IH, (paged_loop_unfold st Hc), Hit. reflexivity.
Qed.

Lemma paged_from_break (st st' : loop_state) :
  reachable st -> loop_cond st = true -> iterate st = Break st' ->
  paged_from (initial_state url_base)
  = Some (Ok (success (all_items st') (page_count st')), trace st').
Proof.
  intros Hr Hc Hit. rewrite (reachable_resume st Hr).
  unfold Paging.paged_from. now rewrite (paged_loop_unfold st Hc), Hit.
Qed.

Lemma paged_from_throw (st st' : loop_state) (e : exn) :
  reachable st -> loop_cond st = true -> iterate st = Throw e st' ->
  paged_from (initial_state url_base) = Some (handler e action, trace st').
Proof.
  intros Hr Hc Hit. rewrite (reachable_resume st Hr).
  unfold Paging.paged_from. now rewrite (paged_loop_unfold st Hc), Hit.
Qed.

(** The pass from a state whose call is answered with a JSON object. *)
Lemma iterate_answered (st : loop_state) (r : response) (d : dict) :
  called logs_url st = true ->
  client_get (trace st) (next_request st) = Ok r ->
  json_body r = Some (JDict d) ->
  iterate st
  = match dict_get_default "value" (JList []) d with
    | JList page_items =>
        let all_items' := append_items cap (all_items st) page_items in
        let next := dict_get_default "@odata.nextLink" JNull d in
        if negb (truthy next) || cap_reached cap (len all_items')
        then Break (mkState all_items' next (page_count st + 1)
                            (next_request st :: trace st))
        else Continue (mkState all_items' next (page_count st + 1)
                               (next_request st :: trace st))
    | _ => Break (mkState (all_items st) (current_url st) (page_count st + 1)
                          (next_request st :: trace st))
    end.
Proof.
  intros Hcalled Hr Hd. unfold Paging.iterate. rewrite Hr, Hd.
  replace (if logs_url then py_split_for_log (current_url st) else Ok tt)
    with (Ok tt : pyres unit).
  - cbn [py_get].
    destruct (dict_get_default "value" (JList []) d); reflexivity.
  - unfold called in Hcalled. destruct logs_url; [|reflexivity].
    destruct (current_url st); solve [discriminate Hcalled | reflexivity].
Qed.

(** The pass from a state whose call raises. *)
Lemma iterate_raised (st : loop_state) (e : exn) :
  called logs_url st = true ->
  client_get (trace st) (next_request st) = Raise e ->
  iterate st
  = Throw e (mkState (all_items st) (current_url st) (page_count st + 1)
                     (next_request st :: trace st)).
Proof.
  intros Hcalled Hr. unfold Paging.iterate. rewrite Hr.
  replace (if logs_url then py_split_for_log (current_url st) else Ok tt)
    with (Ok tt : pyres unit); [reflexivity|].
  unfold called in Hcalled. destruct logs_url; [|reflexivity].
  destruct (current_url st); solve [discriminate Hcalled | reflexivity].
Qed.

Lemma loop_cond_cap_open (st : loop_state) :
  loop_cond st = true -> cap_open cap (len (all_items st)) = true.
Proof. unfold Paging.loop_cond. rewrite !andb_true_iff. tauto. Qed.

End Resume.

Lemma cap_open_not_reached (cap : option Z) (n : Z) :
  cap_open cap n = true -> cap_reached cap n = false.
Proof.
  destruct cap as [m|]; cbn [cap_open cap_reached]; [|reflexivity].
  rewrite Z.ltb_lt, Z.leb_gt. trivial.
Qed.

(** *** The first page *)

Lemma first_request (url_base : string) (init : dict) :
  next_request url_base init (initial_state url_base)
  = mkRequest (JStr url_base) (Some init).
Proof.
  unfold next_request. cbn [initial_state current_url page_count eq_str].
  now rewrite String.eqb_refl.
Qed.

Lemma loop_cond_initial (url_base : string) (cap : option Z) (max_pages : Z) :
  url_base <> "" -> cap_open cap 0 = true -> 0 < max_pages ->
  loop_cond cap max_pages (initial_state url_base) = true.
Proof.
  intros Hurl Hcap Hp. unfold loop_cond.
  cbn [initial_state current_url all_items page_count truthy].
  change (len (@nil json)) with 0. rewrite Hcap.
  apply String.eqb_neq in Hurl. rewrite Hurl.
  apply Z.ltb_lt in Hp. now rewrite Hp.
Qed.

Lemma take_cap_nil (cap : option Z) : take_cap cap [] = [].
Proof. destruct cap; cbn [take_cap]; [apply firstn_nil | reflexivity]. Qed.

(** A first answer without a cursor ends the fetch after that one call. *)
Lemma first_page_without_cursor (client_get : client) (url_base : string)
    (init : dict) (cap : option Z) (max_pages : Z) (logs_url : bool)
    (success : list json -> Z -> dict) (handler : exn -> string -> pyres dict)
    (action : string) (r : response) (d : dict) :
  url_base <> "" -> cap_open cap 0 = true -> 0 < max_pages ->
  client_get [] (mkRequest (JStr url_base) (Some init)) = Ok r ->
  json_body r = Some (JDict d) ->
  dict_get "@odata.nextLink" d = None ->
  paged_from client_get url_base init cap max_pages logs_url success handler action
    (initial_state url_base)
  = Some (Ok (success (take_cap cap (page_items_of d)) 1),
          [mkRequest (JStr url_base) (Some init)]).
Proof.
  intros Hurl Hcap Hp Hr Hd Hnext.
  pose proof (loop_cond_initial url_base cap max_pages Hurl Hcap Hp) as Hc.
  assert (Hcalled : called logs_url (initial_state url_base) = true)
    by (unfold called; destruct logs_url; reflexivity).
  rewrite <- (first_request url_base init) in Hr.
  pose proof (iterate_answered client_get url_base init cap logs_url
                (initial_state url_base) r d Hcalled Hr Hd) as Hit.
  rewrite first_request in Hit.
  unfold paged_from. rewrite (paged_loop_unfold _ _ _ _ _ _ _ Hc), Hit.
  unfold page_items_of.
  destruct (dict_get_default "value" (JList []) d) as [| | | |items|];
    try (cbn [finish all_items page_count trace initial_state];
         now rewrite take_cap_nil).
  cbv zeta. unfold dict_get_default at 1 3. rewrite Hnext.
  cbn [truthy negb orb finish all_items page_count trace initial_state].
  now rewrite append_items_from_empty.
Qed.

(** C4: when the first answer carries no ['@odata.nextLink'], the
    SharePoint and OneDrive helpers make exactly one call, the start URL
    with the initial parameters, and return a success envelope with
    [pages_processed = 1] whose items are those of that page, cut at the
    item cap. *)
Theorem c4_no_cursor_single_call (settings : settings_t) (client_get : client)
    (url_base : string) (init : dict) (max_items_total : option Z) (N : Z)
    (action : string) (r : response) (d : dict) :
  url_base <> "" ->
  (forall p, MAX_PAGING_PAGES settings = Some p -> 0 < p) ->
  client_get [] (mkRequest (JStr url_base) (Some init)) = Ok r ->
  json_body r = Some (JDict d) ->
  dict_get "@odata.nextLink" d = None ->
  ((forall n, max_items_total = Some n -> 0 < n) ->
   _sp_paged_request settings client_get url_base init max_items_total action
   = Some (Ok (success_value_count (take_cap max_items_total (page_items_of d)) 1),
           [mkRequest (JStr url_base) (Some init)]))
  /\ (0 < N ->
      _onedrive_paged_request settings client_get url_base init N action
      = Some (Ok (success_plain (firstn (Z.to_nat N) (page_items_of d)) 1),
              [mkRequest (JStr url_base) (Some init)])).
Proof.
  intros Hurl Hpages Hr Hd Hnext.
  assert (Hmax : forall default, 0 < default ->
                 0 < getattr_max_pages settings default).
  { intros default Hdef. unfold getattr_max_pages.
    destruct (MAX_PAGING_PAGES settings) as [p|] eqn:Hp; [now apply Hpages | exact Hdef]. }
  split.
  - intros Hcap. unfold _sp_paged_request.
    apply (first_page_without_cursor client_get url_base init max_items_total
             _ _ _ _ _ r d); try assumption.
    + destruct max_items_total as [n|]; cbn [cap_open]; [|reflexivity].
      apply Z.ltb_lt. now apply Hcap.
    + apply Hmax. lia.
  - intros HN. unfold _onedrive_paged_request.
    apply (first_page_without_cursor client_get url_base init (Some N)
             _ _ _ _ _ r d); try assumption.
    + cbn [cap_open]. now apply Z.ltb_lt.
    + apply Hmax. lia.
Qed.

Lemma c4_no_cursor_single_call_witness :
  _sp_paged_request (mkSettings None) Samples.single_page_upstream
    Samples.start_url Samples.top_params (Some 1) "list_lists"
  = Some (Ok (success_value_count [JStr "a"] 1),
          [mkRequest (JStr Samples.start_url) (Some Samples.top_params)])
  /\ _onedrive_paged_request (mkSettings None) Samples.single_page_upstream
       Samples.start_url Samples.top_params 100 "onedrive_list_items"
     = Some (Ok (success_plain [JStr "a"; JStr "b"] 1),
             [mkRequest (JStr Samples.start_url) (Some Samples.top_params)]).
Proof.
  split.
  - refine (proj1 (c4_no_cursor_single_call (mkSettings None)
              Samples.single_page_upstream Samples.start_url Samples.top_params
              (Some 1) 100 "list_lists" Samples.last_page
              [("value", JList [JStr "a"; JStr "b"])] _ _ eq_refl eq_refl eq_refl) _).
    + discriminate.
    + discriminate.
    + intros n Hn. injection Hn as <-. lia.
  - refine (proj2 (c4_no_cursor_single_call (mkSettings None)
              Samples.single_page_upstream Samples.start_url Samples.top_params
              None 100 "onedrive_list_items" Samples.last_page
              [("value", JList [JStr "a"; JStr "b"])] _ _ eq_refl eq_refl eq_refl) _).
    + discriminate.
    + discriminate.
    + lia.
Defined.

(** *** A non-list ['value'] *)

(** C5: when an answer has a ['value'] that is not a list, the SharePoint
    and OneDrive helpers leave the loop and return the success envelope:
    its items are exactly those accumulated from the pages before, the
    answer itself counts as a processed page, and no further call is
    made. *)
Theorem c5_non_list_value_returns_accumulated (settings : settings_t)
    (client_get : client) (url_base : string) (init : dict)
    (max_items_total : option Z) (N : Z) (action : string)
    (st : loop_state) (r : response) (d : dict) (v : json) :
  client_get (trace st) (next_request url_base init st) = Ok r ->
  json_body r = Some (JDict d) ->
  dict_get "value" d = Some v ->
  is_list v = false ->
  (sp_at settings client_get url_base init max_items_total st ->
   _sp_paged_request settings client_get url_base init max_items_total action
   = Some (Ok (success_value_count (all_items st) (page_count st + 1)),
           next_request url_base init st :: trace st))
  /\ (onedrive_at settings client_get url_base init N st ->
      _onedrive_paged_request settings client_get url_base init N action
      = Some (Ok (success_plain (all_items st) (page_count st + 1)),
              next_request url_base init st :: trace st)).
Proof.
  intros Hr Hd Hv Hlist.
  assert (Hit : forall cap logs_url,
             called logs_url st = true ->
             iterate client_get url_base init cap logs_url st
             = Break (mkState (all_items st) (current_url st) (page_count st + 1)
                              (next_request url_base init st :: trace st))).
  { intros cap logs_url Hcalled.
    rewrite (iterate_answered client_get url_base init cap logs_url st r d Hcalled Hr Hd).
    unfold dict_get_default. rewrite Hv.
    destruct v; solve [reflexivity | discriminate Hlist]. }
  split.
  - intros [Hreach Hc]. unfold _sp_paged_request.
    rewrite (paged_from_break _ _ _ _ _ _ _ _ _ st _ Hreach Hc (Hit _ false eq_refl)).
    reflexivity.
  - intros (Hreach & Hc & Hcalled). unfold _onedrive_paged_request.
    rewrite (paged_from_break _ _ _ _ _ _ _ _ _ st _ Hreach Hc (Hit _ true Hcalled)).
    reflexivity.
Qed.

Lemma c5_non_list_value_returns_accumulated_witness :
  _sp_paged_request (mkSettings None) Samples.crowded_then_odd
    Samples.start_url Samples.top_params None "list_lists"
  = Some (Ok (success_value_count [JStr "a"; JStr "b"; JStr "c"] 2),
          [mkRequest (JStr Samples.next_url) None;
           mkRequest (JStr Samples.start_url) (Some Samples.top_params)]).
Proof.
  refine (proj1 (c5_non_list_value_returns_accumulated (mkSettings None)
            Samples.crowded_then_odd Samples.start_url Samples.top_params
            None 0 "list_lists"
            (mkState [JStr "a"; JStr "b"; JStr "c"] (JStr Samples.next_url) 1
                     [mkRequest (JStr Samples.start_url) (Some Samples.top_params)])
            Samples.odd_page
            [("value", JDict [("id", JStr "x")]);
             ("@odata.nextLink", JStr Samples.next_url)]
            (JDict [("id", JStr "x")])
            eq_refl eq_refl eq_refl eq_refl) _).
  split; [|reflexivity].
  apply (reach_step _ _ _ _ _ _ (initial_state Samples.start_url));
    [apply reach_init | reflexivity | reflexivity].
Defined.

(** *** A body without ['value'] *)

(** C6 as stated fails: the first answer below has no ['value'] key and
    carries a cursor, and both helpers go on to call the cursor URL. *)
Lemma c6_missing_value_keeps_paging :
  json_body Samples.valueless_page
  = Some (JDict [("@odata.nextLink", JStr Samples.next_url)])
  /\ dict_get "value" [("@odata.nextLink", JStr Samples.next_url)] = None
  /\ _sp_paged_request (mkSettings None) Samples.valueless_then_last
       Samples.start_url Samples.top_params None "list_lists"
     = Some (Ok (success_value_count [JStr "a"; JStr "b"] 2),
             [mkRequest (JStr Samples.next_url) None;
              mkRequest (JStr Samples.start_url) (Some Samples.top_params)])
  /\ _onedrive_paged_request (mkSettings None) Samples.valueless_then_last
       Samples.start_url Samples.top_params 100 "onedrive_list_items"
     = Some (Ok (success_plain [JStr "a"; JStr "b"] 2),
             [mkRequest (JStr Samples.next_url) None;
              mkRequest (JStr Samples.start_url) (Some Samples.top_params)]).
Proof. repeat split; reflexivity. Qed.

(** C6, amended: a body without a ['value'] key counts as an empty page.
    It adds no item; when it carries no truthy ['@odata.nextLink'] the
    helpers leave the loop there, make no further call and return the
    success envelope with the items accumulated before; when it carries
    one, the loop goes on from that cursor with the same items. *)
Theorem c6_missing_value_is_empty_page (settings : settings_t)
    (client_get : client) (url_base : string) (init : dict)
    (max_items_total : option Z) (N : Z) (action : string)
    (st : loop_state) (r : response) (d : dict) :
  client_get (trace st) (next_request url_base init st) = Ok r ->
  json_body r = Some (JDict d) ->
  dict_get "value" d = None ->
  let next := dict_get_default "@odata.nextLink" JNull d in
  let st' := mkState (all_items st) next (page_count st + 1)
                     (next_request url_base init st :: trace st) in
  (sp_at settings client_get url_base init max_items_total st ->
   (truthy next = false ->
    _sp_paged_request settings client_get url_base init max_items_total action
    = Some (Ok (success_value_count (all_items st) (page_count st + 1)),
            next_request url_base init st :: trace st))
   /\ (truthy next = true ->
       reachable client_get url_base init max_items_total
                 (getattr_max_pages settings 20) false st'))
  /\ (onedrive_at settings client_get url_base init N st ->
      (truthy next = false ->
       _onedrive_paged_request settings client_get url_base init N action
       = Some (Ok (success_plain (all_items st) (page_count st + 1)),
               next_request url_base init st :: trace st))
      /\ (truthy next = true ->
          reachable client_get url_base init (Some N)
                    (getattr_max_pages settings 30) true st')).
Proof.
  intros Hr Hd Hv next st'.
  assert (Hit : forall cap logs_url,
             called logs_url st = true ->
             cap_open cap (len (all_items st)) = true ->
             iterate client_get url_base init cap logs_url st
             = if negb (truthy next) then Break st' else Continue st').
  { intros cap logs_url Hcalled Hopen.
    rewrite (iterate_answered client_get url_base init cap logs_url st r d Hcalled Hr Hd).
    unfold dict_get_default at 1. rewrite Hv. cbv zeta. cbn [append_items].
    rewrite (cap_open_not_reached cap _ Hopen), orb_false_r. reflexivity. }
  split.
  - intros [Hreach Hc].
    specialize (Hit max_items_total false eq_refl (loop_cond_cap_open _ _ _ Hc)).
    split; intros Hnext; rewrite Hnext in Hit; cbn [negb] in Hit.
    + unfold _sp_paged_request.
      rewrite (paged_from_break _ _ _ _ _ _ _ _ _ st _ Hreach Hc Hit). reflexivity.
    + exact (reach_step _ _ _ _ _ _ st st' Hreach Hc Hit).
  - intros (Hreach & Hc & Hcalled).
    specialize (Hit (Some N) true Hcalled (loop_cond_cap_open _ _ _ Hc)).
    split; intros Hnext; rewrite Hnext in Hit; cbn [negb] in Hit.
    + unfold _onedrive_paged_request.
      rewrite (paged_from_break _ _ _ _ _ _ _ _ _ st _ Hreach Hc Hit). reflexivity.
    + exact (reach_step _ _ _ _ _ _ st st' Hreach Hc Hit).
Qed.

Lemma c6_missing_value_is_empty_page_witness :
  reachable Samples.valueless_then_last Samples.start_url Samples.top_params None
            20 false
            (mkState [] (JStr Samples.next_url) 1
                     [mkRequest (JStr Samples.start_url) (Some Samples.top_params)]).
Proof.
  refine (proj2 (proj1 (c6_missing_value_is_empty_page (mkSettings None)
            Samples.valueless_then_last Samples.start_url Samples.top_params
            None 100 "list_lists" (initial_state Samples.start_url)
            Samples.valueless_page
            [("@odata.nextLink", JStr Samples.next_url)]
            eq_refl eq_refl eq_refl) _) eq_refl).
  split; [apply reach_init | reflexivity].
Defined.

(** *** Which calls carry the query parameters *)

Section Cursors.

Variable client_get : client.
Variable url_base : string.
Variable init : dict.
Variable cap : option Z.
Variable max_pages : Z.
Variable logs_url : bool.

#[local] Abbreviation iterate := (iterate client_get url_base init cap logs_url).
#[local] Abbreviation paged_loop :=
  (paged_loop client_get url_base init cap max_pages logs_url).
#[local] Abbreviation next_request := (next_request url_base init).
#[local] Abbreviation follows_cursors := (follows_cursors client_get url_base init).
#[local] Abbreviation cursor_inv := (cursor_inv client_get url_base init).

(** A pass that goes round again was answered with an object whose
    cursor the next state holds. *)
Lemma iterate_continue_inv (st st' : loop_state) :
  iterate st = Continue st' ->
  trace st' = next_request st :: trace st
  /\ page_count st' = page_count st + 1
  /\ exists r d, client_get (trace st) (next_request st) = Ok r
       /\ json_body r = Some (JDict d)
       /\ dict_get "@odata.nextLink" d = Some (current_url st').
Proof.
  unfold Paging.iterate.
  destruct (if logs_url then py_split_for_log (current_url st) else Ok tt);
    [|discriminate].
  destruct (client_get (trace st) (next_request st)) as [r|e] eqn:Hr; [|discriminate].
  destruct (json_body r) as [body|] eqn:Hb; [|discriminate].
  destruct body as [| | | | |d]; try discriminate. cbn [py_get].
  destruct (dict_get_default "value" (JList []) d) as [| | | |items|];
    try discriminate.
  unfold dict_get_default.
  destruct (dict_get "@odata.nextLink" d) as [next|] eqn:Hn;
    [|cbn [truthy negb orb]; discriminate].
  destruct (negb (truthy next) || _); [discriminate|].
  intros H. injection H as <-. cbn [trace page_count current_url].
  split; [reflexivity|]. split; [reflexivity|].
  exists r, d. auto.
Qed.

(** The call a state makes next extends a cursor-following trace. *)
Lemma follows_next (st : loop_state) :
  cursor_inv st -> follows_cursors (next_request st :: trace st).
Proof.
  intros [Hf Hst]. cbn [Paging.follows_cursors]. split; [|exact Hf].
  destruct (trace st) as [|latest earlier].
  - destruct Hst as [Hurl Hp]. unfold Paging.next_request.
    rewrite Hurl, Hp. cbn [eq_str]. now rewrite String.eqb_refl.
  - destruct Hst as (Hp & r & d & Hr & Hd & Hn).
    unfold Paging.next_request. cbn [req_params req_url].
    replace (page_count st + 1 =? 1) with false by (symmetry; apply Z.eqb_neq; lia).
    rewrite andb_false_r. split; [reflexivity|]. exists r, d. auto.
Qed.

Lemma iterate_cursor_inv (st : loop_state) :
  cursor_inv st ->
  follows_cursors (trace (after (iterate st)))
  /\ (forall st', iterate st = Continue st' -> cursor_inv st').
Proof.
  intros Hinv. split.
  - rewrite iterate_trace. destruct (called logs_url st);
      [now apply follows_next | exact (proj1 Hinv)].
  - intros st' Hit.
    destruct (iterate_continue_inv st st' Hit) as (Ht & Hp & r & d & Hr & Hd & Hn).
    split; rewrite Ht; [now apply follows_next|].
    split; [|exists r, d; auto].
    destruct Hinv as [_ Hst]. destruct (trace st); [destruct Hst|]; lia.
Qed.

Lemma paged_loop_follows_cursors (fuel : nat) (st : loop_state) :
  cursor_inv st ->
  match final_state (paged_loop fuel st) with
  | Some st' => follows_cursors (trace st')
  | None => True
  end.
Proof.
  revert st. induction fuel as [|fuel IH]; intros st Hinv;
    cbn [Paging.paged_loop]; destruct (loop_cond cap max_pages st);
    try exact I; try exact (proj1 Hinv).
  destruct (iterate_cursor_inv st Hinv) as [Hf Hnext].
  destruct (iterate st) as [st1|st1|e st1]; cbn [after] in Hf.
  - apply IH. now apply Hnext.
  - exact Hf.
  - exact Hf.
Qed.

Lemma cursor_inv_initial : cursor_inv (initial_state url_base).
Proof.
  unfold Paging.cursor_inv. cbn [initial_state trace current_url page_count].
  split; [exact I | split; reflexivity].
Qed.

Lemma paged_from_follows_cursors (success : list json -> Z -> dict)
    (handler : exn -> string -> pyres dict) (action : string) :
  exists out calls,
    paged_from client_get url_base init cap max_pages logs_url
               success handler action (initial_state url_base)
    = Some (out, calls)
    /\ follows_cursors calls.
Proof.
  unfold paged_from.
  pose proof (paged_loop_follows_cursors
                (fuel_for max_pages (initial_state url_base))
                (initial_state url_base) cursor_inv_initial) as Hf.
  pose proof (paged_loop_ends client_get url_base init cap max_pages logs_url
                (fuel_for max_pages (initial_state url_base))
                (initial_state url_base) (le_n _)) as Hends.
  destruct (Paging.paged_loop _ _ _ _ _ _ _ _) as [st'|e st'|];
    [| |contradiction]; cbn [finish final_state] in *;
    eexists _, _; split; solve [reflexivity | exact Hf].
Qed.

End Cursors.

(** C7: in a paginated fetch only the very first call, the one to the
    start URL, carries the initial query parameters; every later call goes
    to the ['@odata.nextLink'] value of the answer before it, as it is,
    with [params = None]. *)
Theorem c7_params_only_on_first_call (settings : settings_t)
    (client_get : client) (url_base : string) (init : dict)
    (max_items_total : option Z) (N : Z) (action : string) :
  (exists out calls,
      _sp_paged_request settings client_get url_base init max_items_total action
      = Some (out, calls)
      /\ follows_cursors client_get url_base init calls)
  /\ (exists out calls,
      _onedrive_paged_request settings client_get url_base init N action
      = Some (out, calls)
      /\ follows_cursors client_get url_base init calls).
Proof.
  split; apply paged_from_follows_cursors.
Qed.

(** *** Failing calls *)

(** What [_handle_graph_api_error] makes of an exception that an
    [AuthenticatedHttpClient] lets out. *)
Lemma handler_on_client_error (get_token : list string -> pyres string)
    (session : list request -> HttpClient.http_request -> pyres response)
    (default_timeout : Z) (scope : list string)
    (earlier : list request) (req : request) (e : exn) (action : string) :
  authenticated_client get_token session default_timeout scope earlier req = Raise e ->
  exists status details code,
    _handle_graph_api_error e action
    = Ok (error_dict action
            ("Error ejecutando " ++ action ++ ": " ++ exn_type_name e)
            status details code)
    /\ match e with
       | HTTPError _ (Some r) =>
           status = status_code r /\ details = upstream_message r
       | _ => status = 500 /\ details = JStr (exn_str e)
       end.
Proof.
  unfold authenticated_client, HttpClient.get. intros He.
  unfold _handle_graph_api_error, handle_api_error.
  destruct e as [m resp|n m].
  - apply HttpClientFacts.request_http_error_readable in He.
    destruct He as (r & -> & [Hb|(d & info & Hb & Hi)]).
    + rewrite Hb. eexists _, _, _. split; [reflexivity|].
      unfold upstream_message. rewrite Hb. auto.
    + rewrite Hb. cbn [py_get bind]. rewrite Hi. cbn [py_get bind].
      eexists _, _, _. split; [reflexivity|].
      unfold upstream_message. rewrite Hb, Hi. auto.
  - eexists _, _, _. split; [reflexivity|]. auto.
Qed.

(** What holds of a failed call, by the exception that leaves the client:
    when a call of the SharePoint helper's client raises, the loop is left
    at once, the failed call is the last one, it is not repeated, and the
    helper returns the error dictionary of its handler, with status
    ["error"] and no item list.  When what leaves the client is the
    [HTTPError] of the answer, [http_status] is the upstream status code
    and [details] the upstream error message; for any other exception they
    are 500 and the text of the exception. *)
Lemma raised_call_returns_error_dict
    (get_token : list string -> pyres string)
    (session : list request -> HttpClient.http_request -> pyres response)
    (default_timeout : Z) (scope : list string) (settings : settings_t)
    (url_base : string) (init : dict) (max_items_total : option Z)
    (action : string) (st : loop_state) (e : exn) :
  let client_get := authenticated_client get_token session default_timeout scope in
  sp_at settings client_get url_base init max_items_total st ->
  client_get (trace st) (next_request url_base init st) = Raise e ->
  exists status details code,
    _sp_paged_request settings client_get url_base init max_items_total action
    = Some (Ok (error_dict action
                  ("Error ejecutando " ++ action ++ ": " ++ exn_type_name e)
                  status details code),
            next_request url_base init st :: trace st)
    /\ dict_get "status" (error_dict action
                  ("Error ejecutando " ++ action ++ ": " ++ exn_type_name e)
                  status details code) = Some (JStr "error")
    /\ dict_get "data" (error_dict action
                  ("Error ejecutando " ++ action ++ ": " ++ exn_type_name e)
                  status details code) = None
    /\ match e with
       | HTTPError _ (Some r) =>
           status = status_code r /\ details = upstream_message r
       | _ => status = 500 /\ details = JStr (exn_str e)
       end.
Proof.
  intros client_get [Hreach Hc] He.
  destruct (handler_on_client_error get_token session default_timeout scope
              (trace st) (next_request url_base init st) e action He)
    as (status & details & code & Hh & Hcase).
  exists status, details, code.
  split; [|split; [reflexivity | split; [reflexivity | exact Hcase]]].
  unfold _sp_paged_request.
  rewrite (paged_from_throw _ _ _ _ _ _ _ _ _ st _ e Hreach Hc
             (iterate_raised client_get url_base init max_items_total false st e
                eq_refl He)).
  cbn [trace]. now rewrite Hh.
Qed.

Lemma raised_call_returns_error_dict_example :
  exists code,
    _sp_paged_request (mkSettings None)
      (authenticated_client Samples.fixed_token Samples.failing_session 90
                            Samples.graph_scope)
      Samples.start_url Samples.top_params (Some 10) "list_lists"
    = Some (Ok (error_dict "list_lists" "Error ejecutando list_lists: HTTPError"
                  404 (JStr "The resource could not be found.") code),
            [mkRequest (JStr Samples.start_url) (Some Samples.top_params)]).
Proof.
  destruct (raised_call_returns_error_dict Samples.fixed_token
              Samples.failing_session 90 Samples.graph_scope (mkSettings None)
              Samples.start_url Samples.top_params (Some 10) "list_lists"
              (initial_state Samples.start_url)
              (HTTPError "HTTP error" (Some Samples.not_found))
              (conj (reach_init _ _ _ _ _ _) eq_refl) eq_refl)
    as (status & details & code & Hrun & _ & _ & Hs & Hd).
  exists code. rewrite Hrun, Hs, Hd. reflexivity.
Defined.

(** C8 at a failing input.  The transport answers the first GET of
    [_sp_paged_request] with a 404 whose JSON body has a string under
    [error], as in [{error: not_found}].  While [request] builds its log
    message, [error_info.get] raises an [AttributeError] on that string;
    only [json.JSONDecodeError] is caught there, so the [AttributeError]
    leaves the client in place of the [HTTPError].  The helper still
    returns an error dictionary after that single call, but it reports
    [http_status] 500 and the text of the [AttributeError]: neither the
    upstream status code nor the upstream message. *)
Theorem c8_terse_error_body_loses_upstream_status :
  exists d,
    _sp_paged_request (mkSettings None)
      (authenticated_client Samples.fixed_token Samples.terse_session 90
                            Samples.graph_scope)
      Samples.start_url Samples.top_params (Some 10) "list_lists"
    = Some (Ok d, [mkRequest (JStr Samples.start_url) (Some Samples.top_params)])
    /\ status_code Samples.terse_not_found = 404
    /\ dict_get "status" d = Some (JStr "error")
    /\ dict_get "message" d
       = Some (JStr "Error ejecutando list_lists: AttributeError")
    /\ dict_get "http_status" d = Some (JNum 500)
    /\ dict_get "http_status" d <> Some (JNum (status_code Samples.terse_not_found))
    /\ dict_get "details" d = Some (JStr "'str' object has no attribute 'get'")
    /\ dict_get "details" d <> Some (upstream_message Samples.terse_not_found).
Proof.
  eexists. split; [reflexivity|].
  cbn. repeat split; discriminate.
Qed.

End PagingFacts.

(* ================================================================== *)
(** * Further properties of the client, the handlers and the helpers *)

Module HttpClientMore.
Import HttpClient HttpClientFacts.

(** [request] hands a response back only when its status is outside the
    4xx and 5xx range, and that response is the one the session gave for
    the single request sent. *)
Theorem request_returns_no_error_status
    (get_token : list string -> pyres string)
    (session_request : http_request -> pyres response) (default_timeout : Z)
    (method : string) (url : json) (scope : list string) (kw : kwargs)
    (r : response) :
  fst (request get_token session_request default_timeout method url scope kw) = Ok r ->
  (status_code r < 400 \/ 600 <= status_code r)
  /\ exists sent,
      snd (request get_token session_request default_timeout method url scope kw) = [sent]
      /\ session_request sent = Ok r.
Proof.
  unfold request, no_token.
  destruct (_get_access_token get_token scope) as [token|]; [|discriminate].
  destruct (String.eqb token ""); [discriminate|]. cbn [fst snd].
  match goal with |- context [session_request ?q] =>
    set (sent := q); destruct (session_request sent) as [r0|e0] eqn:Hs end;
    cbn [bind].
  - unfold raise_for_status.
    destruct ((400 <=? status_code r0) && (status_code r0 <? 600)) eqn:Hst.
    + unfold log_http_error_then_reraise.
      destruct (json_body r0) as [body|]; [|discriminate].
      destruct (py_get body "error" (JDict [])) as [info|]; [|discriminate].
      cbn [bind]. destruct (py_get info "message" JNull); discriminate.
    + intros H. injection H as <-. split.
      * apply andb_false_iff in Hst. destruct Hst as [H|H];
          [apply Z.leb_gt in H | apply Z.ltb_ge in H]; lia.
      * exists sent. auto.
  - destruct e0 as [m0 resp|n0 m0]; [|discriminate].
    unfold log_http_error_then_reraise.
    destruct resp as [r0|]; [|discriminate].
    destruct (json_body r0) as [body|]; [|discriminate].
    destruct (py_get body "error" (JDict [])) as [info|]; [|discriminate].
    cbn [bind]. destruct (py_get info "message" JNull); discriminate.
Qed.

Lemma request_returns_no_error_status_witness :
  (status_code (mkResponse 204 "" None) < 400 \/ 600 <= status_code (mkResponse 204 "" None)).
Proof.
  exact (proj1 (request_returns_no_error_status
                  (fun _ => Ok "eyJ0") (fun _ => Ok (mkResponse 204 "" None)) 90
                  "DELETE" (JStr "https://graph.microsoft.com/v1.0/me/messages/1")
                  ["https://graph.microsoft.com/.default"]
                  (mkKwargs None None None None None)
                  (mkResponse 204 "" None) eq_refl)).
Defined.

(** What [request] passes on: the method, the URL, the parameters and the
    body reach the session as given, the timeout is the caller's or the
    default, and of the headers only [Authorization] and [Content-Type] can
    differ from the caller's.  [Content-Type] is the caller's when given,
    and [application/json] when a [json] or [data] body comes without
    one. *)
Theorem request_forwards_arguments
    (get_token : list string -> pyres string)
    (session_request : http_request -> pyres response) (default_timeout : Z)
    (method : string) (url : json) (scope : list string) (kw : kwargs)
    (sent : http_request) :
  In sent (snd (request get_token session_request default_timeout method url scope kw)) ->
  let given := match kw_headers kw with Some h => h | None => [] end in
  hr_method sent = method /\ hr_url sent = url
  /\ hr_params sent = kw_params kw /\ hr_json sent = kw_json kw
  /\ hr_data sent = kw_data kw
  /\ hr_timeout sent = match kw_timeout kw with Some t => t | None => default_timeout end
  /\ (forall k, k <> "Authorization" -> k <> "Content-Type" ->
      get_key k (hr_headers sent) = get_key k given)
  /\ get_key "Content-Type" (hr_headers sent)
     = match get_key "Content-Type" given with
       | Some v => Some v
       | None =>
           match kw_json kw, kw_data kw with
           | None, None => None
           | _, _ => Some "application/json"
           end
       end.
Proof.
  intros Hin given. unfold request in Hin.
  destruct (_get_access_token get_token scope) as [token|]; [|contradiction Hin].
  destruct (String.eqb token ""); [contradiction Hin|].
  cbn [snd] in Hin. destruct Hin as [<-|[]].
  cbn [hr_method hr_url hr_params hr_json hr_data hr_timeout hr_headers].
  repeat (split; [reflexivity|]).
  match goal with
  | |- context [set_key "Authorization" _ ?g] => change g with given
  end.
  clearbody given.
  assert (Hct : get_key "Content-Type"
                  (set_key "Authorization" ("Bearer " ++ token) given)
                = get_key "Content-Type" given)
    by (apply get_set_other; reflexivity).
  split.
  - intros k Ha Hc.
    assert (Ha' : String.eqb "Authorization" k = false)
      by (apply String.eqb_neq; congruence).
    assert (Hc' : String.eqb "Content-Type" k = false)
      by (apply String.eqb_neq; congruence).
    destruct (kw_json kw), (kw_data kw); rewrite ?Hct;
      try (destruct (get_key "Content-Type" given);
           [|rewrite get_set_other by exact Hc']);
      apply get_set_other; exact Ha'.
  - destruct (kw_json kw), (kw_data kw); rewrite ?Hct;
      destruct (get_key "Content-Type" given) eqn:Hg;
      rewrite ?get_set_same, ?Hct, ?Hg; reflexivity.
Qed.

Lemma request_forwards_arguments_witness :
  get_key "Accept"
    (hr_headers
       (mkHttpRequest "PUT" (JStr "https://graph.microsoft.com/v1.0/me/drive/root:/a.txt:/content")
          [("Accept", "text/plain"); ("Content-Type", "application/octet-stream");
           ("Authorization", "Bearer eyJ0")]
          90 None None (Some (JStr "hello"))))
  = Some "text/plain".
Proof.
  refine (proj1 (proj2 (proj2 (proj2 (proj2 (proj2 (proj2
            (request_forwards_arguments
               (fun _ => Ok "eyJ0") (fun _ => Ok (mkResponse 201 "{}" (Some (JDict [])))) 90
               "PUT" (JStr "https://graph.microsoft.com/v1.0/me/drive/root:/a.txt:/content")
               ["https://graph.microsoft.com/.default"]
               (mkKwargs (Some [("Accept", "text/plain");
                                ("Content-Type", "application/octet-stream")])
                         None None (Some (JStr "hello")) None)
               _ (or_introl eq_refl)))))))) "Accept" _ _); discriminate.
Defined.

End HttpClientMore.

Module PagingMore.
Import Paging Gathering PagingFacts.

(** *** The handlers are partial *)

(** The part the three handlers share, by cases on the exception. *)
Lemma handle_api_error_cases (prefix : string)
    (on_bad_json : response -> json) (e : exn) (action : string) :
  match e with
  | HTTPError _ (Some r) =>
      if unreadable_error_body r
      then exists m, handle_api_error prefix on_bad_json e action
                     = Raise (OtherError "AttributeError" m)
      else exists details code,
             handle_api_error prefix on_bad_json e action
             = Ok (error_dict action (prefix ++ action ++ ": HTTPError")
                     (status_code r) details code)
  | _ =>
      handle_api_error prefix on_bad_json e action
      = Ok (error_dict action (prefix ++ action ++ ": " ++ exn_type_name e)
              500 (JStr (exn_str e)) JNull)
  end.
Proof.
  destruct e as [m [r|]|n m]; try reflexivity.
  unfold unreadable_error_body, handle_api_error. cbn [exn_type_name].
  destruct (json_body r) as [[| | | | |d]|];
    try (eexists; reflexivity); try (eexists _, _; reflexivity).
  cbn [py_get bind].
  destruct (dict_get_default "error" (JDict []) d) as [| | | | |info];
    cbn [is_dict negb py_get bind];
    try (eexists; reflexivity); try (eexists _, _; reflexivity).
Qed.

(** The three handlers are partial.  For an [HTTPError] that carries a
    response they raise an [AttributeError] exactly when the error body is
    unreadable (JSON that is not an object, or an object whose [error] is
    not an object); otherwise they return the error dictionary with the
    response's status code, and for every other exception the error
    dictionary with 500 and the text of the exception. *)
Theorem handlers_raise_on_unreadable_body (e : exn) (action : string) :
  let outcome (handler : exn -> string -> pyres dict) :=
    match e with
    | HTTPError _ (Some r) =>
        if unreadable_error_body r
        then exists m, handler e action = Raise (OtherError "AttributeError" m)
        else exists message details code,
               handler e action
               = Ok (error_dict action message (status_code r) details code)
    | _ =>
        exists message,
          handler e action
          = Ok (error_dict action message 500 (JStr (exn_str e)) JNull)
    end in
  outcome _handle_graph_api_error
  /\ outcome _handle_onedrive_api_error
  /\ outcome _handle_email_api_error.
Proof.
  cbv zeta.
  unfold _handle_graph_api_error, _handle_onedrive_api_error, _handle_email_api_error.
  repeat split;
    match goal with
    | |- context [handle_api_error ?prefix ?fallback e action] =>
        pose proof (handle_api_error_cases prefix fallback e action) as H
    end;
    (destruct e as [m [r|]|n m];
     [destruct (unreadable_error_body r);
      [exact H | destruct H as (details & code & H); eexists _, _, _; exact H]
     | eexists; exact H
     | eexists; exact H]).
Qed.

(** *** Over the authenticated client nothing escapes *)

Section Sources.

Variable client_get : client.
Variable url_base : string.
Variable init : dict.
Variable cap : option Z.
Variable max_pages : Z.
Variable logs_url : bool.

(** An exception that ends a pass was raised by the client, or it is one
    of the plain exceptions the body itself raises. *)
Lemma iterate_throw_source (st st' : loop_state) (e : exn) :
  iterate client_get url_base init cap logs_url st = Throw e st' ->
  (exists earlier req, client_get earlier req = Raise e)
  \/ exists n m, e = OtherError n m.
Proof.
  unfold iterate.
  destruct (if logs_url then py_split_for_log (current_url st) else Ok tt)
    as [u|e0] eqn:Hlog.
  - destruct (client_get (trace st) (next_request url_base init st)) as [r|e1] eqn:Hr.
    + destruct (json_body r) as [body|].
      * destruct body as [| | | | |d]; cbn [py_get];
          try (intros H; injection H as <- _; right; eexists _, _; reflexivity).
        destruct (dict_get_default "value" (JList []) d); try discriminate.
        destruct (negb (truthy _) || _); discriminate.
      * intros H; injection H as <- _. right. eexists _, _; reflexivity.
    + intros H. injection H as <- _. left. eexists _, _. exact Hr.
  - intros H. injection H as <- _. right.
    destruct logs_url; [|discriminate Hlog].
    destruct (current_url st); cbn [py_split_for_log] in Hlog;
      try discriminate Hlog; injection Hlog as <-; eexists _, _; reflexivity.
Qed.

Lemma paged_loop_failed_source (fuel : nat) (st st' : loop_state) (e : exn) :
  paged_loop client_get url_base init cap max_pages logs_url fuel st = Failed e st' ->
  (exists earlier req, client_get earlier req = Raise e)
  \/ exists n m, e = OtherError n m.
Proof.
  revert st. induction fuel as [|fuel IH]; intros st; cbn [paged_loop];
    destruct (loop_cond cap max_pages st); try discriminate.
  destruct (iterate client_get url_base init cap logs_url st) as [st1|st1|e1 st1] eqn:Hit.
  - apply IH.
  - discriminate.
  - intros H. injection H as <- _. exact (iterate_throw_source st st1 e1 Hit).
Qed.

End Sources.

(** What the shared handler makes of an exception the authenticated client
    lets out: always a dictionary. *)
Lemma handle_api_error_on_client_error (prefix : string)
    (on_bad_json : response -> json)
    (get_token : list string -> pyres string)
    (session : list request -> HttpClient.http_request -> pyres response)
    (default_timeout : Z) (scope : list string)
    (earlier : list request) (req : request) (e : exn) (action : string) :
  authenticated_client get_token session default_timeout scope earlier req = Raise e ->
  exists message status details code,
    handle_api_error prefix on_bad_json e action
    = Ok (error_dict action message status details code).
Proof.
  unfold authenticated_client, HttpClient.get. intros He.
  pose proof (handle_api_error_cases prefix on_bad_json e action) as Hh.
  destruct e as [m resp|n m].
  - apply HttpClientFacts.request_http_error_readable in He.
    destruct He as (r & -> & Hshape).
    assert (Hread : unreadable_error_body r = false).
    { unfold unreadable_error_body.
      destruct Hshape as [Hb|(d & info & Hb & Hi)]; rewrite Hb; [reflexivity|].
      now rewrite Hi. }
    rewrite Hread in Hh. destruct Hh as (details & code & Hh).
    eexists _, _, _, _. exact Hh.
  - eexists _, _, _, _. exact Hh.
Qed.

Lemma paged_from_never_raises (prefix : string) (on_bad_json : response -> json)
    (success : list json -> Z -> dict)
    (get_token : list string -> pyres string)
    (session : list request -> HttpClient.http_request -> pyres response)
    (default_timeout : Z) (scope : list string)
    (url_base : string) (init : dict) (cap : option Z) (max_pages : Z)
    (logs_url : bool) (action : string) :
  exists d calls,
    paged_from (authenticated_client get_token session default_timeout scope)
      url_base init cap max_pages logs_url success
      (handle_api_error prefix on_bad_json) action (initial_state url_base)
    = Some (Ok d, calls)
    /\ ((exists items pages, d = success items pages)
        \/ exists message status details code,
             d = error_dict action message status details code).
Proof.
  unfold paged_from.
  set (c := authenticated_client get_token session default_timeout scope).
  pose proof (paged_loop_ends c url_base init cap max_pages logs_url
                (fuel_for max_pages (initial_state url_base))
                (initial_state url_base) (le_n _)) as Hends.
  pose proof (paged_loop_failed_source c url_base init cap max_pages logs_url
                (fuel_for max_pages (initial_state url_base))
                (initial_state url_base)) as Hsrc.
  destruct (paged_loop c url_base init cap max_pages logs_url _ _) as [st'|e st'|];
    [| |contradiction]; cbn [finish].
  - eexists _, _. split; [reflexivity|]. left. eexists _, _. reflexivity.
  - destruct (Hsrc st' e eq_refl) as [(earlier & req & Hraise)|(n & m & ->)].
    + destruct (handle_api_error_on_client_error prefix on_bad_json get_token
                  session default_timeout scope earlier req e action Hraise)
        as (message & status & details & code & Hh).
      rewrite Hh. eexists _, _. split; [reflexivity|]. right.
      eexists _, _, _, _. reflexivity.
    + eexists _, _. split; [reflexivity|]. right. eexists _, _, _, _. reflexivity.
Qed.

(** Called with an [AuthenticatedHttpClient], the SharePoint, OneDrive and
    mail helpers never let an exception out, whatever the credential and
    the transport do: each call returns a dictionary whose [status] is
    ["success"] or ["error"]. *)
Theorem paged_helpers_never_raise
    (get_token : list string -> pyres string)
    (session : list request -> HttpClient.http_request -> pyres response)
    (default_timeout : Z) (scope : list string) (settings : settings_t)
    (url_base : string) (init : dict) (max_items_total : option Z) (N : Z)
    (action : string) :
  let c := authenticated_client get_token session default_timeout scope in
  (exists d calls,
      _sp_paged_request settings c url_base init max_items_total action
      = Some (Ok d, calls)
      /\ (dict_get "status" d = Some (JStr "success")
          \/ dict_get "status" d = Some (JStr "error")))
  /\ (exists d calls,
      _onedrive_paged_request settings c url_base init N action
      = Some (Ok d, calls)
      /\ (dict_get "status" d = Some (JStr "success")
          \/ dict_get "status" d = Some (JStr "error")))
  /\ (exists d calls,
      _email_paged_request settings c url_base init max_items_total action
      = Some (Ok d, calls)
      /\ (dict_get "status" d = Some (JStr "success")
          \/ dict_get "status" d = Some (JStr "error"))).
Proof.
  intros c.
  repeat split.
  - destruct (paged_from_never_raises "Error ejecutando " (fun r => JStr (text r))
                success_value_count get_token session default_timeout scope
                url_base init max_items_total (getattr_max_pages settings 20)
                false action) as (d & calls & Hrun & Hd).
    exists d, calls. split; [exact Hrun|].
    destruct Hd as [(items & pages & ->)|(m & s & dt & code & ->)];
      [left | right]; reflexivity.
  - destruct (paged_from_never_raises "Error en " (fun r => JStr (text r))
                success_plain get_token session default_timeout scope
                url_base init (Some N) (getattr_max_pages settings 30)
                true action) as (d & calls & Hrun & Hd).
    exists d, calls. split; [exact Hrun|].
    destruct Hd as [(items & pages & ->)|(m & s & dt & code & ->)];
      [left | right]; reflexivity.
  - destruct (paged_from_never_raises "Error en "
                (fun r => if String.eqb (text r) "" then JStr "No response body"
                          else JStr (str_take 500 (text r)))
                success_value_count get_token session default_timeout scope
                url_base init max_items_total (getattr_max_pages settings 20)
                true action) as (d & calls & Hrun & Hd).
    exists d, calls. split; [exact Hrun|].
    destruct Hd as [(items & pages & ->)|(m & s & dt & code & ->)];
      [left | right]; reflexivity.
Qed.

(** *** What the accumulator holds *)

Lemma take_cap_app (cap : option Z) (G items : list json) :
  append_items cap (take_cap cap G) items = take_cap cap (G ++ items).
Proof.
  destruct cap as [n|]; cbn [take_cap].
  - rewrite append_items_firstn, firstn_app. f_equal.
    unfold len. rewrite length_firstn.
    destruct (Nat.le_gt_cases (Z.to_nat n) (List.length G)) as [Hle|Hgt].
    + rewrite Nat.min_l by exact Hle.
      replace (Z.to_nat (n - Z.of_nat (Z.to_nat n))) with O by lia.
      replace (Z.to_nat n - List.length G)%nat with O by lia. reflexivity.
    + rewrite Nat.min_r by lia. f_equal. lia.
  - apply append_items_uncapped.
Qed.

Section Accumulator.

Variable client_get : client.
Variable url_base : string.
Variable init : dict.
Variable cap : option Z.
Variable max_pages : Z.
Variable logs_url : bool.

#[local] Abbreviation holds_gathered := (holds_gathered client_get cap).

Lemma iterate_holds_gathered (st : loop_state) :
  holds_gathered st ->
  holds_gathered (after (iterate client_get url_base init cap logs_url st)).
Proof.
  unfold Gathering.holds_gathered, iterate. intros Hst.
  destruct (if logs_url then py_split_for_log (current_url st) else Ok tt);
    [|exact Hst].
  destruct (client_get (trace st) (next_request url_base init st)) as [r|e] eqn:Hr.
  - destruct (json_body r) as [body|] eqn:Hb.
    + destruct body as [| | | | |d]; cbn [py_get];
        try (cbn [after all_items trace gathered]; rewrite Hr; cbn [answer_items];
             rewrite Hb, app_nil_r; exact Hst).
      destruct (dict_get_default "value" (JList []) d) as [| | | |items|] eqn:Hv;
        try (cbn [after all_items trace gathered]; rewrite Hr; cbn [answer_items];
             rewrite Hb; unfold page_items_of; rewrite Hv, app_nil_r; exact Hst).
      destruct (negb (truthy _) || _);
        cbn [after all_items trace gathered]; rewrite Hr; cbn [answer_items];
        rewrite Hb; unfold page_items_of; rewrite Hv, Hst; apply take_cap_app.
    + cbn [after all_items trace gathered]. rewrite Hr. cbn [answer_items].
      rewrite Hb, app_nil_r. exact Hst.
  - cbn [after all_items trace gathered]. rewrite Hr. cbn [answer_items].
    rewrite app_nil_r. exact Hst.
Qed.

Lemma paged_loop_holds_gathered (fuel : nat) (st : loop_state) :
  holds_gathered st ->
  match final_state (paged_loop client_get url_base init cap max_pages logs_url fuel st) with
  | Some st' => holds_gathered st'
  | None => True
  end.
Proof.
  revert st. induction fuel as [|fuel IH]; intros st Hst; cbn [paged_loop];
    destruct (loop_cond cap max_pages st); try exact I; try exact Hst.
  pose proof (iterate_holds_gathered st Hst) as Hnext.
  destruct (iterate client_get url_base init cap logs_url st) as [st1|st1|e st1];
    cbn [after] in Hnext.
  - now apply IH.
  - exact Hnext.
  - exact Hnext.
Qed.

Lemma paged_from_gathers (success : list json -> Z -> dict)
    (handler : exn -> string -> pyres dict) (action : string) :
  (forall a b c d, success a b = success c d -> a = c) ->
  (forall e items pages, handler e action <> Ok (success items pages)) ->
  exists out calls,
    paged_from client_get url_base init cap max_pages logs_url success handler
               action (initial_state url_base) = Some (out, calls)
    /\ forall items pages,
         out = Ok (success items pages) ->
         items = take_cap cap (gathered client_get calls).
Proof.
  intros Hinj Hne. unfold paged_from.
  pose proof (paged_loop_holds_gathered
                (fuel_for max_pages (initial_state url_base))
                (initial_state url_base)) as Hg.
  pose proof (paged_loop_ends client_get url_base init cap max_pages logs_url
                (fuel_for max_pages (initial_state url_base))
                (initial_state url_base) (le_n _)) as Hends.
  destruct (paged_loop client_get url_base init cap max_pages logs_url _ _)
    as [st'|e st'|]; [| |contradiction]; cbn [finish final_state] in *;
    eexists _, _; (split; [reflexivity|]); intros items pages Heq.
  - injection Heq as Heq. apply Hinj in Heq. subst items.
    apply Hg. unfold Gathering.holds_gathered.
    cbn [initial_state all_items trace gathered]. symmetry. apply take_cap_nil.
  - exfalso. exact (Hne e items pages Heq).
Qed.

End Accumulator.

Lemma handler_is_no_success (prefix : string) (on_bad_json : response -> json)
    (success : list json -> Z -> dict) (e : exn) (action : string)
    (items : list json) (pages : Z) :
  dict_get "status" (success items pages) = Some (JStr "success") ->
  handle_api_error prefix on_bad_json e action <> Ok (success items pages).
Proof.
  intros Hs H. apply handle_api_error_shape in H.
  destruct H as (m & c & dt & gc & H). rewrite H in Hs. discriminate Hs.
Qed.

(** The items of a success envelope are the ['value'] batches of the
    answers, in the order the pages were fetched, nothing dropped, repeated
    or reordered, cut after the first [max_items_total] items when there
    is a cap. *)
Theorem paged_items_are_the_batches_in_order (settings : settings_t)
    (client_get : client) (url_base : string) (init : dict)
    (max_items_total : option Z) (N : Z) (action : string) :
  (exists out calls,
      _sp_paged_request settings client_get url_base init max_items_total action
      = Some (out, calls)
      /\ forall items pages,
           out = Ok (success_value_count items pages) ->
           items = take_cap max_items_total (gathered client_get calls))
  /\ (exists out calls,
      _onedrive_paged_request settings client_get url_base init N action
      = Some (out, calls)
      /\ forall items pages,
           out = Ok (success_plain items pages) ->
           items = firstn (Z.to_nat N) (gathered client_get calls))
  /\ (exists out calls,
      _email_paged_request settings client_get url_base init max_items_total action
      = Some (out, calls)
      /\ forall items pages,
           out = Ok (success_value_count items pages) ->
           items = take_cap max_items_total (gathered client_get calls)).
Proof.
  repeat split.
  - apply paged_from_gathers.
    + intros a b c d H. now injection H.
    + intros e items pages. now apply handler_is_no_success.
  - apply (paged_from_gathers client_get url_base init (Some N)).
    + intros a b c d H. now injection H.
    + intros e items pages. now apply handler_is_no_success.
  - apply paged_from_gathers.
    + intros a b c d H. now injection H.
    + intros e items pages. now apply handler_is_no_success.
Qed.

Lemma paged_items_are_the_batches_in_order_witness :
  exists calls,
    _sp_paged_request (mkSettings (Some 2)) Samples.endless_upstream
      Samples.start_url Samples.top_params (Some 4) "list_lists"
    = Some (Ok (success_value_count
                  [JStr "a"; JStr "b"; JStr "c"; JStr "a"] 2), calls)
    /\ take_cap (Some 4) (gathered Samples.endless_upstream calls)
       = [JStr "a"; JStr "b"; JStr "c"; JStr "a"].
Proof.
  destruct (proj1 (paged_items_are_the_batches_in_order (mkSettings (Some 2))
              Samples.endless_upstream Samples.start_url Samples.top_params
              (Some 4) 4 "list_lists")) as (out & calls & Hrun & Hitems).
  exists calls.
  assert (Hout : out = Ok (success_value_count
                             [JStr "a"; JStr "b"; JStr "c"; JStr "a"] 2)).
  { cbv in Hrun. injection Hrun as <- _. reflexivity. }
  split.
  - rewrite Hrun, Hout. reflexivity.
  - symmetry. exact (Hitems _ _ Hout).
Defined.

(** *** Degenerate arguments *)

(** With an empty start URL, an item cap of zero or less, or a page cap of
    zero or less, a helper makes no call at all and returns the success
    envelope with no items and [pages_processed = 0]; a cap of [0] is not
    read as "no cap". *)
Theorem paged_degenerate_arguments_fetch_nothing (settings : settings_t)
    (client_get : client) (url_base : string) (init : dict)
    (max_items_total : option Z) (N : Z) (action : string) :
  ((url_base = ""
    \/ (exists n, max_items_total = Some n /\ n <= 0)
    \/ getattr_max_pages settings 20 <= 0) ->
   _sp_paged_request settings client_get url_base init max_items_total action
   = Some (Ok (success_value_count [] 0), [])
   /\ _email_paged_request settings client_get url_base init max_items_total action
     = Some (Ok (success_value_count [] 0), []))
  /\ ((url_base = "" \/ N <= 0 \/ getattr_max_pages settings 30 <= 0) ->
      _onedrive_paged_request settings client_get url_base init N action
      = Some (Ok (success_plain [] 0), [])).
Proof.
  assert (Hgen : forall cap max_pages logs_url success handler,
             (url_base = "" \/ (exists n, cap = Some n /\ n <= 0) \/ max_pages <= 0) ->
             paged_from client_get url_base init cap max_pages logs_url success
                        handler action (initial_state url_base)
             = Some (Ok (success [] 0), [])).
  { intros cap max_pages logs_url success handler H.
    assert (Hc : loop_cond cap max_pages (initial_state url_base) = false).
    { unfold loop_cond. cbn [initial_state current_url all_items page_count truthy].
      change (len (@nil json)) with 0.
      destruct H as [->|[(n & -> & Hn)|Hp]].
      - reflexivity.
      - cbn [cap_open]. replace (0 <? n) with false by (symmetry; apply Z.ltb_ge; lia).
        now rewrite andb_false_r.
      - replace (0 <? max_pages) with false by (symmetry; apply Z.ltb_ge; lia).
        now rewrite andb_false_r. }
    unfold paged_from.
    destruct (fuel_for max_pages (initial_state url_base));
      cbn [paged_loop]; rewrite Hc; reflexivity. }
  split.
  - intros H. split; apply Hgen; exact H.
  - intros H. apply Hgen. destruct H as [H|[H|H]]; auto.
    right. left. exists N. auto.
Qed.

Lemma paged_degenerate_arguments_fetch_nothing_witness :
  _sp_paged_request (mkSettings None) Samples.endless_upstream
    Samples.start_url Samples.top_params (Some 0) "list_lists"
  = Some (Ok (success_value_count [] 0), []).
Proof.
  refine (proj1 (proj1 (paged_degenerate_arguments_fetch_nothing (mkSettings None)
            Samples.endless_upstream Samples.start_url Samples.top_params
            (Some 0) 0 "list_lists") _)).
  right. left. exists 0. split; [reflexivity | lia].
Defined.

End PagingMore.

(* ================================================================== *)
(** * Properties of the strings, endpoints and lookups *)

Module PyStrFacts.
Import PyStr.

Lemma lstrip_no_leading_space (s : string) : no_leading_space (lstrip s).
Proof.
  induction s as [|c rest IH]; cbn [lstrip]; [exact I|].
  destruct (is_space c) eqn:Hc; [exact IH | exact Hc].
Qed.

Lemma lstrip_fixed (s : string) : no_leading_space s -> lstrip s = s.
Proof.
  destruct s as [|c rest]; cbn [no_leading_space lstrip]; [reflexivity|].
  now intros ->.
Qed.

Lemma rstrip_no_leading_space (s : string) :
  no_leading_space s -> no_leading_space (rstrip s).
Proof.
  destruct s as [|c rest]; cbn [no_leading_space rstrip]; [trivial|].
  intros Hc. rewrite Hc. now destruct (rstrip rest).
Qed.

Lemma rstrip_idempotent (s : string) : rstrip (rstrip s) = rstrip s.
Proof.
  induction s as [|c rest IH]; cbn [rstrip]; [reflexivity|].
  destruct (rstrip rest) as [|k kept] eqn:Hr.
  - destruct (is_space c) eqn:Hc; cbn [rstrip]; [reflexivity | now rewrite Hc].
  - cbn [rstrip]. cbn [rstrip] in IH.
    destruct (rstrip kept) as [|k' kept'] eqn:Hk.
    + destruct (is_space k); [discriminate IH|]. now injection IH as <-.
    + now injection IH as <-.
Qed.

(** [strip] is idempotent. *)
Lemma strip_idempotent (s : string) : strip (strip s) = strip s.
Proof.
  unfold strip.
  rewrite (lstrip_fixed (rstrip (lstrip s))).
  - apply rstrip_idempotent.
  - apply rstrip_no_leading_space, lstrip_no_leading_space.
Qed.

Lemma strip_rstrip_fixed (s : string) : strip s = s -> rstrip s = s.
Proof.
  unfold strip. intros H. rewrite <- H at 1. rewrite rstrip_idempotent. exact H.
Qed.

Lemma strip_no_leading_space (s : string) : no_leading_space (strip s).
Proof. apply rstrip_no_leading_space, lstrip_no_leading_space. Qed.

(** A slash in front of a stripped, non-empty string is kept by [strip]. *)
Lemma strip_slash_cons (q : string) :
  strip q = q -> q <> "" -> strip (String "/" q) = String "/" q.
Proof.
  intros Hq Hne. unfold strip. cbn [lstrip].
  replace (is_space "/") with false by reflexivity.
  cbn [rstrip]. rewrite (strip_rstrip_fixed q Hq).
  destruct q; [contradiction|reflexivity].
Qed.

End PyStrFacts.

Module EndpointFacts.
Import Paging PyStr PyStrFacts Graph.

Lemma startswith_slash_cons (q : string) : startswith "/" (String "/" q) = true.
Proof.
  unfold startswith. cbn [String.prefix].
  destruct (ascii_dec "/" "/") as [_|H]; [now destruct q | contradiction].
Qed.

Lemma not_slash_prefixed (q : string) :
  startswith "/" q = false -> String.eqb q "/" = false.
Proof.
  intros H. apply String.eqb_neq. intros ->. discriminate H.
Qed.

Section Endpoints.

Variable settings : graph_settings.

Lemma addressed_strip (p : string) : addressed (strip p) = addressed p.
Proof. unfold addressed. now rewrite strip_idempotent. Qed.

Lemma addressed_leading_slash (p : string) :
  strip p <> "" -> startswith "/" (strip p) = false ->
  addressed (String "/" (strip p)) = addressed p.
Proof.
  intros Hne Hs. unfold addressed.
  rewrite (strip_slash_cons (strip p) (strip_idempotent p) Hne).
  rewrite startswith_slash_cons. cbn [drop_first].
  replace (String.eqb (String "/" (strip p)) "") with false by reflexivity.
  replace (String.eqb (String "/" (strip p)) "/") with false.
  - rewrite Hs, (not_slash_prefixed _ Hs).
    apply String.eqb_neq in Hne. now rewrite Hne.
  - symmetry. apply String.eqb_neq. intros H. injection H as H. contradiction.
Qed.

Lemma od_endpoint_addressed (p : string) :
  _get_od_me_item_by_path_endpoint settings p
  = match addressed p with
    | None => _get_od_me_drive_base_endpoint settings ++ "/root"
    | Some q => _get_od_me_drive_base_endpoint settings ++ "/root:/" ++ q
    end.
Proof.
  unfold _get_od_me_item_by_path_endpoint, addressed.
  now destruct (String.eqb (strip p) "" || String.eqb (strip p) "/").
Qed.

Lemma sp_endpoint_addressed (site drive p : string) :
  _get_sp_item_endpoint_by_path settings site drive p
  = match addressed p with
    | None => GRAPH_API_BASE_URL settings ++ "/sites/" ++ site ++ "/drives/"
              ++ drive ++ "/root"
    | Some q => GRAPH_API_BASE_URL settings ++ "/sites/" ++ site ++ "/drives/"
                ++ drive ++ "/root:/" ++ q
    end.
Proof.
  unfold _get_sp_item_endpoint_by_path, addressed.
  now destruct (String.eqb (strip p) "" || String.eqb (strip p) "/").
Qed.

End Endpoints.

(** The by-path endpoints of OneDrive and SharePoint do not depend on white
    space around the path, nor on one slash in front of it: [p],
    [p.strip()] and ["/" + p.strip()] (when the stripped path is not empty
    and has no slash in front already) all give the same URL. *)
Theorem path_endpoints_ignore_space_and_leading_slash
    (settings : graph_settings) (site drive p : string) :
  (_get_od_me_item_by_path_endpoint settings (strip p)
   = _get_od_me_item_by_path_endpoint settings p
   /\ _get_sp_item_endpoint_by_path settings site drive (strip p)
      = _get_sp_item_endpoint_by_path settings site drive p)
  /\ (strip p <> "" -> startswith "/" (strip p) = false ->
      _get_od_me_item_by_path_endpoint settings (String "/" (strip p))
      = _get_od_me_item_by_path_endpoint settings p
      /\ _get_sp_item_endpoint_by_path settings site drive (String "/" (strip p))
         = _get_sp_item_endpoint_by_path settings site drive p).
Proof.
  split; [split|intros Hne Hs; split];
    rewrite ?od_endpoint_addressed, ?sp_endpoint_addressed,
            ?addressed_strip, ?(addressed_leading_slash p Hne Hs); reflexivity.
Qed.

Lemma path_endpoints_ignore_space_and_leading_slash_witness :
  _get_od_me_item_by_path_endpoint
    (mkGraphSettings "https://graph.microsoft.com/v1.0" None None) "/Docs/a.txt"
  = _get_od_me_item_by_path_endpoint
      (mkGraphSettings "https://graph.microsoft.com/v1.0" None None) "  Docs/a.txt ".
Proof.
  exact (proj1 (proj2 (path_endpoints_ignore_space_and_leading_slash
                         (mkGraphSettings "https://graph.microsoft.com/v1.0" None None)
                         "s" "d" "  Docs/a.txt ")
                      ltac:(discriminate) eq_refl)).
Defined.

End EndpointFacts.

Module LookupFacts.
Import Paging PyStr Resolver Graph.

(** For an input the resolvers decide to look up, the OneDrive lookup takes
    the by-path endpoint exactly when the input has a ['/'] or fewer than
    70 characters. *)
Lemma is_path_like_when_looked_up (s : string) :
  is_likely_id s = false ->
  is_path_like s = contains_char "/"%char s || (len_str s <? 70).
Proof.
  unfold is_likely_id, is_path_like.
  destruct (contains_char "!"%char s), (contains_char "/"%char s),
    (contains_char "."%char s), (startswith "driveItem_" s),
    (40 <? len_str s), (len_str s <? 70); cbn; congruence.
Qed.

(** And the SharePoint lookup takes the by-ID endpoint exactly when the
    input has no ['/'] and more than 40 characters. *)
Lemma is_item_id_when_looked_up (s : string) :
  is_likely_id s = false ->
  is_item_id s = negb (contains_char "/"%char s) && (40 <? len_str s).
Proof.
  unfold is_likely_id, is_item_id.
  destruct (contains_char "!"%char s), (contains_char "/"%char s),
    (contains_char "."%char s), (startswith "driveItem_" s),
    (40 <? len_str s); cbn; congruence.
Qed.

(** The OneDrive lookup as the code stands sends no request.  Its log line
    calls [str.replace] with [settings.GRAPH_API_BASE_URL], which is no
    [str], inside the [try] and before [client.get]; the [TypeError] goes
    to the handler, so every lookup returns an error dictionary with
    [http_status] 500 and makes no GET.  Hence the resolver returns an
    input it takes for an ID as it is, and for every other input an error
    dictionary, never the ID of the item. *)
Theorem onedrive_lookup_sends_no_request (settings : graph_settings)
    (base_url_type : string) (py_repr : dict -> string) (client_get : client)
    (earlier : list request) :
  (forall item select expand,
     exists d,
       _internal_onedrive_get_item_metadata settings base_url_type client_get earlier
                                            item select expand
       = (Ok d, earlier)
       /\ dict_get "status" d = Some (JStr "error")
       /\ dict_get "http_status" d = Some (JNum 500))
  /\ (forall s,
        exists v,
          resolve_onedrive_item settings base_url_type py_repr client_get earlier s
          = (Ok v, earlier)
          /\ (is_likely_id s = true -> v = JStr s)
          /\ (is_likely_id s = false ->
              exists d, v = JDict d
                        /\ dict_get "status" d = Some (JStr "error")
                        /\ dict_get "http_status" d = Some (JNum 500))).
Proof.
  assert (Hlookup : forall item select expand,
             exists d,
               _internal_onedrive_get_item_metadata settings base_url_type client_get
                                                    earlier item select expand
               = (Ok d, earlier)
               /\ dict_get "status" d = Some (JStr "error")
               /\ dict_get "http_status" d = Some (JNum 500)).
  { intros [item|] select expand; unfold _internal_onedrive_get_item_metadata;
      [destruct (String.eqb item "")|];
      eexists; (split; [reflexivity|]); split; reflexivity. }
  split; [exact Hlookup|].
  intros s. unfold resolve_onedrive_item, _get_item_id_from_path_if_needed.
  destruct (is_likely_id s) eqn:Hid; cbn [res_value res_lookups].
  - exists (JStr s). split; [reflexivity|]. split; [reflexivity | discriminate].
  - destruct (Hlookup (Some s) (Some "id,name") None) as (d & Hd & Hst & Hcode).
    rewrite Hd. cbn [fst snd bind].
    assert (Herr : eq_str (dict_get_default "status" JNull d) "error" = true).
    { unfold dict_get_default. now rewrite Hst. }
    assert (Hok : eq_str (dict_get_default "status" JNull d) "success" = false).
    { unfold dict_get_default. now rewrite Hst. }
    rewrite Hok, Herr.
    exists (JDict d). split; [reflexivity|]. split; [discriminate|].
    intros _. now exists d.
Qed.

End LookupFacts.

Module SiteFacts.
Import Paging PyStr Graph.

Section Sites.

Variable settings : graph_settings.
Variable py_str : json -> string.
Variable client_get : client.

Lemma resolved_within_weaken (n m : nat) (t : string) (earlier : list request)
    (out : pyres json * list request) :
  (n <= m)%nat -> resolved_within n t earlier out -> resolved_within m t earlier out.
Proof.
  intros Hle [(made & Hs & Hl) Hr]. split; [|exact Hr].
  exists made. split; [exact Hs | lia].
Qed.

Lemma resolved_within_after (n k : nat) (t : string) (earlier : list request)
    (made : list request) (out : pyres json * list request) :
  (List.length made <= k)%nat ->
  resolved_within n t (made ++ earlier)%list out ->
  resolved_within (n + k) t earlier out.
Proof.
  intros Hk [(made' & Hs & Hl) Hr]. split; [|exact Hr].
  exists (made' ++ made)%list. split.
  - now rewrite Hs, app_assoc.
  - rewrite length_app. lia.
Qed.

Lemma root_site_fallback_within (calls : list request) :
  resolved_within 1 "ValueError" calls (root_site_fallback settings client_get calls).
Proof.
  unfold root_site_fallback, call, resolved_within. cbn [fst snd]. split.
  - eexists [_]. split; [reflexivity | cbn; lia].
  - destruct (_ <- _ ;; _) as [v|e].
    + destruct (truthy v) eqn:Hv; [exact Hv | eexists; reflexivity].
    + eexists; reflexivity.
Qed.

Lemma default_or_root_site_within (calls : list request) :
  resolved_within 1 "ValueError" calls (default_or_root_site settings client_get calls).
Proof.
  unfold default_or_root_site.
  destruct (SHAREPOINT_DEFAULT_SITE_ID settings) as [d|];
    [|apply root_site_fallback_within].
  destruct (negb (String.eqb d "") && _) eqn:Hd; [|apply root_site_fallback_within].
  split; cbn [fst snd].
  - exists []. split; [reflexivity | cbn; lia].
  - cbn [truthy]. now apply andb_true_iff in Hd.
Qed.

(** [_obtener_site_id_sp] makes at most three calls; whatever it returns
    is truthy, and whatever it raises is a [ValueError]. *)
Lemma obtener_site_id_within (earlier : list request)
    (site_id site_identifier : option string) :
  resolved_within 3 "ValueError" earlier
    (_obtener_site_id_sp settings py_str client_get earlier site_id site_identifier).
Proof.
  unfold _obtener_site_id_sp.
  destruct (if given site_id then site_id else site_identifier) as [s|];
    [|apply (resolved_within_weaken 1); [lia | apply default_or_root_site_within]].
  destruct (String.eqb s "") eqn:Hs;
    [apply (resolved_within_weaken 1); [lia | apply default_or_root_site_within]|].
  destruct (_is_valid_graph_site_id_format s).
  - split; cbn [fst snd].
    + exists []. split; [reflexivity | cbn; lia].
    + cbn [truthy]. now rewrite Hs.
  - match goal with
    | |- context [let '(_, _) := ?step in _] =>
        assert (Hstep : exists made, snd step = (made ++ earlier)%list
                                     /\ (List.length made <= 1)%nat)
    end.
    { destruct (negb (contains_char ":" s) && _).
      - unfold call.
        destruct (_ <- _ ;; _) as [h|e]; [destruct (truthy h)|];
          (eexists [_]; split; [reflexivity | cbn; lia]).
      - exists []. split; [reflexivity | cbn; lia]. }
    destruct (if negb (contains_char ":" s) && _ then _ else _)
      as [lookup_path calls1].
    cbn [snd] in Hstep. destruct Hstep as (made & -> & Hmade).
    unfold call.
    apply (resolved_within_after 2 1 _ earlier made); [exact Hmade|].
    destruct (_ <- _ ;; _) as [v|e].
    + destruct (truthy v) eqn:Hv.
      * split; cbn [fst snd]; [|exact Hv].
        eexists [_]. split; [reflexivity | cbn; lia].
      * eapply (resolved_within_after 1 1 _ _ [_]); [cbn; lia|].
        apply default_or_root_site_within.
    + eapply (resolved_within_after 1 1 _ _ [_]); [cbn; lia|].
      apply default_or_root_site_within.
Qed.

Lemma default_or_root_site_succeeds (calls : list request) :
  root_site_answers settings client_get ->
  exists v, fst (default_or_root_site settings client_get calls) = Ok v.
Proof.
  intros Hroot. unfold default_or_root_site, root_site_fallback, call.
  destruct (Hroot calls) as (r & d & v & Hr & Hd & Hv & Ht).
  assert (Hfall : exists w,
             fst (match (r0 <- client_get calls
                           (mkRequest (JStr (GRAPH_API_BASE_URL settings
                                             ++ "/sites/root?$select=id,displayName")) None) ;;
                         root_site_data <- json_of r0 ;;
                         py_get root_site_data "id" JNull) with
                  | Ok root_site_id =>
                      if truthy root_site_id then Ok root_site_id
                      else Raise (OtherError "ValueError" "No se pudo determinar SP Site ID.")
                  | Raise e_root =>
                      Raise (OtherError "ValueError"
                               ("Fallo CRÍTICO al obtener SP Site ID: " ++ exn_str e_root))
                  end,
                  mkRequest (JStr (GRAPH_API_BASE_URL settings
                                   ++ "/sites/root?$select=id,displayName")) None :: calls)
             = Ok w).
  { rewrite Hr. cbn [bind]. unfold json_of. rewrite Hd. cbn [bind py_get].
    unfold dict_get_default. rewrite Hv, Ht. now exists v. }
  destruct (SHAREPOINT_DEFAULT_SITE_ID settings) as [dflt|]; [|exact Hfall].
  destruct (negb (String.eqb dflt "") && _); [|exact Hfall].
  now eexists.
Qed.

End Sites.

(** [_obtener_site_id_sp] makes at most three GETs (the host name of the
    root site, the site itself, the root site as a last resort); whatever
    it returns is truthy, and the only exception it raises is a
    [ValueError], whatever the upstream does. *)
Theorem site_resolution_is_bounded (settings : graph_settings)
    (py_str : json -> string) (client_get : client) (earlier : list request)
    (site_id site_identifier : option string) :
  let out := _obtener_site_id_sp settings py_str client_get earlier
                                 site_id site_identifier in
  (exists made, snd out = (made ++ earlier)%list /\ (List.length made <= 3)%nat)
  /\ match fst out with
     | Ok v => truthy v = true
     | Raise e => exists m, e = OtherError "ValueError" m
     end.
Proof. apply obtener_site_id_within. Qed.

(** A site input of a recognised Graph format is returned as it is, with
    no call to check it; [site_id] is read before [site_identifier], which
    is used when [site_id] is missing or empty. *)
Theorem recognised_site_id_costs_no_call (settings : graph_settings)
    (py_str : json -> string) (client_get : client) (earlier : list request)
    (s : string) (other : option string) :
  _is_valid_graph_site_id_format s = true ->
  _obtener_site_id_sp settings py_str client_get earlier (Some s) other
  = (Ok (JStr s), earlier)
  /\ _obtener_site_id_sp settings py_str client_get earlier None (Some s)
     = (Ok (JStr s), earlier)
  /\ _obtener_site_id_sp settings py_str client_get earlier (Some "") (Some s)
     = (Ok (JStr s), earlier).
Proof.
  intros Hv.
  assert (Hne : String.eqb s "" = false).
  { destruct (String.eqb s "") eqn:E; [|reflexivity].
    apply String.eqb_eq in E. subst s. discriminate Hv. }
  unfold _obtener_site_id_sp. cbn [given String.eqb negb].
  rewrite Hne. cbn [negb]. rewrite Hne, Hv. auto.
Qed.

Lemma recognised_site_id_costs_no_call_witness :
  _obtener_site_id_sp (mkGraphSettings "https://graph.microsoft.com/v1.0" None None)
    (fun _ => "") Samples.endless_upstream []
    (Some "contoso.sharepoint.com,2C712604-1370-44E7-A1F5-426573FDA80A,2D2244C3-251A-49EA-93A8-39E1C3A060FE")
    None
  = (Ok (JStr "contoso.sharepoint.com,2C712604-1370-44E7-A1F5-426573FDA80A,2D2244C3-251A-49EA-93A8-39E1C3A060FE"),
     []).
Proof.
  exact (proj1 (recognised_site_id_costs_no_call
                  (mkGraphSettings "https://graph.microsoft.com/v1.0" None None)
                  (fun _ => "") Samples.endless_upstream []
                  "contoso.sharepoint.com,2C712604-1370-44E7-A1F5-426573FDA80A,2D2244C3-251A-49EA-93A8-39E1C3A060FE"
                  None eq_refl)).
Defined.

(** As long as the root site answers with an [id], [_obtener_site_id_sp]
    never raises: a site that cannot be found falls back on the default
    site of the settings or on the root site. *)
Theorem site_resolution_succeeds_when_root_answers (settings : graph_settings)
    (py_str : json -> string) (client_get : client) (earlier : list request)
    (site_id site_identifier : option string) :
  root_site_answers settings client_get ->
  exists v,
    fst (_obtener_site_id_sp settings py_str client_get earlier
                             site_id site_identifier) = Ok v.
Proof.
  intros Hroot. unfold _obtener_site_id_sp.
  destruct (if given site_id then site_id else site_identifier) as [s|];
    [|now apply default_or_root_site_succeeds].
  destruct (String.eqb s ""); [now apply default_or_root_site_succeeds|].
  destruct (_is_valid_graph_site_id_format s); [now eexists|].
  destruct (if negb (contains_char ":" s) && _ then _ else _)
    as [lookup_path calls1].
  unfold call.
  destruct (_ <- _ ;; _) as [v|e].
  - destruct (truthy v); [now eexists | now apply default_or_root_site_succeeds].
  - now apply default_or_root_site_succeeds.
Qed.

Lemma site_resolution_succeeds_when_root_answers_witness :
  exists v,
    fst (_obtener_site_id_sp Tenant.graph (fun _ => "") Tenant.tenant_upstream []
                             (Some "/sites/nope") None) = Ok v.
Proof.
  apply (site_resolution_succeeds_when_root_answers Tenant.graph (fun _ => "")
           Tenant.tenant_upstream [] (Some "/sites/nope") None).
  intros calls.
  exists (mkResponse 200 "{...}"
            (Some (JDict [("id", JStr "contoso.sharepoint.com,0,0");
                          ("displayName", JStr "Root")]))),
         [("id", JStr "contoso.sharepoint.com,0,0"); ("displayName", JStr "Root")],
         (JStr "contoso.sharepoint.com,0,0").
  repeat split.
Defined.

End SiteFacts.

Module DriveFacts.
Import Paging PyStr Resolver Graph SiteFacts LookupFacts.

Lemma find_drive_truthy (l : list json) (target : string) (v : json) :
  find_drive l target = Ok (Some v) -> truthy v = true.
Proof.
  induction l as [|o rest IH]; cbn [find_drive]; [discriminate|].
  destruct (drive_matches o target) as [[w|]|e]; cbn [bind]; try discriminate;
    [|exact IH].
  destruct (truthy w) eqn:Hw; [|exact IH].
  intros H. now injection H as <-.
Qed.

Lemma find_drive_in_truthy (drives : json) (target : string) (v : json) :
  find_drive_in drives target = Ok (Some v) -> truthy v = true.
Proof.
  destruct drives as [| | |s|l|d]; cbn [find_drive_in]; try discriminate.
  - destruct (String.eqb s ""); discriminate.
  - apply find_drive_truthy.
  - destruct d; discriminate.
Qed.

Section Drives.

Variable settings : graph_settings.
Variable client_get : client.

Lemma drive_by_name_within (calls : list request) (site target : string) :
  resolved_within 1 "ConnectionError" calls
    (drive_by_name settings client_get calls site target).
Proof.
  unfold drive_by_name, call, resolved_within. cbn [fst snd]. split.
  - eexists [_]. split; [reflexivity | cbn; lia].
  - destruct (client_get calls _) as [r|e]; cbn [bind]; [|eexists; reflexivity].
    destruct (json_of r) as [body|e]; cbn [bind]; [|eexists; reflexivity].
    destruct (py_get body "value" (JList [])) as [drives|e]; cbn [bind];
      [|eexists; reflexivity].
    destruct (find_drive_in drives target) as [[v|]|e] eqn:Hf; cbn [bind];
      try (eexists; reflexivity).
    exact (find_drive_in_truthy drives target v Hf).
Qed.

Lemma get_drive_id_within (earlier : list request) (site : string)
    (input : option string) :
  target_drive settings input <> "" ->
  resolved_within 2 "ConnectionError" earlier
    (_get_drive_id settings client_get earlier site input).
Proof.
  intros Hne. unfold _get_drive_id. fold (target_drive settings input).
  apply String.eqb_neq in Hne. rewrite Hne.
  destruct (drive_is_likely_id (target_drive settings input));
    [|apply (resolved_within_weaken 1); [lia | apply drive_by_name_within]].
  unfold call.
  destruct (_ <- _ ;; _) as [v|e].
  - destruct (truthy v) eqn:Hv.
    + split; cbn [fst snd]; [|exact Hv].
      eexists [_]. split; [reflexivity | cbn; lia].
    + eapply (resolved_within_after 1 1 _ _ [_]); [cbn; lia|].
      apply drive_by_name_within.
  - eapply (resolved_within_after 1 1 _ _ [_]); [cbn; lia|].
    apply drive_by_name_within.
Qed.

End Drives.

(** [_get_drive_id] makes at most two GETs (the drive by ID, then the
    listing of the site's drives).  Whatever it returns is truthy, and
    every failure leaves as a [ConnectionError]: a failed call, an answer
    of the wrong shape, and also a drive that is simply not in the
    listing.  Only an empty identifier (no input and an empty default)
    raises the [ValueError], before any call. *)
Theorem drive_resolution_is_bounded (settings : graph_settings)
    (client_get : client) (earlier : list request) (site : string)
    (input : option string) :
  let out := _get_drive_id settings client_get earlier site input in
  (target_drive settings input = "" ->
   out = (Raise (OtherError "ValueError" "Se requiere nombre o ID de Drive."), earlier))
  /\ (target_drive settings input <> "" ->
      (exists made, snd out = (made ++ earlier)%list /\ (List.length made <= 2)%nat)
      /\ match fst out with
         | Ok v => truthy v = true
         | Raise e => exists m, e = OtherError "ConnectionError" m
         end).
Proof.
  cbv zeta. split.
  - intros He. unfold _get_drive_id. fold (target_drive settings input).
    now rewrite He.
  - intros Hne. now apply get_drive_id_within.
Qed.

Lemma drive_resolution_is_bounded_witness :
  match fst (_get_drive_id Tenant.graph Tenant.tenant_upstream []
                           "contoso.sharepoint.com,1,2" (Some "Missing")) with
  | Ok v => truthy v = true
  | Raise e => exists m, e = OtherError "ConnectionError" m
  end.
Proof.
  exact (proj2 (proj2 (drive_resolution_is_bounded Tenant.graph Tenant.tenant_upstream []
                         "contoso.sharepoint.com,1,2" (Some "Missing"))
                      ltac:(discriminate))).
Defined.

Lemma drive_matches_plain (o : json) (target : string) :
  plain_drive o ->
  drive_matches o target
  = Ok (if String.eqb (lower (text_of "name" o)) (lower target)
           || String.eqb (lower (text_of "displayName" o)) (lower target)
        then Some (id_of o) else None).
Proof.
  intros (d & -> & Hn & Hd). unfold drive_matches, text_of, id_of.
  cbn [py_get bind]. unfold dict_get_default.
  assert (Hname : py_lower (match dict_get "name" d with Some v => v | None => JStr "" end)
                  = Ok (lower (match dict_get "name" d with Some (JStr s) => s | _ => "" end))).
  { destruct Hn as [->|[s ->]]; reflexivity. }
  assert (Hdisp : py_lower (match dict_get "displayName" d with Some v => v | None => JStr "" end)
                  = Ok (lower (match dict_get "displayName" d with Some (JStr s) => s | _ => "" end))).
  { destruct Hd as [->|[s ->]]; reflexivity. }
  rewrite Hname. cbn [bind].
  destruct (String.eqb (lower _) (lower target)); cbn [orb]; [reflexivity|].
  rewrite Hdisp. cbn [bind].
  destruct (String.eqb (lower _) (lower target)); reflexivity.
Qed.

(** Over a well-formed listing the search by name returns the [id] of the
    first drive whose [name] or [displayName] equals the requested one up
    to case and which has an [id]; drives without an [id] are passed over,
    and there is no result when no drive qualifies. *)
Theorem drive_search_finds_first_match (drives : list json) (target : string) :
  Forall plain_drive drives ->
  find_drive drives target
  = Ok (option_map id_of (find (is_wanted_drive target) drives)).
Proof.
  induction 1 as [|o rest Ho _ IH]; cbn [find_drive find]; [reflexivity|].
  rewrite (drive_matches_plain o target Ho). cbn [bind].
  unfold is_wanted_drive at 1.
  destruct (String.eqb (lower (text_of "name" o)) (lower target)
            || String.eqb (lower (text_of "displayName" o)) (lower target));
    cbn [andb]; [|exact IH].
  destruct (truthy (id_of o)); [reflexivity | exact IH].
Qed.

Lemma drive_search_finds_first_match_witness :
  find_drive
    [JDict [("id", JStr "b!old"); ("name", JStr "Archive")];
     JDict [("name", JStr "documents")];
     JDict [("id", JStr "b!docs"); ("name", JStr "Shared Documents");
            ("displayName", JStr "Documents")]]
    "DOCUMENTS"
  = Ok (Some (JStr "b!docs")).
Proof.
  refine (drive_search_finds_first_match _ "DOCUMENTS" _).
  repeat constructor;
    (eexists; split; [reflexivity|]; split;
     solve [left; reflexivity | right; eexists; reflexivity]).
Defined.

End DriveFacts.

Module SharePointLookupFacts.
Import Paging PyStr Resolver Graph SiteFacts LookupFacts DriveFacts.

Lemma get_drive_id_calls (settings : graph_settings) (client_get : client)
    (earlier : list request) (site : string) (input : option string) :
  exists made,
    snd (_get_drive_id settings client_get earlier site input) = (made ++ earlier)%list
    /\ (List.length made <= 2)%nat.
Proof.
  destruct (String.eqb (target_drive settings input) "") eqn:He.
  - apply String.eqb_eq in He. exists []. split; [|cbn; lia].
    unfold _get_drive_id. fold (target_drive settings input). now rewrite He.
  - apply String.eqb_neq in He.
    exact (proj1 (get_drive_id_within settings client_get earlier site input He)).
Qed.

Lemma get_file_metadata_calls (settings : graph_settings) (py_str : json -> string)
    (client_get : client) (earlier : list request)
    (site_id site_identifier drive item select expand : option string) :
  exists made,
    snd (get_file_metadata settings py_str client_get earlier site_id site_identifier
                           drive item select expand) = (made ++ earlier)%list
    /\ (List.length made <= 6)%nat.
Proof.
  unfold get_file_metadata.
  destruct (negb (given item)); [exists []; split; [reflexivity | cbn; lia]|].
  destruct (obtener_site_id_within settings py_str client_get earlier
              site_id site_identifier) as [(made1 & Hs1 & Hl1) _].
  destruct (_obtener_site_id_sp _ _ _ _ _ _) as [site calls1]. cbn [snd] in Hs1.
  subst calls1.
  destruct site as [target_site_id|e];
    [|exists made1; split; [reflexivity | lia]].
  destruct (get_drive_id_calls settings client_get (made1 ++ earlier)%list
              (format py_str target_site_id) drive) as (made2 & Hs2 & Hl2).
  destruct (_get_drive_id _ _ _ _ _) as [drive_v calls2]. cbn [snd] in Hs2.
  subst calls2.
  destruct drive_v as [target_drive_id|e].
  - unfold call. cbn [snd].
    eexists (_ :: made2 ++ made1)%list. split.
    + cbn [app]. now rewrite <- app_assoc.
    + cbn [List.length]. rewrite length_app. lia.
  - exists (made2 ++ made1)%list. split.
    + cbn [snd]. now rewrite <- app_assoc.
    + rewrite length_app. lia.
Qed.

(** [_get_item_id_from_path_if_needed_sp] never lets an exception out,
    whatever the upstream and the error handling below it do, and costs at
    most six GETs (three for the site, two for the drive, one for the
    item); an input it takes for an ID is returned as it is without any
    call. *)
Theorem sharepoint_resolver_always_answers (settings : graph_settings)
    (py_str : json -> string) (client_get : client) (earlier : list request)
    (item site drive : string) :
  exists v made,
    resolve_sp_item settings py_str client_get earlier item site drive
    = (Ok v, (made ++ earlier)%list)
    /\ (List.length made <= 6)%nat
    /\ (is_likely_id item = true -> v = JStr item /\ made = []).
Proof.
  unfold resolve_sp_item, _get_item_id_from_path_if_needed_sp.
  destruct (is_likely_id item) eqn:Hid; cbn [res_value res_lookups].
  - exists (JStr item), []. repeat split. cbn; lia.
  - destruct (get_file_metadata_calls settings py_str client_get earlier
                (Some site) None (Some drive) (Some item) (Some "id,name") None)
      as (made & Hs & Hl).
    rewrite Hs.
    match goal with
    | |- exists v made', (match ?b with Ok w => Ok w | Raise e => Ok (@?f e) end, _) = _ /\ _ =>
        destruct b as [w|e]
    end; eexists; exists made; (split; [reflexivity|]); (split; [exact Hl|]);
      discriminate.
Qed.

(** When the site is given in a recognised Graph format and the drive
    resolves, the lookup of an input that is not taken for an ID ends with
    one GET with [$select=id,name]; it addresses the item by ID when the
    input has no ['/'] and more than 40 characters, and by path otherwise,
    so a file name of more than 40 characters is looked up as if it were
    an ID. *)
Theorem sharepoint_resolver_final_call (settings : graph_settings)
    (py_str : json -> string) (client_get : client) (earlier : list request)
    (item site drive : string) (drive_id : json) (calls : list request) :
  is_likely_id item = false ->
  item <> "" ->
  site <> "" ->
  _is_valid_graph_site_id_format site = true ->
  _get_drive_id settings client_get earlier site (Some drive) = (Ok drive_id, calls) ->
  snd (resolve_sp_item settings py_str client_get earlier item site drive)
  = mkRequest
      (JStr (if negb (contains_char "/"%char item) && (40 <? len_str item)
             then _get_sp_item_endpoint_by_id settings site (format py_str drive_id) item
             else _get_sp_item_endpoint_by_path settings site (format py_str drive_id) item))
      (Some [("$select", JStr "id,name")])
    :: calls.
Proof.
  intros Hid Hitem Hsite Hfmt Hdrive.
  unfold resolve_sp_item, _get_item_id_from_path_if_needed_sp.
  rewrite Hid. cbn [res_lookups].
  unfold get_file_metadata.
  apply String.eqb_neq in Hitem. apply String.eqb_neq in Hsite.
  cbn [given]. rewrite Hitem. cbn [negb].
  unfold _obtener_site_id_sp. cbn [given]. rewrite Hsite. cbn [negb].
  rewrite Hsite, Hfmt. cbn [format].
  rewrite Hdrive.
  rewrite (is_item_id_when_looked_up item Hid).
  cbn [String.eqb negb app call snd]. reflexivity.
Qed.

Lemma sharepoint_resolver_final_call_witness :
  snd (resolve_sp_item Tenant.graph (fun _ => "") Tenant.tenant_upstream []
         "annual-budget-forecast-2025-draft-version.xlsx"
         "contoso.sharepoint.com,1,2" "b!docs")
  = [mkRequest
       (JStr "https://graph.microsoft.com/v1.0/sites/contoso.sharepoint.com,1,2/drives/b!docs/items/annual-budget-forecast-2025-draft-version.xlsx")
       (Some [("$select", JStr "id,name")]);
     mkRequest
       (JStr "https://graph.microsoft.com/v1.0/sites/contoso.sharepoint.com,1,2/drives/b!docs?$select=id,name")
       None].
Proof.
  exact (sharepoint_resolver_final_call Tenant.graph (fun _ => "")
           Tenant.tenant_upstream []
           "annual-budget-forecast-2025-draft-version.xlsx"
           "contoso.sharepoint.com,1,2" "b!docs" (JStr "b!docs") _
           eq_refl ltac:(discriminate) ltac:(discriminate) eq_refl eq_refl).
Defined.

End SharePointLookupFacts.

Module MailFacts.
Import PyStr Mail PyStrFacts.

Lemma is_space_differs (a c : ascii) :
  is_space a = true -> is_space c = false -> Ascii.eqb a c = false.
Proof.
  intros Ha Hc. destruct (Ascii.eqb a c) eqn:He; [|reflexivity].
  apply Ascii.eqb_eq in He. congruence.
Qed.

Lemma contains_char_lstrip (c : ascii) (s : string) :
  is_space c = false -> contains_char c (lstrip s) = contains_char c s.
Proof.
  intros Hc. induction s as [|a rest IH]; cbn [lstrip]; [reflexivity|].
  destruct (is_space a) eqn:Ha; [|reflexivity].
  cbn [contains_char]. now rewrite (is_space_differs a c Ha Hc).
Qed.

Lemma contains_char_rstrip (c : ascii) (s : string) :
  is_space c = false -> contains_char c (rstrip s) = contains_char c s.
Proof.
  intros Hc. induction s as [|a rest IH]; cbn [rstrip]; [reflexivity|].
  cbn [contains_char]. rewrite <- IH.
  destruct (rstrip rest) as [|k kept].
  - destruct (is_space a) eqn:Ha; cbn [contains_char]; [|reflexivity].
    now rewrite (is_space_differs a c Ha Hc).
  - reflexivity.
Qed.

Lemma contains_char_strip (c : ascii) (s : string) :
  is_space c = false -> contains_char c (strip s) = contains_char c s.
Proof.
  intros Hc. unfold strip.
  now rewrite contains_char_rstrip, contains_char_lstrip.
Qed.

(** Stripping an address keeps it an address. *)
Lemma is_address_strip (s : string) : is_address (strip s) = is_address s.
Proof.
  unfold is_address. rewrite strip_idempotent.
  now rewrite (contains_char_strip "@" s eq_refl).
Qed.

Lemma recipient_of_is_graph_recipient (s : string) :
  is_graph_recipient (recipient_of s) = is_address s.
Proof. reflexivity. Qed.

Lemma collect_recipients_valid (items : list json) :
  Forall (fun r => is_graph_recipient r = true) (collect_recipients items).
Proof.
  induction items as [|item rest IH]; cbn [collect_recipients]; [constructor|].
  destruct item as [| | |s| |d].
  1-3, 5-6:
    match goal with
    | |- Forall _ (if is_graph_recipient ?i then _ else _) =>
        destruct (is_graph_recipient i) eqn:Hi; [constructor; assumption | exact IH]
    end.
  destruct (is_address s) eqn:Hs; [|exact IH].
  constructor; [|exact IH].
  now rewrite recipient_of_is_graph_recipient, is_address_strip.
Qed.

Lemma collect_recipients_fixed (items : list json) :
  Forall (fun r => is_graph_recipient r = true) items ->
  collect_recipients items = items.
Proof.
  induction 1 as [|item rest Hi _ IH]; cbn [collect_recipients]; [reflexivity|].
  destruct item as [| | |s| |d]; try discriminate Hi.
  now rewrite Hi, IH.
Qed.

Lemma collect_addresses (items : list string) :
  Forall (fun s => is_address s = true) items ->
  collect_recipients (map JStr items) = map recipient_of (map strip items).
Proof.
  induction 1 as [|s rest Hs _ IH]; cbn [collect_recipients map]; [reflexivity|].
  now rewrite Hs, IH.
Qed.

Lemma emails_from_string_valid (s : string) :
  Forall (fun e => is_address e = true) (emails_from_string s).
Proof.
  unfold emails_from_string. apply Forall_forall. intros e He.
  apply in_map_iff in He. destruct He as (p & <- & Hp).
  apply filter_In in Hp. rewrite is_address_strip. apply Hp.
Qed.

(** Every recipient [_normalize_recipients] returns has the Graph format:
    an object whose [emailAddress] is an object whose [address] is a string
    that is not blank and has an ['@'].  Hence the function is idempotent:
    its own output, passed back as a list, comes back unchanged. *)
Theorem normalized_recipients_are_valid (rec_input : json) :
  Forall (fun r => is_graph_recipient r = true) (_normalize_recipients rec_input)
  /\ _normalize_recipients (JList (_normalize_recipients rec_input))
     = _normalize_recipients rec_input.
Proof.
  assert (H : Forall (fun r => is_graph_recipient r = true)
                     (_normalize_recipients rec_input)).
  { destruct rec_input; cbn [_normalize_recipients];
      try constructor; apply collect_recipients_valid. }
  split; [exact H|].
  cbn [_normalize_recipients]. now apply collect_recipients_fixed.
Qed.

(** For a string, [';'] and [','] both separate addresses; a piece counts
    when it is not blank and has an ['@'], and the recipient carries the
    piece with the white space around it removed: the second validation,
    in the loop, rejects nothing the parsing accepted and changes none of
    the addresses. *)
Theorem recipients_of_a_string (s : string) :
  _normalize_recipients (JStr s)
  = map recipient_of
        (map strip (filter is_address
                      (split_char ","%char (replace_char ";"%char ","%char s)))).
Proof.
  cbn [_normalize_recipients].
  rewrite (collect_addresses _ (emails_from_string_valid s)).
  unfold emails_from_string. f_equal.
  rewrite map_map. apply map_ext_in. intros p _. apply strip_idempotent.
Qed.

End MailFacts.

Module UploadFacts.
Import Upload.

Lemma planned_puts_S (chunk_size : Z) (chunk : Z -> chunk_put) (n : nat) :
  planned_puts chunk_size chunk (S n)
  = chunk (planned_start chunk_size n) :: planned_puts chunk_size chunk n.
Proof.
  unfold planned_puts. rewrite seq_S, rev_app_distr. reflexivity.
Qed.

Lemma firstn_then_more {A} (a b : nat) (l : list A) :
  (firstn a l ++ firstn b (skipn a l))%list = firstn (a + b) l.
Proof.
  revert l. induction a as [|a IH]; intros l; [reflexivity|].
  destruct l as [|x l]; cbn [firstn skipn app Nat.add].
  - now rewrite firstn_nil.
  - now rewrite IH.
Qed.

Lemma len_slice (content : list Byte.byte) (i j : Z) :
  0 <= i -> i <= j -> j <= Py.len content ->
  Py.len (slice content i j) = j - i.
Proof.
  unfold slice, Py.len. intros Hi Hij Hj.
  rewrite length_firstn, length_skipn. lia.
Qed.

Section Session.

Variable put : put_server.
Variable upload_url : json.
Variable content : list Byte.byte.
Variable chunk_size : Z.
Variable DEFAULT_API_TIMEOUT : Z.
Hypothesis chunk_size_positive : 0 < chunk_size.

Lemma end_byte_next (k : nat) :
  end_byte_of content chunk_size (planned_start chunk_size k) + 1
  = Z.min (chunk_size * Z.of_nat (S k)) (file_size_bytes content).
Proof. unfold end_byte_of, planned_start. lia. Qed.

Lemma on_plan_start (chunk : Z -> chunk_put) (k : nat) (st : upload_state) :
  on_plan chunk_size content chunk k st ->
  start_byte st < file_size_bytes content ->
  start_byte st = planned_start chunk_size k.
Proof. intros (Hs & _) Hlt. unfold planned_start. lia. Qed.

Lemma od_follows_plan :
  follows_plan chunk_size content
    (od_chunk upload_url content chunk_size DEFAULT_API_TIMEOUT)
    (od_iterate put upload_url content chunk_size DEFAULT_API_TIMEOUT).
Proof.
  intros k st Hplan Hlt.
  pose proof (on_plan_start _ k st Hplan Hlt) as Hstart.
  destruct Hplan as (_ & Hmeta & Hputs).
  unfold od_iterate. rewrite Hstart, Hputs, <- planned_puts_S.
  cbn [range_end od_chunk]. rewrite end_byte_next.
  assert (Hnext : on_plan chunk_size content
                    (od_chunk upload_url content chunk_size DEFAULT_API_TIMEOUT) (S k)
                    (mkUploadState (Z.min (chunk_size * Z.of_nat (S k))
                                          (file_size_bytes content))
                                   (final_metadata st)
                                   (planned_puts chunk_size
                                      (od_chunk upload_url content chunk_size
                                                DEFAULT_API_TIMEOUT) (S k)))).
  { repeat split; assumption. }
  destruct (_ <- _ ;; _) as [r|e]; [|reflexivity].
  destruct (negb (String.eqb (text r) "")).
  - destruct (json_body r) as [response_json|]; [|exact Hnext].
    destruct (created (status_code r)).
    + destruct (py_get response_json "id" JNull) as [item_id|e]; [|reflexivity].
      destruct (truthy item_id); [|exact Hnext].
      split; [reflexivity | discriminate].
    + destruct (status_code r =? 202); [|exact Hnext].
      destruct (py_get response_json "nextExpectedRanges" JNull); [exact Hnext | reflexivity].
  - destruct (file_size_bytes content <=? _) eqn:Hdone; [|exact Hnext].
    split; [reflexivity|]. intros _. cbn [start_byte]. apply Z.leb_le in Hdone. lia.
Qed.

Lemma sp_follows_plan :
  follows_plan chunk_size content
    (sp_chunk upload_url content chunk_size DEFAULT_API_TIMEOUT)
    (sp_iterate put upload_url content chunk_size DEFAULT_API_TIMEOUT).
Proof.
  intros k st Hplan Hlt.
  pose proof (on_plan_start _ k st Hplan Hlt) as Hstart.
  destruct Hplan as (_ & Hmeta & Hputs).
  unfold sp_iterate. rewrite Hstart, Hputs, <- planned_puts_S.
  cbn [range_end sp_chunk]. rewrite end_byte_next.
  destruct (_ <- _ ;; _) as [r|e]; [|reflexivity].
  destruct (created (status_code r)).
  - destruct (json_body r); [|reflexivity].
    split; [reflexivity | discriminate].
  - repeat split; assumption.
Qed.

Variable chunk : Z -> chunk_put.
Variable iterate : upload_state -> upload_step.
Hypothesis iterate_follows_plan : follows_plan chunk_size content chunk iterate.

Lemma upload_loop_on_plan (fuel : nat) :
  forall (k : nat) (st : upload_state),
    on_plan chunk_size content chunk k st ->
    (Z.to_nat (file_size_bytes content - start_byte st) <= fuel)%nat ->
    (k = 0%nat \/ chunk_size * (Z.of_nat k - 1) < file_size_bytes content) ->
    exists n,
      (n = 0%nat \/ chunk_size * (Z.of_nat n - 1) < file_size_bytes content)
      /\ ended_after chunk_size content chunk (upload_loop content iterate fuel st) n.
Proof.
  induction fuel as [|fuel IH]; intros k st Hplan Hfuel Hk.
  - cbn [upload_loop].
    destruct (start_byte st <? file_size_bytes content) eqn:Hlt.
    + apply Z.ltb_lt in Hlt. lia.
    + apply Z.ltb_ge in Hlt. exists k. split; [exact Hk|].
      destruct Hplan as (Hs & _ & Hp). split; [exact Hp|]. intros _. lia.
  - cbn [upload_loop].
    destruct (start_byte st <? file_size_bytes content) eqn:Hlt.
    + apply Z.ltb_lt in Hlt.
      pose proof (iterate_follows_plan k st Hplan Hlt) as Hstep.
      assert (Hnew : S k = 0%nat
                     \/ chunk_size * (Z.of_nat (S k) - 1) < file_size_bytes content).
      { right. destruct Hplan as (Hs & _). lia. }
      destruct (iterate st) as [st'|st'|e st'].
      * apply (IH (S k) st' Hstep); [|exact Hnew].
        destruct Hstep as (Hs' & _). destruct Hplan as (Hs & _). lia.
      * exists (S k). split; [exact Hnew | exact Hstep].
      * exists (S k). split; [exact Hnew | exact Hstep].
    + apply Z.ltb_ge in Hlt. exists k. split; [exact Hk|].
      destruct Hplan as (Hs & _ & Hp). split; [exact Hp|]. intros _. lia.
Qed.

Lemma upload_from_start :
  exists n,
    (n = 0%nat \/ chunk_size * (Z.of_nat n - 1) < file_size_bytes content)
    /\ ended_after chunk_size content chunk
         (upload_loop content iterate (Z.to_nat (file_size_bytes content)) upload_start) n.
Proof.
  apply (upload_loop_on_plan _ 0%nat upload_start).
  - repeat split. cbn [start_byte upload_start]. unfold file_size_bytes, Py.len. lia.
  - cbn [start_byte upload_start]. lia.
  - now left.
Qed.

End Session.

Section Chunks.

Variable upload_url : json.
Variable content : list Byte.byte.
Variable chunk_size : Z.
Variable DEFAULT_API_TIMEOUT : Z.
Hypothesis chunk_size_positive : 0 < chunk_size.

Variable chunk : Z -> chunk_put.
Hypothesis chunk_range :
  forall start,
    range_start (chunk start) = start
    /\ range_end (chunk start) = end_byte_of content chunk_size start
    /\ range_total (chunk start) = file_size_bytes content
    /\ put_data (chunk start)
       = slice content start (end_byte_of content chunk_size start + 1)
    /\ put_length (chunk start) = Py.len (put_data (chunk start)).

Lemma chunk_well_formed (start : Z) :
  0 <= start -> start < file_size_bytes content ->
  well_formed_put chunk_size content (chunk start).
Proof.
  intros H0 Hlt. destruct (chunk_range start) as (Hs & He & Ht & Hd & Hl).
  assert (Hlen : Py.len (put_data (chunk start))
                 = end_byte_of content chunk_size start + 1 - start).
  { rewrite Hd. apply len_slice; unfold end_byte_of, file_size_bytes in *; lia. }
  unfold well_formed_put. rewrite Hl, Hlen, Hs, He, Ht, Hd.
  unfold end_byte_of. repeat split; lia.
Qed.

Lemma planned_puts_well_formed (n : nat) :
  (n = 0%nat \/ chunk_size * (Z.of_nat n - 1) < file_size_bytes content) ->
  Forall (well_formed_put chunk_size content) (planned_puts chunk_size chunk n).
Proof.
  induction n as [|n IH]; intros Hn; [constructor|].
  rewrite planned_puts_S. constructor.
  - apply chunk_well_formed; unfold planned_start; lia.
  - apply IH. destruct n; [now left | right; lia].
Qed.

Lemma sent_bytes_planned (n : nat) :
  sent_bytes (planned_puts chunk_size chunk n)
  = firstn (Z.to_nat (Z.min (chunk_size * Z.of_nat n) (file_size_bytes content)))
           content.
Proof.
  induction n as [|n IH].
  - replace (Z.min _ _) with 0 by (unfold file_size_bytes, Py.len; lia).
    reflexivity.
  - rewrite planned_puts_S. cbn [sent_bytes]. rewrite IH.
    destruct (chunk_range (planned_start chunk_size n)) as (_ & _ & _ & -> & _).
    unfold slice, end_byte_of, planned_start.
    destruct (Z.le_gt_cases (chunk_size * Z.of_nat n) (file_size_bytes content))
      as [Hle|Hgt].
    + rewrite Z.min_l by exact Hle. rewrite firstn_then_more. f_equal. lia.
    + replace (Z.to_nat (_ + 1 - _)) with 0%nat by lia.
      cbn [firstn]. rewrite app_nil_r. f_equal. lia.
Qed.

Lemma planned_count (n : nat) :
  (n = 0%nat \/ chunk_size * (Z.of_nat n - 1) < file_size_bytes content) ->
  Z.of_nat n <= (file_size_bytes content + chunk_size - 1) / chunk_size.
Proof.
  intros Hn. apply Z.div_le_lower_bound; [exact chunk_size_positive|].
  unfold file_size_bytes, Py.len in *. nia.
Qed.

Variable iterate : upload_state -> upload_step.
Hypothesis iterate_follows_plan : follows_plan chunk_size content chunk iterate.

Lemma session_report :
  exists n,
    Z.of_nat n <= (file_size_bytes content + chunk_size - 1) / chunk_size
    /\ match upload_loop content iterate (Z.to_nat (file_size_bytes content))
                         upload_start with
       | UpFinished st =>
           puts st = planned_puts chunk_size chunk n
           /\ Forall (well_formed_put chunk_size content) (puts st)
           /\ sent_bytes (puts st)
              = firstn (Z.to_nat (Z.min (chunk_size * Z.of_nat n)
                                        (file_size_bytes content))) content
           /\ (final_metadata st = None -> sent_bytes (puts st) = content)
       | UpFailed _ st =>
           puts st = planned_puts chunk_size chunk n
           /\ Forall (well_formed_put chunk_size content) (puts st)
           /\ sent_bytes (puts st)
              = firstn (Z.to_nat (Z.min (chunk_size * Z.of_nat n)
                                        (file_size_bytes content))) content
       | UpOutOfFuel => False
       end.
Proof.
  destruct (upload_from_start content chunk_size chunk_size_positive chunk iterate
              iterate_follows_plan) as (n & Hn & Hend).
  exists n. split; [now apply planned_count|].
  destruct (upload_loop _ _ _ _) as [st|e st|]; cbn [ended_after] in Hend;
    [| |exact Hend].
  - destruct Hend as (Hp & Hall). rewrite Hp.
    split; [reflexivity|]. split; [now apply planned_puts_well_formed|].
    split; [apply sent_bytes_planned|].
    intros Hmeta. specialize (Hall Hmeta). rewrite sent_bytes_planned.
    rewrite Z.min_r by exact Hall. unfold file_size_bytes, Py.len.
    rewrite Nat2Z.id. apply firstn_all.
  - rewrite Hend. split; [reflexivity|].
    split; [now apply planned_puts_well_formed | apply sent_bytes_planned].
Qed.

End Chunks.

Lemma od_chunk_range (upload_url : json) (content : list Byte.byte)
    (chunk_size timeout start : Z) :
  let chunk := od_chunk upload_url content chunk_size timeout in
  range_start (chunk start) = start
  /\ range_end (chunk start) = end_byte_of content chunk_size start
  /\ range_total (chunk start) = file_size_bytes content
  /\ put_data (chunk start)
     = slice content start (end_byte_of content chunk_size start + 1)
  /\ put_length (chunk start) = Py.len (put_data (chunk start)).
Proof. repeat split. Qed.

Lemma sp_chunk_range (upload_url : json) (content : list Byte.byte)
    (chunk_size timeout start : Z) :
  let chunk := sp_chunk upload_url content chunk_size timeout in
  range_start (chunk start) = start
  /\ range_end (chunk start) = end_byte_of content chunk_size start
  /\ range_total (chunk start) = file_size_bytes content
  /\ put_data (chunk start)
     = slice content start (end_byte_of content chunk_size start + 1)
  /\ put_length (chunk start) = Py.len (put_data (chunk start)).
Proof. repeat split. Qed.

Lemma CHUNK_SIZE_positive : 0 < CHUNK_SIZE.
Proof. reflexivity. Qed.

(** The chunk loops of both upload sessions end, whatever the upload URL
    answers; they make at most [ceil(size / chunk_size)] PUTs; the PUTs are
    the chunks at [0], [chunk_size], [2 * chunk_size], ... in this order,
    none skipped and none repeated; and each PUT is well formed: its range
    lies inside the file, its [Content-Length] is the span of its
    [Content-Range] and the length of its data, and is at most
    [chunk_size]. *)
Theorem upload_sessions_follow_the_plan (put : put_server) (upload_url : json)
    (content : list Byte.byte) (timeout : Z) :
  (exists n,
     Z.of_nat n <= (file_size_bytes content + CHUNK_SIZE - 1) / CHUNK_SIZE
     /\ match upload_final (od_upload_loop put upload_url content CHUNK_SIZE timeout) with
        | Some st =>
            puts st = planned_puts CHUNK_SIZE
                        (od_chunk upload_url content CHUNK_SIZE timeout) n
            /\ Forall (well_formed_put CHUNK_SIZE content) (puts st)
        | None => False
        end)
  /\ (exists n,
        Z.of_nat n <= (file_size_bytes content + CHUNK_SIZE - 1) / CHUNK_SIZE
        /\ match upload_final (sp_upload_loop put upload_url content CHUNK_SIZE timeout) with
           | Some st =>
               puts st = planned_puts CHUNK_SIZE
                           (sp_chunk upload_url content CHUNK_SIZE timeout) n
               /\ Forall (well_formed_put CHUNK_SIZE content) (puts st)
           | None => False
           end).
Proof.
  split.
  - destruct (session_report content CHUNK_SIZE CHUNK_SIZE_positive _
                (od_chunk_range upload_url content CHUNK_SIZE timeout) _
                (od_follows_plan put upload_url content CHUNK_SIZE timeout))
      as (n & Hn & Hend).
    exists n. split; [exact Hn|]. unfold od_upload_loop.
    destruct (upload_loop _ _ _ _) as [st|e st|]; cbn [upload_final];
      [| |exact Hend]; now destruct Hend as (? & ? & _).
  - destruct (session_report content CHUNK_SIZE CHUNK_SIZE_positive _
                (sp_chunk_range upload_url content CHUNK_SIZE timeout) _
                (sp_follows_plan put upload_url content CHUNK_SIZE timeout))
      as (n & Hn & Hend).
    exists n. split; [exact Hn|]. unfold sp_upload_loop.
    destruct (upload_loop _ _ _ _) as [st|e st|]; cbn [upload_final];
      [| |exact Hend]; now destruct Hend as (? & ? & _).
Qed.



End UploadFacts.

Module RouteFacts.
Import PyStr Dispatch Route DispatchFacts.

Lemma ACTION_MAP_get_some (implementation : string -> action_function)
    (action_name : string) (f : action_function) :
  ACTION_MAP_get implementation action_name = Some f ->
  In action_name ACTION_MAP_keys /\ f = implementation action_name.
Proof.
  unfold ACTION_MAP_get.
  destruct (existsb (String.eqb action_name) ACTION_MAP_keys) eqn:Hk; [|discriminate].
  intros H. injection H as <-. split; [|reflexivity].
  apply existsb_exists in Hk. destruct Hk as (k & Hin & Heq).
  apply String.eqb_eq in Heq. now subst k.
Qed.

(** No key of [ACTION_MAP] is the name the route tests a CSV result for. *)
Lemma csv_action_is_not_registered (implementation : string -> action_function)
    (action_name : string) (f : action_function) :
  ACTION_MAP_get implementation action_name = Some f ->
  String.eqb action_name "memory_export_session" = false.
Proof.
  unfold ACTION_MAP_get.
  destruct (String.eqb action_name "memory_export_session") eqn:He; [|reflexivity].
  apply String.eqb_eq in He. subst action_name.
  vm_compute. discriminate.
Qed.

Lemma refusal_is_500 (new_credential : pyres (list string -> pyres unit))
    (scope : list string) (refused : route_response) :
  authenticate new_credential scope = Some refused ->
  exists message, refused = RouteError 500 message.
Proof.
  unfold authenticate.
  destruct new_credential as [get_token|e];
    [|intros H; injection H as <-; eexists; reflexivity].
  destruct (get_token scope) as [[]|e].
  - destruct scope; [|discriminate].
    intros H; injection H as <-; eexists; reflexivity.
  - repeat match goal with
           | |- context [match ?x with _ => _ end] => destruct x
           end;
      intros H; injection H as <-; eexists; reflexivity.
Qed.

(** Authentication comes first: when the credential cannot be built, the
    token probe fails or the scope list is empty, the route answers 500
    for every request, also for an action that does not exist (which would
    otherwise be a 400), and the answer does not depend on the action
    functions, which are not run. *)
Theorem failed_authentication_answers_500
    (new_credential : pyres (list string -> pyres unit)) (scope : list string)
    (implementation : string -> action_function) (validates : dict -> bool)
    (action_name : string) (params_req : dict) :
  authenticate new_credential scope <> None ->
  route_status (process_dynamic_action new_credential scope implementation validates
                                       action_name params_req) = 500
  /\ forall other,
       process_dynamic_action new_credential scope other validates action_name params_req
       = process_dynamic_action new_credential scope implementation validates
                                action_name params_req.
Proof.
  intros Hauth. unfold process_dynamic_action.
  destruct (authenticate new_credential scope) as [refused|] eqn:Ha; [|contradiction].
  destruct (refusal_is_500 _ _ _ Ha) as (message & ->).
  split; reflexivity.
Qed.

Lemma failed_authentication_answers_500_witness :
  route_status
    (process_dynamic_action
       (Ok (fun _ => Raise (OtherError "CredentialUnavailableError" "no credential")))
       ["https://graph.microsoft.com/.default"]
       (fun _ _ => Ok (RDict [("status", JStr "success")])) (fun _ => true)
       "no_such_action" []) = 500.
Proof.
  exact (proj1 (failed_authentication_answers_500
                  (Ok (fun _ => Raise (OtherError "CredentialUnavailableError" "no credential")))
                  ["https://graph.microsoft.com/.default"]
                  (fun _ _ => Ok (RDict [("status", JStr "success")])) (fun _ => true)
                  "no_such_action" [] ltac:(discriminate))).
Defined.

(** The route never answers with the CSV attachment: it serves a string
    result only for the action name [memory_export_session], and
    [ACTION_MAP] registers the export under [sp_memory_export_session].  So
    a string returned by any registered action, the CSV export included,
    ends as the 500 for an unexpected type of result. *)
Theorem csv_export_is_never_served
    (new_credential : pyres (list string -> pyres unit)) (scope : list string)
    (implementation : string -> action_function) (validates : dict -> bool)
    (action_name : string) (params_req : dict) :
  (forall content,
     process_dynamic_action new_credential scope implementation validates
                            action_name params_req <> RouteCsv content)
  /\ (forall text,
        authenticate new_credential scope = None ->
        In action_name ACTION_MAP_keys ->
        implementation action_name params_req = Ok (RStr text) ->
        process_dynamic_action new_credential scope implementation validates
                               action_name params_req
        = RouteError 500 "La acción devolvió un tipo de resultado inesperado.").
Proof.
  split.
  - intros content. unfold process_dynamic_action.
    destruct (authenticate new_credential scope) as [refused|] eqn:Ha.
    + destruct (refusal_is_500 _ _ _ Ha) as (message & ->). discriminate.
    + destruct (ACTION_MAP_get implementation action_name) as [f|] eqn:Hf;
        [|discriminate].
      rewrite (csv_action_is_not_registered _ _ _ Hf). cbn [andb].
      destruct (f params_req) as [[c|t|d|]|e]; discriminate.
  - intros text Ha Hin Hres. unfold process_dynamic_action. rewrite Ha.
    destruct (ACTION_MAP_get implementation action_name) as [f|] eqn:Hf.
    + rewrite (csv_action_is_not_registered _ _ _ Hf).
      destruct (ACTION_MAP_get_some _ _ _ Hf) as (_ & ->). now rewrite Hres.
    + unfold ACTION_MAP_get in Hf.
      assert (Hk : existsb (String.eqb action_name) ACTION_MAP_keys = true).
      { apply existsb_exists. exists action_name. split; [exact Hin|].
        apply String.eqb_refl. }
      now rewrite Hk in Hf.
Qed.

Lemma csv_export_is_never_served_witness :
  process_dynamic_action (Ok (fun _ => Ok tt)) ["https://graph.microsoft.com/.default"]
    (fun _ _ => Ok (RStr "SessionID,Clave")) (fun _ => true)
    "sp_memory_export_session" [("session_id", JStr "s1"); ("format", JStr "csv")]
  = RouteError 500 "La acción devolvió un tipo de resultado inesperado.".
Proof.
  apply (proj2 (csv_export_is_never_served (Ok (fun _ => Ok tt))
                  ["https://graph.microsoft.com/.default"]
                  (fun _ _ => Ok (RStr "SessionID,Clave")) (fun _ => true)
                  "sp_memory_export_session"
                  [("session_id", JStr "s1"); ("format", JStr "csv")])
               "SessionID,Clave" eq_refl).
  - vm_compute. tauto.
  - reflexivity.
Defined.

(** A 2xx answer of the route means that the request went all the way:
    authentication passed, the action is registered, and its function
    returned, without an exception, bytes or a dictionary whose [status]
    is not ["error"]. *)
Theorem success_answer_means_the_action_succeeded
    (new_credential : pyres (list string -> pyres unit)) (scope : list string)
    (implementation : string -> action_function) (validates : dict -> bool)
    (action_name : string) (params_req : dict) :
  is_2xx (route_status (process_dynamic_action new_credential scope implementation
                                               validates action_name params_req)) = true ->
  authenticate new_credential scope = None
  /\ In action_name ACTION_MAP_keys
  /\ exists result,
       implementation action_name params_req = Ok result /\ succeeded result.
Proof.
  unfold process_dynamic_action.
  destruct (authenticate new_credential scope) as [refused|] eqn:Ha.
  - destruct (refusal_is_500 _ _ _ Ha) as (message & ->). discriminate.
  - destruct (ACTION_MAP_get implementation action_name) as [f|] eqn:Hf;
      [|discriminate].
    rewrite (csv_action_is_not_registered _ _ _ Hf). cbn [andb].
    destruct (ACTION_MAP_get_some _ _ _ Hf) as (Hin & ->).
    destruct (implementation action_name params_req) as [[c|t|d|]|e];
      try discriminate.
    + intros _. split; [reflexivity|]. split; [exact Hin|]. eexists; split; [reflexivity | exact I].
    + cbn [route_status]. intros H2.
      split; [reflexivity|]. split; [exact Hin|]. eexists. split; [reflexivity|].
      cbn [succeeded].
      destruct (eq_str (dict_get_default "status" JNull d) "error") eqn:Hs;
        [|reflexivity].
      rewrite (error_result_not_2xx validates d Hs) in H2. discriminate.
Qed.

Lemma success_answer_means_the_action_succeeded_witness :
  exists result,
    (fun (_ : string) (_ : dict) => Ok (RDict [("status", JStr "success")]))
      "onedrive_list_items" [] = Ok result
    /\ succeeded result.
Proof.
  exact (proj2 (proj2 (success_answer_means_the_action_succeeded
                         (Ok (fun _ => Ok tt)) ["https://graph.microsoft.com/.default"]
                         (fun _ _ => Ok (RDict [("status", JStr "success")]))
                         (fun _ => true) "onedrive_list_items" [] eq_refl))).
Defined.

Lemma split_char_no_separator (sep : ascii) (s : string) :
  contains_char sep s = false -> split_char sep s = [s].
Proof.
  induction s as [|c rest IH]; cbn [contains_char split_char]; [reflexivity|].
  destruct (Ascii.eqb c sep); [discriminate|].
  intros H. now rewrite (IH H).
Qed.

Lemma split_char_last_piece (sep : ascii) (base ext : string) :
  contains_char sep ext = false ->
  exists first_piece pieces,
    split_char sep (base ++ String sep ext)
    = (first_piece :: pieces ++ [ext])%list.
Proof.
  intros Hext. induction base as [|c rest IH]; cbn [String.append split_char].
  - rewrite Ascii.eqb_refl, (split_char_no_separator sep ext Hext).
    now exists "", [].
  - destruct IH as (p & ps & ->).
    destruct (Ascii.eqb c sep).
    + now exists "", (p :: ps).
    + now exists (String c p), ps.
Qed.

Lemma last_of_pieces (first_piece : string) (pieces : list string) (ext : string) :
  last (first_piece :: pieces ++ [ext])%list "" = ext.
Proof. apply (last_last (first_piece :: pieces) ext ""). Qed.

Lemma contains_char_separator (sep : ascii) (base ext : string) :
  contains_char sep (base ++ String sep ext) = true.
Proof.
  induction base as [|c rest IH]; cbn [String.append contains_char].
  - now rewrite Ascii.eqb_refl.
  - now destruct (Ascii.eqb c sep).
Qed.

(** Of the registered actions only [profile_get_my_photo],
    [sp_download_document] and [powerbi_export_report] can have their bytes
    served with a media type of their own; the bytes of every other
    action, [onedrive_download_file] among them, are served as
    [application/octet-stream] whatever the parameters and the file name
    are. *)
Theorem binary_answers_are_typed_by_action_name (action_name : string)
    (params_req : dict) :
  In action_name ACTION_MAP_keys ->
  action_name <> "profile_get_my_photo" ->
  action_name <> "sp_download_document" ->
  action_name <> "powerbi_export_report" ->
  media_type_of action_name params_req = "application/octet-stream".
Proof.
  intros Hin H1 H2 H3.
  assert (Hall : forallb
                   (fun k =>
                      String.eqb k "profile_get_my_photo"
                      || String.eqb k "sp_download_document"
                      || String.eqb k "powerbi_export_report"
                      || (negb (contains_sub "photo" (lower k)
                                || endswith "_get_my_photo" k)
                          && negb (endswith "_download_document" k
                                   || endswith "_export_report" k)))
                   ACTION_MAP_keys = true) by (vm_compute; reflexivity).
  rewrite forallb_forall in Hall. specialize (Hall action_name Hin).
  apply String.eqb_neq in H1, H2, H3. rewrite H1, H2, H3 in Hall.
  cbn [orb] in Hall. apply andb_true_iff in Hall. destruct Hall as (Ha & Hb).
  apply negb_true_iff in Ha, Hb.
  unfold media_type_of. now rewrite Ha, Hb.
Qed.

Lemma binary_answers_are_typed_by_action_name_witness :
  media_type_of "onedrive_download_file" [("filename", JStr "report.pdf")]
  = "application/octet-stream".
Proof.
  apply binary_answers_are_typed_by_action_name;
    [vm_compute; tauto | discriminate | discriminate | discriminate].
Defined.

(** Where the media type follows the file name, it follows the text after
    the last ['.'] of [filename] alone: two names with the same extension
    are served alike, whatever dots and directories come before it. *)
Theorem media_type_reads_the_last_extension (action_name : string)
    (params_req params_req' : dict) (base base' ext : string) :
  contains_char "."%char ext = false ->
  dict_get "filename" params_req = Some (JStr (base ++ "." ++ ext)) ->
  dict_get "filename" params_req' = Some (JStr (base' ++ "." ++ ext)) ->
  media_type_of action_name params_req = media_type_of action_name params_req'.
Proof.
  intros Hext Hf Hf'. unfold media_type_of, dict_get_default.
  rewrite Hf, Hf'. cbn [String.append].
  rewrite !contains_char_separator.
  destruct (split_char_last_piece "." base ext Hext) as (p & ps & ->).
  destruct (split_char_last_piece "." base' ext Hext) as (p' & ps' & ->).
  now rewrite !last_of_pieces.
Qed.

Lemma media_type_reads_the_last_extension_witness :
  media_type_of "sp_download_document"
                [("filename", JStr "Reports/2024.q1/summary.v2.PDF")]
  = "application/pdf".
Proof.
  exact (media_type_reads_the_last_extension "sp_download_document"
           [("filename", JStr "Reports/2024.q1/summary.v2.PDF")]
           [("filename", JStr "x.PDF")]
           "Reports/2024.q1/summary.v2" "x" "PDF" eq_refl eq_refl eq_refl).
Defined.

End RouteFacts.
